(** * RNSE anomaly SaaS: the upload, extraction and download pipeline

    The repository ships the React client together with the integration
    and architecture guides of its FastAPI backend.  The guides quote the
    backend's upload handler (CSV parsing, scorer invocation, anomaly
    extraction, result storage) as Python excerpts; this development
    embeds those excerpts, together with the library functions they call
    on the uploaded text ([csv.reader], [float]), and proves the
    properties the specification states about them.  The proprietary
    scorer [rnse_run] is a parameter.  The read endpoints (record lookup
    and CSV download) are not quoted anywhere in the repository and are
    modelled from the specification.

    Conventions of the embedding:
    - a Python [float] is an IEEE 754 binary64 value, modelled by the
      standard library's [spec_float] at precision 53 and maximal
      exponent 1024;
    - a Python [str] is a [string] whose characters are code points
      below 256;
    - a statement that may raise returns a [result], carrying the
      exception that escapes it. *)

From Stdlib Require Import ZArith NArith List String Ascii Bool Lia.
From Stdlib Require Import DecimalString DecimalFacts DecimalNat DecimalN DecimalZ.
From Stdlib Require Import Floats.SpecFloat Sorting.Sorted.
From stdpp Require Import base option list gmap strings.

Set Warnings "-register-all".

Local Open Scope Z_scope.

(** ** Exceptions and results *)

(** The exceptions that can escape the quoted backend code. *)
Inductive exn : Type :=
  | HTTPException (status_code : Z) (detail : string)
  | ValueError
  | CsvError.

Inductive result (A : Type) : Type :=
  | Ok (a : A)
  | Raise (e : exn).

Arguments Ok {A} a.
Arguments Raise {A} e.

#[global] Instance result_ret : MRet result := @Ok.

#[global] Instance result_bind : MBind result :=
  fun A B k r =>
    match r with
    | Ok a => k a
    | Raise e => Raise e
    end.

(** ** Python floats *)

Module Float64.

Definition prec : Z := 53.
Definition emax : Z := 1024.

Abbreviation float := spec_float.

Definition valid (x : float) : Prop := valid_binary prec emax x = true.

(** The literals [0.0] and [1.0]. *)
Definition zero : float := S754_zero false.
Definition one : float := S754_finite false 4503599627370496 (-52).

Definition div (x y : float) : float := SFdiv prec emax x y.

(** [x < y], [x > y] and [x <= y]: false as soon as one side is NaN. *)
Definition ltb (x y : float) : bool := SFltb x y.
Definition gtb (x y : float) : bool := SFltb y x.
Definition leb (x y : float) : bool := SFleb x y.

(** [float(n)] for a Python [int]: rounds to nearest even and raises
    [OverflowError] when the integer is too large. *)
Definition of_int (n : Z) : option float :=
  match binary_normalize prec emax n 0 false with
  | S754_infinity _ => None
  | f => Some f
  end.

(** The correctly rounded value of [(-1)^s * m * 10^e10], as computed by
    the string to double conversion; an overflow yields an infinity. *)
Definition of_decimal (s : bool) (m : Z) (e10 : Z) : float :=
  match m with
  | Zpos p =>
      match e10 with
      | Zneg k =>
          SFdiv prec emax (S754_finite s p 0)
                (S754_finite false (Pos.pow 10 k) 0)
      | _ => binary_round prec emax s (Z.to_pos (m * 10 ^ e10)) 0
      end
  | _ => S754_zero s
  end.

(** Floats are compared structurally when a value must be recovered
    exactly. *)
#[global] Instance float_eq_dec : EqDecision spec_float.
Proof. solve_decision. Defined.

(** Python's two-argument [max] and [min] keep the first argument unless
    the second compares strictly greater (resp. smaller). *)
Definition py_max (a b : float) : float := if gtb b a then b else a.
Definition py_min (a b : float) : float := if ltb b a then b else a.

End Float64.

Import Float64.

(** ** [float(str)] *)

Module PyFloat.

Definition code (c : ascii) : Z := Z.of_N (N_of_ascii c).

(** White space stripped by [float]: the C locale blanks, and the two
    Latin-1 blanks (NEL, NBSP) that are mapped to a space beforehand. *)
Definition is_space (c : ascii) : bool :=
  let n := code c in
  ((9 <=? n) && (n <=? 13)) || (n =? 32) || (n =? 133) || (n =? 160).

Definition is_digit (c : ascii) : bool :=
  let n := code c in (48 <=? n) && (n <=? 57).

Definition digit_value (c : ascii) : Z := code c - 48.

Definition lower (c : ascii) : ascii :=
  let n := code c in
  if (65 <=? n) && (n <=? 90) then ascii_of_N (Z.to_N (n + 32)) else c.

(** Underscores are accepted between two digits only, and are removed
    before the number is read.  [prev] is the previous character. *)
Fixpoint strip_underscores (prev : option ascii) (l : list ascii)
  : option (list ascii) :=
  match l with
  | [] =>
      match prev with
      | Some "_"%char => None
      | _ => Some []
      end
  | c :: l' =>
      if Ascii.eqb c "_" then
        match prev with
        | Some p => if is_digit p then strip_underscores (Some c) l' else None
        | None => None
        end
      else
        match prev with
        | Some "_"%char =>
            if is_digit c
            then option_map (cons c) (strip_underscores (Some c) l')
            else None
        | _ => option_map (cons c) (strip_underscores (Some c) l')
        end
  end.

Fixpoint drop_spaces (l : list ascii) : list ascii :=
  match l with
  | c :: l' => if is_space c then drop_spaces l' else l
  | [] => []
  end.

Definition strip (l : list ascii) : list ascii :=
  rev (drop_spaces (rev (drop_spaces l))).

(** The longest prefix of decimal digits, and what follows it. *)
Fixpoint take_digits (l : list ascii) : list ascii * list ascii :=
  match l with
  | c :: l' =>
      if is_digit c
      then let '(ds, r) := take_digits l' in (c :: ds, r)
      else ([], l)
  | [] => ([], [])
  end.

Definition digits_value (ds : list ascii) : Z :=
  fold_left (fun acc c => 10 * acc + digit_value c) ds 0.

Definition take_sign (l : list ascii) : bool * list ascii :=
  match l with
  | "-"%char :: l' => (true, l')
  | "+"%char :: l' => (false, l')
  | _ => (false, l)
  end.

(** The optional exponent: [e] or [E], an optional sign and at least one
    digit; an exponent marker without digits is not consumed. *)
Definition take_exponent (l : list ascii) : Z * list ascii :=
  match l with
  | c :: l' =>
      if Ascii.eqb (lower c) "e" then
        let '(s, l'') := take_sign l' in
        let '(ds, r) := take_digits l'' in
        match ds with
        | [] => (0, l)
        | _ => ((if s then - digits_value ds else digits_value ds), r)
        end
      else (0, l)
  | [] => (0, [])
  end.

(** A decimal number: digits with an optional point, at least one digit
    in all, and an optional exponent.  Nothing may follow. *)
Definition parse_decimal (s : bool) (l : list ascii) : option float :=
  let '(ip, r1) := take_digits l in
  let '(fp, r2) :=
    match r1 with
    | "."%char :: r1' => take_digits r1'
    | _ => ([], r1)
    end in
  match ip ++ fp with
  | [] => None
  | ds =>
      match take_exponent r2 with
      | (e, []) =>
          Some (of_decimal s (digits_value ds) (e - Z.of_nat (length fp)))
      | _ => None
      end
  end.

(** [inf], [infinity] and [nan], in any letter case. *)
Definition parse_inf_or_nan (s : bool) (l : list ascii) : option float :=
  let w := String.string_of_list_ascii (map lower l) in
  if String.eqb w "inf" || String.eqb w "infinity" then Some (S754_infinity s)
  else if String.eqb w "nan" then Some S754_nan
  else None.

(** [float(s)]: [None] stands for the [ValueError] it raises. *)
Definition float_of_string (s : string) : option float :=
  match strip_underscores None (String.list_ascii_of_string s) with
  | None => None
  | Some l =>
      let '(sg, body) := take_sign (strip l) in
      match parse_decimal sg body with
      | Some x => Some x
      | None => parse_inf_or_nan sg body
      end
  end.

End PyFloat.

(** ** [csv.reader(io.StringIO(text))] *)

Module Csv.

(** The reader runs with the default (excel) dialect: a comma as the
    delimiter, the double quote as the quote character (doubled inside
    a quoted field), no escape character, no skipping of initial
    spaces, not strict.  A field holds at most [field_limit] characters.
    The automaton is the one of CPython 3.11 and later, where a NUL is
    an ordinary character. *)
Definition delimiter : ascii := ",".
Definition quotechar : ascii := ascii_of_N 34.
Definition field_limit : Z := 131072.

Definition LF : ascii := ascii_of_N 10.
Definition CR : ascii := ascii_of_N 13.

Definition is_newline (c : ascii) : bool := Ascii.eqb c LF || Ascii.eqb c CR.

(** [io.StringIO] yields the text line by line; a line ends with, and
    keeps, its line feed. *)
Fixpoint readlines (l : list ascii) : list (list ascii) :=
  match l with
  | [] => []
  | c :: l' =>
      if Ascii.eqb c LF then [c] :: readlines l'
      else
        match readlines l' with
        | [] => [[c]]
        | ln :: lns => (c :: ln) :: lns
        end
  end.

Inductive parser_state : Type :=
  | START_RECORD
  | START_FIELD
  | IN_FIELD
  | IN_QUOTED_FIELD
  | QUOTE_IN_QUOTED_FIELD
  | EAT_CRNL.

#[global] Instance parser_state_eq_dec : EqDecision parser_state.
Proof. solve_decision. Defined.

Record reader : Type := Reader {
  state : parser_state;
  field : list ascii;
  fields : list string
}.

Definition parse_reset : reader := Reader START_RECORD [] [].

Definition set_state (r : reader) (st : parser_state) : reader :=
  Reader st (field r) (fields r).

Definition parse_save_field (r : reader) : reader :=
  Reader (state r) [] (fields r ++ [String.string_of_list_ascii (field r)]).

Definition parse_add_char (r : reader) (c : ascii) : result reader :=
  if field_limit <=? Z.of_nat (length (field r)) then Raise CsvError
  else Ok (Reader (state r) (field r ++ [c]) (fields r)).

(** The end of a field at a line break ([Some c]) or at the end of the
    line ([None]). *)
Definition end_of_line (r : reader) (c : option ascii) : reader :=
  set_state (parse_save_field r)
            (match c with None => START_RECORD | Some _ => EAT_CRNL end).

Definition start_field (r : reader) (c : option ascii) : result reader :=
  match c with
  | None => Ok (end_of_line r c)
  | Some ch =>
      if is_newline ch then Ok (end_of_line r c)
      else if Ascii.eqb ch quotechar then Ok (set_state r IN_QUOTED_FIELD)
      else if Ascii.eqb ch delimiter
           then Ok (set_state (parse_save_field r) START_FIELD)
      else r' ← parse_add_char r ch; Ok (set_state r' IN_FIELD)
  end.

(** One step of the reader's automaton; [None] is the end of the line. *)
Definition parse_process_char (r : reader) (c : option ascii) : result reader :=
  match state r with
  | START_RECORD =>
      match c with
      | None => Ok r
      | Some ch =>
          if is_newline ch then Ok (set_state r EAT_CRNL)
          else start_field r c
      end
  | START_FIELD => start_field r c
  | IN_FIELD =>
      match c with
      | None => Ok (end_of_line r c)
      | Some ch =>
          if is_newline ch then Ok (end_of_line r c)
          else if Ascii.eqb ch delimiter
               then Ok (set_state (parse_save_field r) START_FIELD)
          else parse_add_char r ch
      end
  | IN_QUOTED_FIELD =>
      match c with
      | None => Ok r
      | Some ch =>
          if Ascii.eqb ch quotechar then Ok (set_state r QUOTE_IN_QUOTED_FIELD)
          else parse_add_char r ch
      end
  | QUOTE_IN_QUOTED_FIELD =>
      match c with
      | None => Ok (end_of_line r c)
      | Some ch =>
          if Ascii.eqb ch quotechar
          then r' ← parse_add_char r ch; Ok (set_state r' IN_QUOTED_FIELD)
          else if Ascii.eqb ch delimiter
               then Ok (set_state (parse_save_field r) START_FIELD)
          else if is_newline ch then Ok (end_of_line r c)
          else r' ← parse_add_char r ch; Ok (set_state r' IN_FIELD)
      end
  | EAT_CRNL =>
      match c with
      | None => Ok (set_state r START_RECORD)
      | Some ch => if is_newline ch then Ok r else Raise CsvError
      end
  end.

(** The characters of one line, then the end-of-line step. *)
Fixpoint parse_line (r : reader) (line : list ascii) : result reader :=
  match line with
  | [] => parse_process_char r None
  | c :: line' => r' ← parse_process_char r (Some c); parse_line r' line'
  end.

(** The rows the reader yields: a record is complete when the automaton
    is back in [START_RECORD] at the end of a line; input that ends
    inside a record yields what was read of it. *)
Fixpoint rows_from (r : reader) (lines : list (list ascii))
  : result (list (list string)) :=
  match lines with
  | [] =>
      if negb (Nat.eqb (length (field r)) 0)
         || bool_decide (state r = IN_QUOTED_FIELD)
      then Ok [fields (parse_save_field r)]
      else Ok []
  | line :: lines' =>
      r' ← parse_line r line;
      if bool_decide (state r' = START_RECORD)
      then rows ← rows_from parse_reset lines'; Ok (fields r' :: rows)
      else rows_from r' lines'
  end.

(** [list(csv.reader(io.StringIO(text)))] *)
Definition read (text : string) : result (list (list string)) :=
  rows_from parse_reset (readlines (String.list_ascii_of_string text)).

End Csv.

(** ** JSON values *)

(** What [json.loads] returns.  An object keeps its members in an
    association list: the first binding of a key is the one the
    dictionary holds. *)
Inductive json : Type :=
  | JNull
  | JBool (b : bool)
  | JInt (n : Z)
  | JFloat (x : float)
  | JString (s : string)
  | JArray (elems : list json)
  | JObject (members : list (string * json)).

(** One element of [result["lines"]], represented by the outcome of
    [json.loads(line_bytes.decode("utf-8"))]: the decoded value, or [None]
    when decoding or parsing raises. *)
Definition line_bytes : Type := option json.

(** ** The backend's upload handler *)

Module Backend.

(** *** Input preparation *)

Definition need_at_least_10 : exn :=
  HTTPException 400 "Need at least 10 data points".

(** The body of [for row in rows[1:]]: rows with at most one column are
    passed over, [float(row[1])] is not guarded. *)
Definition append_value (values : list float) (row : list string)
  : result (list float) :=
  if (1 <? length row)%nat then
    match PyFloat.float_of_string (nth 1 row EmptyString) with
    | Some v => Ok (values ++ [v])
    | None => Raise ValueError
    end
  else Ok values.

Fixpoint for_rows (rows : list (list string)) (values : list float)
  : result (list float) :=
  match rows with
  | [] => Ok values
  | row :: rows' => values' ← append_value values row; for_rows rows' values'
  end.

(** The numeric values of column 1, header row skipped. *)
Definition numeric_values (text : string) : result (list float) :=
  rows ← Csv.read text; for_rows (tail rows) [].

Definition validate (values : list float) : result (list float) :=
  if (length values <? 10)%nat then Raise need_at_least_10 else Ok values.

(** Parsing followed by validation: the handler's decoding step. *)
Definition decode (text : string) : result (list float) :=
  values ← numeric_values text; validate values.

(** A data row the value loop passes over or converts. *)
Definition short_or_numeric (row : list string) : Prop :=
  (length row <= 1)%nat \/
  is_Some (PyFloat.float_of_string (nth 1 row EmptyString)).

(** A data row on which [float(row[1])] raises. *)
Definition not_numeric (row : list string) : Prop :=
  (1 < length row)%nat /\
  PyFloat.float_of_string (nth 1 row EmptyString) = None.

(** *** Algorithm invocation *)

Record RNSEParams : Type := {
  tau : float;
  q : Z;
  alpha : option float
}.

Record rnse_output : Type := {
  beta : float;
  var_tail : float;
  digest : string;
  roots : list string;
  lines : list line_bytes
}.

(** [RNSEParams(tau=0.25, q=4, alpha=None)] *)
Definition params : RNSEParams :=
  {| tau := S754_finite false 4503599627370496 (-54); q := 4; alpha := None |}.

(** [0x5EEDBEEFCAFE1234] *)
Definition seed64 : Z := 6840333346157761076.

(** *** Anomaly detection *)

(** [0.3] *)
Definition default_threshold : float :=
  S754_finite false 5404319552844595 (-54).

Fixpoint dict_get (members : list (string * json)) (key : string) (default : json)
  : json :=
  match members with
  | [] => default
  | (k, v) :: members' =>
      if String.eqb k key then v else dict_get members' key default
  end.

(** [line.get("D", 0.0)]: only a dictionary has [get]. *)
Definition get_D (line : json) : option json :=
  match line with
  | JObject members => Some (dict_get members "D" (JFloat zero))
  | _ => None
  end.

Definition is_zero (x : float) : bool :=
  match x with
  | S754_zero _ => true
  | _ => false
  end.

(** [divergence / norm] for a float [norm]: a float, an int or a bool
    can be divided (an int too large for a float raises), anything else
    raises; so does a division by zero. *)
Definition truediv (divergence : json) (norm : float) : option float :=
  if is_zero norm then None
  else
    match divergence with
    | JFloat x => Some (div x norm)
    | JInt n => x ← of_int n; Some (div x norm)
    | JBool b => Some (div (if b then one else zero) norm)
    | _ => None
    end.

(** [min(1.0, max(0.0, quotient))] *)
Definition normalize (quotient : float) : float :=
  py_min one (py_max zero quotient).

(** The confidence computed inside the [try] block for one line;
    [None] when the block raises. *)
Definition line_confidence (norm : float) (lb : line_bytes) : option float :=
  line ← lb;
  divergence ← get_D line;
  quotient ← truediv divergence norm;
  Some (normalize quotient).

(** The two lists the loop appends to. *)
Record flags : Type := Flags {
  anomaly_indices : list nat;
  confidence_scores : list float
}.

(** One iteration: the [try] block, and [except: pass]. *)
Definition flag_line (threshold norm : float) (st : flags) (i : nat)
           (lb : line_bytes) : flags :=
  match line_confidence norm lb with
  | Some confidence =>
      if gtb confidence threshold
      then Flags (anomaly_indices st ++ [i]) (confidence_scores st ++ [confidence])
      else st
  | None => st
  end.

(** [for i, line_bytes in enumerate(...)], from index [i] on. *)
Fixpoint for_lines (threshold norm : float) (i : nat) (ls : list line_bytes)
         (st : flags) : flags :=
  match ls with
  | [] => st
  | lb :: ls' =>
      for_lines threshold norm (S i) ls' (flag_line threshold norm st i lb)
  end.

(** The whole excerpt as a statement over the two variables: both are
    first bound to fresh empty lists, whatever they held before. *)
Definition extract_stmt (threshold norm : float) (ls : list line_bytes)
           (env : flags) : flags :=
  let env := Flags [] (confidence_scores env) in
  let env := Flags (anomaly_indices env) [] in
  for_lines threshold norm 0 ls env.

Definition extract (threshold norm : float) (ls : list line_bytes) : flags :=
  extract_stmt threshold norm ls (Flags [] []).

(** The pairs the loop appends from index [i] on, as a list function;
    [for_lines] is related to it below. *)
Fixpoint flagged_from (threshold norm : float) (i : nat) (ls : list line_bytes)
  : list (nat * float) :=
  match ls with
  | [] => []
  | lb :: ls' =>
      match line_confidence norm lb with
      | Some confidence =>
          if gtb confidence threshold
          then (i, confidence) :: flagged_from threshold norm (S i) ls'
          else flagged_from threshold norm (S i) ls'
      | None => flagged_from threshold norm (S i) ls'
      end
  end.


(** *** Results storage *)

(** A row of the [results] table, with the columns the [INSERT] binds. *)
Record results_row : Type := {
  user_id : Z;
  filename : string;
  row_anomaly_indices : list nat;
  row_confidence_scores : list float;
  original_data : list float
}.

(** The [results] table, keyed by its primary key [id]. *)
Abbreviation results_table := (gmap Z results_row).

(** Modelled from the spec: the allocation of the primary key is not
    quoted in the guides; [Create] "allocates a fresh unique id", here
    one more than the largest id in use. *)
Definition fresh_id (conn : results_table) : Z :=
  1 + map_fold (fun id _ acc => Z.max id acc) 0 conn.

Definition insert_result (conn : results_table) (row : results_row)
  : Z * results_table :=
  let id := fresh_id conn in (id, <[id := row]> conn).

(** The response of [POST /api/upload]. *)
Record upload_response : Type := {
  result_id : Z;
  resp_filename : string;
  anomaly_count : nat;
  resp_anomaly_indices : list nat;
  resp_confidence_scores : list float
}.

Section Upload.

(** The scorer is external: [rnse_run(seed64, T, params)]. *)
Variable rnse_run : Z -> Z -> RNSEParams -> rnse_output.

(** Scoring and extraction for a decoded series. *)
Definition analyse (values : list float) : flags :=
  let result := rnse_run seed64 (Z.of_nat (length values)) params in
  extract default_threshold one (lines result).

(** The handler: decode, score, extract, store, respond.  A step that
    raises leaves the table as it was. *)
Definition upload_csv (conn : results_table) (uid : Z) (fname : string)
           (text : string) : result upload_response * results_table :=
  match decode text with
  | Raise e => (Raise e, conn)
  | Ok values =>
      let fl := analyse values in
      let row := {| user_id := uid; filename := fname;
                    row_anomaly_indices := anomaly_indices fl;
                    row_confidence_scores := confidence_scores fl;
                    original_data := values |} in
      let '(id, conn') := insert_result conn row in
      (Ok {| result_id := id; resp_filename := fname;
             anomaly_count := length (anomaly_indices fl);
             resp_anomaly_indices := anomaly_indices fl;
             resp_confidence_scores := confidence_scores fl |},
       conn')
  end.

End Upload.

End Backend.

(** ** The record store's lookup *)

Module Store.

Import Backend.

Inductive lookup : Type :=
  | Found (row : results_row)
  | NotFound.

(** Modelled from the spec: the backend's read endpoints are not quoted
    in the guides.  "Get(owner, id) -> AnalysisRecord | fails with
    NotFound.  Must enforce ownership: a record belonging to a different
    owner is reported as NotFound (not Forbidden)". *)
Definition get (conn : results_table) (owner : Z) (id : Z) : lookup :=
  match conn !! id with
  | Some row => if decide (user_id row = owner) then Found row else NotFound
  | None => NotFound
  end.

(** The records of one owner. *)
Definition owned_by (owner : Z) (conn : results_table) : results_table :=
  filter (fun kv => user_id kv.2 = owner) conn.

End Store.

(** ** The CSV download *)

Module Download.

Import Backend.

(** How the cells of the download are written.  The specification fixes
    the header and the columns, not the text of a number, of a boolean
    or of the line terminator. *)
Record rendering : Type := {
  show_float : float -> string;
  show_bool : bool -> string;
  line_terminator : string
}.

Definition show_nat (n : nat) : string :=
  NilEmpty.string_of_uint (Nat.to_uint n).

Definition header : string := "index,value,is_anomaly,confidence".

(** The confidence recorded for index [i], if [i] is flagged: the entry
    of [scores] at the position [i] has in [indices]. *)
Fixpoint flag_confidence (indices : list nat) (scores : list float) (i : nat)
  : option float :=
  match indices, scores with
  | j :: indices', c :: scores' =>
      if Nat.eqb i j then Some c else flag_confidence indices' scores' i
  | _, _ => None
  end.

Section Encode.

Variable rnd : rendering.

Definition encode_row (row : results_row) (i : nat) (value : float) : string :=
  let flag := flag_confidence (row_anomaly_indices row)
                              (row_confidence_scores row) i in
  show_nat i ++ "," ++
  show_float rnd value ++ "," ++
  show_bool rnd (bool_decide (is_Some flag)) ++ "," ++
  show_float rnd (default zero flag) ++
  line_terminator rnd.

Fixpoint encode_rows (row : results_row) (i : nat) (values : list float)
  : string :=
  match values with
  | [] => ""
  | v :: values' => encode_row row i v ++ encode_rows row (S i) values'
  end.

(** Modelled from the spec: the download endpoint is not quoted in
    the guides.  "Header row index,value,is_anomaly,confidence
    followed by one row per sample", with "columns: index, value,
    is-anomaly (boolean), confidence (real, 0 if not flagged)". *)
Definition encode (row : results_row) : string :=
  header ++ line_terminator rnd ++ encode_rows row 0 (original_data row).

End Encode.

(** A cell the reader returns as it is: no delimiter, quote or line
    break, and not longer than the reader's field limit. *)
Definition plain_char (c : ascii) : bool :=
  negb (Ascii.eqb c Csv.delimiter || Ascii.eqb c Csv.quotechar
        || Csv.is_newline c).

Definition plain_field (s : string) : bool :=
  forallb plain_char (String.list_ascii_of_string s)
  && (Z.of_nat (length (String.list_ascii_of_string s)) <=? Csv.field_limit).

(** [float] reads the text of [v] back as [v]. *)
Definition reads_back (rnd : rendering) (v : float) : bool :=
  match PyFloat.float_of_string (show_float rnd v) with
  | Some v' => bool_decide (v' = v)
  | None => false
  end.

Fixpoint plain_rows (rnd : rendering) (i : nat) (values : list float) : bool :=
  match values with
  | [] => true
  | v :: values' =>
      plain_field (show_nat i) && plain_field (show_float rnd v)
      && reads_back rnd v && plain_rows rnd (S i) values'
  end.

(** The rendering of the samples of an unflagged record is plain: lines
    end with a line feed or a carriage return and a line feed, every
    cell is plain, and every value reads back. *)
Definition plain_rendering (rnd : rendering) (values : list float) : bool :=
  (String.eqb (line_terminator rnd) (String Csv.LF "")
   || String.eqb (line_terminator rnd) (String Csv.CR (String Csv.LF "")))
  && plain_field (show_bool rnd false)
  && plain_field (show_float rnd zero)
  && plain_rows rnd 0 values.

(** Modelled from the spec: the text of a number is not fixed by the
    spec, which asks for "a lossless round trip for the numeric payload".
    This rendering writes a float by its exact decimal expansion, the
    integer part, a point and the decimals found by long division;
    booleans as Python does and lines as [csv.writer] does. *)
Definition show_Z (n : Z) : string :=
  NilEmpty.string_of_uint (N.to_uint (Z.to_N n)).

Definition digit (d : Z) : ascii := ascii_of_N (Z.to_N (48 + d)).

(** The first [n] decimals of [r / d], for [0 <= r < d]. *)
Fixpoint decimals (n : nat) (r d : Z) : string :=
  match n with
  | O => ""
  | S n' => String (digit (10 * r / d)) (decimals n' ((10 * r) mod d) d)
  end.

(** Modelled from the spec: the exact value of a float, [m * 2^e], has
    no more than [-e] decimals. *)
Definition show_exact (x : float) : string :=
  match x with
  | S754_nan => "nan"
  | S754_infinity s => if s then "-inf" else "inf"
  | S754_zero s => if s then "-0.0" else "0.0"
  | S754_finite s m e =>
      (if s then "-" else "") ++
      match e with
      | Zneg k =>
          let d := 2 ^ Zpos k in
          show_Z (Zpos m / d) ++ "." ++ decimals (Pos.to_nat k) (Zpos m mod d) d
      | _ => show_Z (Zpos m * 2 ^ e) ++ ".0"
      end
  end.

(** Modelled from the spec: "columns: index, value, is-anomaly
    (boolean), confidence (real, 0 if not flagged)", each number written
    exactly. *)
Definition exact_rendering : rendering :=
  {| show_float := show_exact;
     show_bool := fun b => if b then "True" else "False";
     line_terminator := String Csv.CR (String Csv.LF "") |}.

End Download.

(** ** The specification's reading of decoding and clamping *)

Module Spec.

Import Backend.

(** Spec, CSV Codec: "rows that fail numeric parsing are skipped rather
    than aborting the whole decode". *)
Fixpoint skipping_values (rows : list (list string)) : list float :=
  match rows with
  | [] => []
  | row :: rows' =>
      match (if (1 <? length row)%nat
             then PyFloat.float_of_string (nth 1 row EmptyString)
             else None) with
      | Some v => v :: skipping_values rows'
      | None => skipping_values rows'
      end
  end.

(** "... but if the resulting TimeSeries length falls below the minimum
    floor, decoding fails with InsufficientData". *)
Definition decode_skipping (text : string) : result (list float) :=
  rows ← Csv.read text; validate (skipping_values (tail rows)).


(** Spec, Score: "a line that fails to parse is dropped".  The lines
    that are kept are those the [try] block goes through without raising. *)
Definition parsed_lines (norm : float) (ls : list line_bytes) : list line_bytes :=
  filter (fun lb => is_Some (line_confidence norm lb)) ls.

(** Spec, Score: "the adapter then re-checks the count invariant and
    fails with ScorerContractViolation if counts no longer match". *)
Definition count_invariant_enforced
           (rnse_run : Z -> Z -> RNSEParams -> rnse_output) : Prop :=
  forall conn uid fname text values,
    decode text = Ok values ->
    length (parsed_lines one
              (lines (rnse_run seed64 (Z.of_nat (length values)) params)))
    <> length values ->
    exists e, (upload_csv rnse_run conn uid fname text).1 = Raise e.

End Spec.

(** ** Sample inputs *)

Module Samples.

Import Backend.

Definition nl : string := String Csv.LF "".

(** A CSV text in the documented upload format: the header
    [timestamp,value], then one line per row. *)
Definition csv_text (rows : list string) : string :=
  "timestamp,value" ++ nl ++ String.concat "" (map (fun r => (r ++ nl)%string) rows).

Definition nine_rows : list string :=
  ["1,10.5"; "2,11.3"; "3,10.8"; "4,10.1"; "5,9.9";
   "6,10.0"; "7,15.5"; "8,10.2"; "9,10.4"].

(** Nine samples, ten samples, ten other samples, and ten samples
    followed by a row whose value is not a number. *)
Definition nine_samples : string := csv_text nine_rows.
Definition ten_samples : string := csv_text (nine_rows ++ ["10,10.3"]).
Definition ten_other_samples : string :=
  csv_text ["a,1"; "b,2"; "c,3"; "d,4"; "e,5"; "f,6"; "g,7"; "h,8"; "i,9"; "j,1e3"].
Definition ten_samples_and_a_word : string :=
  csv_text (nine_rows ++ ["10,10.3"; "11,n/a"]).

(** The log line of a tick with divergence [d]. *)
Definition tick (t : nat) (d : float) : line_bytes :=
  Some (JObject [("t"%string, JInt (Z.of_nat t)); ("D"%string, JFloat d)]).

(** [0.65], [0.1] and [0.30001] *)
Definition high : float := S754_finite false 5854679515581645 (-53).
Definition low : float := S754_finite false 7205759403792794 (-56).
Definition just_above_threshold : float :=
  S754_finite false 5404499696829690 (-54).

(** A synthetic scorer: one line per tick, divergence 0.65 at tick 6 and
    0.1 elsewhere. *)
Definition spike_scorer (seed : Z) (T : Z) (p : RNSEParams) : rnse_output :=
  {| beta := one; var_tail := zero; digest := ""; roots := [];
     lines := map (fun t => tick t (if Nat.eqb t 6 then high else low))
                  (seq 0 (Z.to_nat T)) |}.

(** A scorer that breaks the contract: the line of tick 2 is not JSON and
    the last tick is missing. *)
Definition faulty_scorer (seed : Z) (T : Z) (p : RNSEParams) : rnse_output :=
  {| beta := one; var_tail := zero; digest := ""; roots := [];
     lines := map (fun t => if Nat.eqb t 2 then None
                            else tick t (if Nat.eqb t 6 then high else low))
                  (seq 0 (Z.to_nat T - 1)) |}.

(** A stored record without flags, of ten samples: [0.5], [10.001],
    [0.1], [2^-9], [-2.5], [1e22], the smallest positive float
    [5e-324], [-0.0], infinity and NaN. *)
Definition unflagged_record : results_row :=
  {| user_id := 7; filename := "a.csv";
     row_anomaly_indices := []; row_confidence_scores := [];
     original_data :=
       [of_decimal false 5 (-1); of_decimal false 10001 (-3);
        of_decimal false 1 (-1); S754_finite false 4503599627370496 (-61);
        of_decimal true 25 (-1); of_decimal false 1 22;
        S754_finite false 1 (-1074); S754_zero true;
        S754_infinity false; S754_nan] |}.

(** Two stored records of two owners. *)
Definition two_owners : results_table :=
  <[2 := {| user_id := 8; filename := "b.csv"; row_anomaly_indices := [];
            row_confidence_scores := []; original_data := [] |}]>
  (<[1 := {| user_id := 7; filename := "a.csv"; row_anomaly_indices := [];
             row_confidence_scores := []; original_data := [] |}]> ∅).

End Samples.

(** ** Customization points of the integration guide *)

Module Customization.

(** The threshold by user tier,
    [{"free": 0.3, "pro": 0.2, "enterprise": 0.1}[user_tier]]. *)
Definition tier_thresholds : gmap string float :=
  {[ "free"%string := S754_finite false 5404319552844595 (-54);
     "pro"%string := S754_finite false 7205759403792794 (-55);
     "enterprise"%string := S754_finite false 7205759403792794 (-56) ]}.

(** [None] stands for the [KeyError] of a tier that is not a key. *)
Definition threshold_of_tier (user_tier : string) : option float :=
  tier_thresholds !! user_tier.

End Customization.

(** ** Session tokens *)

Module Auth.

(** [str(n)] for a Python [int]. *)
Definition str_int (n : Z) : string := NilEmpty.string_of_int (Z.to_int n).

(** [session_token = f"{user_id}:{random_hex}"] *)
Definition session_token (user_id : Z) (random_hex : string) : string :=
  str_int user_id ++ ":" ++ random_hex.

End Auth.

(** ** The React client *)

Module Client.

(** *** JavaScript values *)

Inductive js_value : Type :=
  | Undefined
  | Null
  | Boolean (b : bool)
  | Number (x : float)
  | Str (s : string)
  | Object (props : list (string * js_value))
  | Array (elems : list js_value).

Definition is_nan (x : float) : bool :=
  match x with
  | S754_nan => true
  | _ => false
  end.

(** What [if (v)], [!v], [v && ...] and [v || ...] test. *)
Definition truthy (v : js_value) : bool :=
  match v with
  | Undefined | Null => false
  | Boolean b => b
  | Number x => negb (Backend.is_zero x || is_nan x)
  | Str s => negb (String.eqb s "")
  | Object _ | Array _ => true
  end.

(** [a || b] *)
Definition or_else (a b : js_value) : js_value := if truthy a then a else b.

Fixpoint own_property (props : list (string * js_value)) (name : string)
  : js_value :=
  match props with
  | [] => Undefined
  | (k, v) :: props' => if String.eqb k name then v else own_property props' name
  end.

(** [v.name], for a name that no prototype defines (as [response],
    [data], [detail] and [results]): [None] stands for the [TypeError]
    raised on [undefined] and [null]. *)
Definition get (v : js_value) (name : string) : option js_value :=
  match v with
  | Undefined | Null => None
  | Object props => Some (own_property props name)
  | _ => Some Undefined
  end.

(** [v?.name] *)
Definition get_opt (v : js_value) (name : string) : js_value :=
  default Undefined (get v name).

(** The error a failed property access throws: an object without a
    [response]. *)
Definition type_error : js_value := Object [].

(** The outcome of an awaited request. *)
Inductive settled : Type :=
  | Resolved (value : js_value)
  | Rejected (reason : js_value).

(** [err.response?.data?.detail || fallback]; [None] when [err.response]
    itself throws. *)
Definition error_message (err : js_value) (fallback : string) : option js_value :=
  response ← get err "response";
  Some (or_else (get_opt (get_opt response "data") "detail") (Str fallback)).

(** *** [AuthProvider] *)

Record provider : Type := Provider {
  auth : js_value;
  localStorage : gmap string string
}.

Section Codec.

(** [JSON.stringify] returns a text, or [undefined] ([None]);
    [JSON.parse] returns a value, or throws ([None]). *)
Variable JSON_stringify : js_value -> option string.
Variable JSON_parse : string -> option js_value.

(** [localStorage.setItem(key, value)] stores the string of its value. *)
Definition set_item (storage : gmap string string) (key : string)
           (value : option string) : gmap string string :=
  <[key := default "undefined"%string value]> storage.

(** The effect run once the provider is mounted; [None] when
    [JSON.parse] throws. *)
Definition mount_effect (st : provider) : option provider :=
  match localStorage st !! "auth"%string with
  | Some saved =>
      if truthy (Str saved)
      then value ← JSON_parse saved; Some (Provider value (localStorage st))
      else Some st
  | None => Some st
  end.

(** A page load: the state starts with [useState(null)], then the effect
    runs on the storage the browser kept. *)
Definition load (storage : gmap string string) : option provider :=
  mount_effect (Provider Null storage).

(** [login], given the outcome of its request; it returns the state and
    the outcome of its own promise. *)
Definition login (st : provider) (response : settled) : provider * settled :=
  match response with
  | Resolved res =>
      match get res "data" with
      | Some authData =>
          (Provider authData
                    (set_item (localStorage st) "auth" (JSON_stringify authData)),
           Resolved authData)
      | None => (st, Rejected type_error)
      end
  | Rejected err => (st, Rejected err)
  end.

(** [signup] differs from [login] by the address it posts to. *)
Definition signup (st : provider) (response : settled) : provider * settled :=
  match response with
  | Resolved res =>
      match get res "data" with
      | Some authData =>
          (Provider authData
                    (set_item (localStorage st) "auth" (JSON_stringify authData)),
           Resolved authData)
      | None => (st, Rejected type_error)
      end
  | Rejected err => (st, Rejected err)
  end.

Definition logout (st : provider) : provider :=
  Provider Null (delete "auth"%string (localStorage st)).

(** *** [AuthModal] *)

Record modal : Type := Modal {
  modal_error : js_value;
  modal_loading : bool
}.

(** The outcome of a handler: the states it leaves, whether it called
    [onSuccess], and whether an exception escaped it. *)
Record submitted : Type := Submitted {
  provider_after : provider;
  modal_after : modal;
  succeeded : bool;
  submit_escaped : bool
}.

(** [handleSubmit], given the outcome of the request. *)
Definition handleSubmit (mode : js_value) (st : provider) (response : settled)
  : submitted :=
  let '(st', promise) :=
    match mode with
    | Str "signup" => signup st response
    | _ => login st response
    end in
  match promise with
  | Resolved _ => Submitted st' (Modal (Str "") false) true false
  | Rejected err =>
      match error_message err "Authentication failed" with
      | Some msg => Submitted st' (Modal msg false) false false
      | None => Submitted st' (Modal (Str "") false) false true
      end
  end.

End Codec.

(** *** [App] *)

Inductive view : Type :=
  | LandingPage (with_modal : bool)
  | Dashboard.

Definition App (auth authMode : js_value) : view :=
  if truthy auth then Dashboard else LandingPage (truthy authMode).

(** *** [Dashboard] *)

Record dashboard : Type := DashboardState {
  file : js_value;
  loading : bool;
  results : js_value;
  history : js_value;
  error : js_value
}.

(** What a run of [handleUpload] leaves: the state, whether the upload
    was posted, whether [fetchHistory] was called, and whether an
    exception escaped the handler. *)
Record uploaded : Type := Uploaded {
  dashboard_after : dashboard;
  posted : bool;
  refetched : bool;
  upload_escaped : bool
}.

(** [handleUpload], given the outcome of the request. *)
Definition handleUpload (st : dashboard) (response : settled) : uploaded :=
  if negb (truthy (file st)) then Uploaded st false false false
  else
    let caught err :=
      match error_message err "Upload failed" with
      | Some msg =>
          Uploaded (DashboardState (file st) false (results st) (history st) msg)
                   true false false
      | None =>
          Uploaded (DashboardState (file st) false (results st) (history st)
                                   (Str ""))
                   true false true
      end in
    match response with
    | Resolved res =>
        match get res "data" with
        | Some data =>
            Uploaded (DashboardState Null false data (history st) (Str ""))
                     true true false
        | None => caught type_error
        end
    | Rejected err => caught err
    end.

(** *** The error line *)

(** What React makes of a child: nothing for a boolean, [null] and
    [undefined], a text for a string and for a number, its elements in
    turn for an array; [None] stands for the error it throws for any
    other object ("Objects are not valid as a React child"). *)
Fixpoint child_text (v : js_value) : option (list js_value) :=
  match v with
  | Undefined | Null | Boolean _ => Some []
  | Number _ | Str _ => Some [v]
  | Array elems =>
      (fix children (l : list js_value) : option (list js_value) :=
         match l with
         | [] => Some []
         | x :: l' =>
             match child_text x, children l' with
             | Some t, Some ts => Some (t ++ ts)
             | _, _ => None
             end
         end) elems
  | Object _ => None
  end.

(** What [{error && <div className="error-message">{error}</div>}]
    renders, in the modal and in the dashboard alike: the error line
    with its text, or no line (a falsy [error] is itself the child, so
    that a number leaves a stray text), unless rendering throws. *)
Inductive error_line : Type :=
  | NoLine (stray : list js_value)
  | Line (text : list js_value)
  | RenderThrows.

Definition render_error (error : js_value) : error_line :=
  match child_text error with
  | Some text => if truthy error then Line text else NoLine text
  | None => RenderThrows
  end.

(** *** The plot of the anomalies *)

Definition mul (x y : float) : float := SFmul prec emax x y.
Definition add (x y : float) : float := SFadd prec emax x y.
Definition sub (x y : float) : float := SFsub prec emax x y.

(** [350], [25], [150] and [100] *)
Definition n350 : float := S754_finite false 6157265115545600 (-44).
Definition n25 : float := S754_finite false 7036874417766400 (-48).
Definition n150 : float := S754_finite false 5277655813324800 (-45).
Definition n100 : float := S754_finite false 7036874417766400 (-46).

(** The ends of the axes, [<line x1="25" y1="150" x2="375" y2="150">]
    and [<line x1="25" y1="50" x2="25" y2="150">]: [375] and [50]. *)
Definition n375 : float := S754_finite false 6597069766656000 (-44).
Definition n50 : float := S754_finite false 7036874417766400 (-47).

(** An integer of the JSON response, read as a JavaScript number. *)
Definition number_of_nat (n : nat) : float :=
  binary_normalize prec emax (Z.of_nat n) 0 false.

(** [a[a.length - 1] || 1], for an array of numbers. *)
Definition last_or_one (indices : list float) : float :=
  match last indices with
  | Some x => if truthy (Number x) then x else one
  | None => one
  end.

(** The centre of the circle drawn for [idx], the [i]-th index; a
    missing score is [undefined], which the product turns into NaN. *)
Definition circle (indices scores : list float) (i : nat) (idx : float)
  : float * float :=
  (add (mul (div idx (last_or_one indices)) n350) n25,
   sub n150 (mul (default S754_nan (scores !! i)) n100)).

(** [results.anomaly_indices.map((idx, i) => ...)] *)
Definition circles (indices scores : list float) : list (float * float) :=
  imap (circle indices scores) indices.

End Client.

(** ** Plain CSV files *)

Module PlainCsv.

(** The text of a file in the documented upload format: on each line the
    cells, separated by commas, then the line terminator. *)
Fixpoint write_cells (cells : list string) : string :=
  match cells with
  | [] => ""
  | [c] => c
  | c :: cells' => c ++ "," ++ write_cells cells'
  end.

Fixpoint write_rows (eol : string) (rows : list (list string)) : string :=
  match rows with
  | [] => ""
  | row :: rows' => write_cells row ++ eol ++ write_rows eol rows'
  end.

(** A row that is read back as it is written: plain cells, at least one,
    and not the empty cell alone (a blank line). *)
Definition readable (row : list string) : bool :=
  forallb Download.plain_field row
  && match row with
     | [] => false
     | [c] => negb (String.eqb c "")
     | _ => true
     end.

Definition LF : string := String Csv.LF "".
Definition CRLF : string := String Csv.CR (String Csv.LF "").

(** A run of the blanks [float] strips. *)
Definition blank (s : string) : bool :=
  forallb PyFloat.is_space (String.list_ascii_of_string s).

End PlainCsv.

(** * Properties *)

Import Backend.

(** ** The literals of the excerpts *)

Section Literals.

Example literal_threshold : PyFloat.float_of_string "0.3" = Some default_threshold.
Proof. vm_compute. reflexivity. Qed.

Example literal_tau : PyFloat.float_of_string "0.25" = Some (tau params).
Proof. vm_compute. reflexivity. Qed.

Example literal_one : PyFloat.float_of_string "1.0" = Some one.
Proof. vm_compute. reflexivity. Qed.

Example literal_zero : PyFloat.float_of_string "0.0" = Some zero.
Proof. vm_compute. reflexivity. Qed.

Example literal_samples :
  PyFloat.float_of_string "0.65" = Some Samples.high /\
  PyFloat.float_of_string "0.1" = Some Samples.low /\
  PyFloat.float_of_string "0.30001" = Some Samples.just_above_threshold.
Proof. repeat split; vm_compute; reflexivity. Qed.

Example literal_seed : seed64 = 0x5EEDBEEFCAFE1234.
Proof. reflexivity. Qed.

(** The largest integer [float] accepts, and the first it refuses. *)
Example of_int_largest :
  of_int (2 ^ 1024 - 2 ^ 970 - 1) = Some (S754_finite false 9007199254740991 971)
  /\ of_int (2 ^ 1024 - 2 ^ 970) = None.
Proof. split; vm_compute; reflexivity. Qed.

(** A quoted cell may hold the delimiter and a line break. *)
Example read_quoted_cell :
  Csv.read (String.concat ""
              ["a,"; String Csv.quotechar ""; "b,"; String Csv.LF ""; "c";
               String Csv.quotechar ""; String Csv.CR ""; String Csv.LF ""; "d"])
  = Ok [["a"; String.concat "" ["b,"; String Csv.LF ""; "c"]]; ["d"]]%string.
Proof. vm_compute. reflexivity. Qed.

End Literals.

(** ** Comparison of floats *)

Section FloatFacts.

Lemma SFcompare_antisym (x y : float) :
  SFcompare y x = CompOpp <$> SFcompare x y.
Proof.
  destruct x as [sx|sx| |sx mx ex], y as [sy|sy| |sy my ey]; simpl;
    try reflexivity;
    try (destruct sx; reflexivity);
    try (destruct sy; reflexivity);
    try (destruct sx, sy; reflexivity).
  destruct sx, sy; simpl; try reflexivity;
    rewrite (Z.compare_antisym ex ey);
    destruct (ex ?= ey); simpl; try reflexivity;
    change Eq with (CompOpp Eq) at 1;
    rewrite <- (Pos.compare_cont_antisym mx my Eq);
    try reflexivity.
Qed.


Lemma ltb_leb (x y : float) : ltb x y = true -> leb x y = true.
Proof.
  unfold ltb, leb, SFltb, SFleb.
  destruct (SFcompare x y) as [[]|]; congruence.
Qed.


Lemma eqb_not_gtb (x y : float) : SFeqb x y = true -> gtb x y = false.
Proof.
  unfold gtb, SFeqb, SFltb. rewrite (SFcompare_antisym x y).
  destruct (SFcompare x y) as [[]|]; simpl; congruence.
Qed.


Lemma normalize_bounds (quotient : float) :
  leb zero (normalize quotient) = true /\ leb (normalize quotient) one = true.
Proof.
  unfold normalize, py_min, py_max.
  destruct (gtb quotient zero) eqn:Hpos.
  - destruct (ltb quotient one) eqn:Hlt.
    + split; apply ltb_leb; assumption.
    + split; reflexivity.
  - split; reflexivity.
Qed.



End FloatFacts.

(** ** The extraction loop *)

Section Extraction.

Variables threshold norm : float.

(** The loop appends exactly the pairs of [flagged_from]. *)
Lemma for_lines_flagged_from (i : nat) (ls : list line_bytes) (st : flags) :
  for_lines threshold norm i ls st =
  Flags (anomaly_indices st ++ (flagged_from threshold norm i ls).*1)
        (confidence_scores st ++ (flagged_from threshold norm i ls).*2).
Proof.
  revert i st. induction ls as [|lb ls IH]; intros i st; simpl.
  - rewrite !app_nil_r. destruct st; reflexivity.
  - rewrite IH. unfold flag_line.
    destruct (line_confidence norm lb) as [c|]; [|reflexivity].
    destruct (gtb c threshold); [|reflexivity].
    simpl. rewrite <- !app_assoc. reflexivity.
Qed.

Lemma extract_flagged_from (ls : list line_bytes) :
  extract threshold norm ls =
  Flags (flagged_from threshold norm 0 ls).*1
        (flagged_from threshold norm 0 ls).*2.
Proof. unfold extract, extract_stmt. apply for_lines_flagged_from. Qed.

Lemma elem_of_flagged_from (i : nat) (ls : list line_bytes) (j : nat) (c : float) :
  (j, c) ∈ flagged_from threshold norm i ls <->
  exists lb, (i <= j)%nat /\ ls !! (j - i)%nat = Some lb /\
             line_confidence norm lb = Some c /\ gtb c threshold = true.
Proof.
  revert i. induction ls as [|lb ls IH]; intros i; simpl.
  - rewrite elem_of_nil. split; [tauto|]. intros (lb & _ & Hl & _). discriminate.
  - assert ((exists lb', (i <= j)%nat /\ (lb :: ls) !! (j - i)%nat = Some lb' /\
               line_confidence norm lb' = Some c /\ gtb c threshold = true) <->
            (j = i /\ line_confidence norm lb = Some c /\ gtb c threshold = true) \/
            (exists lb', (S i <= j)%nat /\ ls !! (j - S i)%nat = Some lb' /\
               line_confidence norm lb' = Some c /\ gtb c threshold = true))
      as Hsplit.
    { split.
      - intros (lb' & Hle & Hl & Hc & Hg).
        destruct (decide (j = i)) as [->|Hne].
        + left. rewrite Nat.sub_diag in Hl. simpl in Hl.
          injection Hl as ->. auto.
        + right. exists lb'. split; [lia|].
          replace (j - i)%nat with (S (j - S i)) in Hl by lia. auto.
      - intros [(-> & Hc & Hg)|(lb' & Hle & Hl & Hc & Hg)].
        + exists lb. rewrite Nat.sub_diag. auto.
        + exists lb'. split; [lia|].
          replace (j - i)%nat with (S (j - S i)) by lia. auto. }
    rewrite Hsplit, <- IH. clear Hsplit IH.
    destruct (line_confidence norm lb) as [c0|] eqn:Hc0.
    + destruct (gtb c0 threshold) eqn:Hg0.
      * rewrite elem_of_cons. split.
        -- intros [Heq|Hin]; [|auto]. injection Heq as -> ->. auto.
        -- intros [(-> & Hc & _)|Hin]; [|auto].
           injection Hc as ->. auto.
      * split; [auto|]. intros [(_ & Hc & Hg)|Hin]; [|auto].
        injection Hc as ->. congruence.
    + split; [auto|]. intros [(_ & Hc & _)|Hin]; [discriminate|auto].
Qed.

Lemma flagged_from_ge (i : nat) (ls : list line_bytes) :
  Forall (fun j => (i <= j)%nat) (flagged_from threshold norm i ls).*1.
Proof.
  apply Forall_forall. intros j Hj.
  apply list_elem_of_fmap in Hj as ([j' c] & -> & Hin).
  apply elem_of_flagged_from in Hin as (_ & Hle & _). exact Hle.
Qed.

Lemma flagged_from_sorted (i : nat) (ls : list line_bytes) :
  StronglySorted lt (flagged_from threshold norm i ls).*1.
Proof.
  revert i. induction ls as [|lb ls IH]; intros i; simpl; [constructor|].
  destruct (line_confidence norm lb) as [c|]; [|apply IH].
  destruct (gtb c threshold); [|apply IH].
  simpl. constructor; [apply IH|].
  eapply Forall_impl; [apply (flagged_from_ge (S i))|].
  simpl. intros j Hj. lia.
Qed.

Lemma StronglySorted_lt_NoDup (l : list nat) : StronglySorted lt l -> NoDup l.
Proof.
  induction 1 as [|x l _ IH Hall]; [constructor|].
  apply NoDup_cons. split; [|exact IH].
  intros Hin. rewrite Forall_forall in Hall. specialize (Hall x Hin). lia.
Qed.

End Extraction.

(** C2.  For every list of score lines, threshold and index, the index is
    among the anomaly indices if and only if its line yields a confidence
    strictly greater than the threshold; a line whose confidence equals
    the threshold is never flagged.  With the default threshold 0.3, a
    line whose confidence is exactly 0.3 is not flagged and a line whose
    confidence is 0.30001 is flagged. *)
Theorem flagged_iff_confidence_exceeds_threshold :
  (forall (threshold norm : float) (ls : list line_bytes) (i : nat),
      i ∈ anomaly_indices (extract threshold norm ls) <->
      exists lb c, ls !! i = Some lb /\ line_confidence norm lb = Some c /\
                   gtb c threshold = true) /\
  (forall (threshold norm : float) (ls : list line_bytes) (i : nat)
          (lb : line_bytes) (c : float),
      ls !! i = Some lb -> line_confidence norm lb = Some c ->
      SFeqb c threshold = true ->
      i ∉ anomaly_indices (extract threshold norm ls)) /\
  extract default_threshold one
    [Some (JObject [("D"%string, JFloat default_threshold)])]
  = Flags [] [] /\
  extract default_threshold one
    [Some (JObject [("D"%string, JFloat Samples.just_above_threshold)])]
  = Flags [0%nat] [Samples.just_above_threshold].
Proof.
  assert (forall (threshold norm : float) (ls : list line_bytes) (i : nat),
             i ∈ anomaly_indices (extract threshold norm ls) <->
             exists lb c, ls !! i = Some lb /\ line_confidence norm lb = Some c /\
                          gtb c threshold = true) as Hiff.
  { intros threshold norm ls i.
    rewrite extract_flagged_from. simpl. rewrite list_elem_of_fmap. split.
    - intros ([j c] & -> & Hin).
      apply elem_of_flagged_from in Hin as (lb & _ & Hl & Hc & Hg).
      simpl in *. rewrite Nat.sub_0_r in Hl. eauto.
    - intros (lb & c & Hl & Hc & Hg). exists (i, c). split; [reflexivity|].
      apply elem_of_flagged_from. exists lb. rewrite Nat.sub_0_r.
      split; [lia|]. auto. }
  split; [exact Hiff|]. split; [|split; vm_compute; reflexivity].
  intros threshold norm ls i lb c Hl Hc Heq Hin.
  apply Hiff in Hin as (lb' & c' & Hl' & Hc' & Hg).
  assert (c' = c) as -> by congruence.
  apply eqb_not_gtb in Heq. congruence.
Qed.

Lemma flagged_iff_confidence_exceeds_threshold_witness :
  let lb := Some (JObject [("D"%string, JFloat default_threshold)]) in
  [lb] !! 0%nat = Some lb /\
  line_confidence one lb = Some default_threshold /\
  SFeqb default_threshold default_threshold = true /\
  0%nat ∉ anomaly_indices (extract default_threshold one [lb]).
Proof.
  intros lb.
  split; [reflexivity|]. split; [vm_compute; reflexivity|].
  split; [vm_compute; reflexivity|].
  apply (proj1 (proj2 flagged_iff_confidence_exceeds_threshold)
               default_threshold one [lb] 0%nat lb default_threshold).
  - reflexivity.
  - vm_compute; reflexivity.
  - vm_compute; reflexivity.
Defined.



(** C8.  The anomaly indices produced by an extraction run are strictly
    ascending, hence without repetition; the confidence scores have the
    same length, and the entry at position [k] is the confidence of the
    line at the [k]-th flagged index. *)
Theorem flags_ascending_and_parallel
        (threshold norm : float) (ls : list line_bytes) :
  let fl := extract threshold norm ls in
  StronglySorted lt (anomaly_indices fl) /\
  NoDup (anomaly_indices fl) /\
  length (confidence_scores fl) = length (anomaly_indices fl) /\
  forall k i, anomaly_indices fl !! k = Some i ->
    exists lb c, ls !! i = Some lb /\ line_confidence norm lb = Some c /\
                 confidence_scores fl !! k = Some c.
Proof.
  simpl. rewrite extract_flagged_from. simpl.
  split; [apply flagged_from_sorted|].
  split; [apply StronglySorted_lt_NoDup, flagged_from_sorted|].
  split; [rewrite !length_fmap; reflexivity|].
  intros k i Hk. rewrite list_lookup_fmap in Hk.
  destruct (flagged_from threshold norm 0 ls !! k) as [[j c]|] eqn:Hjc;
    [|discriminate].
  simpl in Hk. injection Hk as ->.
  pose proof (list_elem_of_lookup_2 _ _ _ Hjc) as Hin.
  apply elem_of_flagged_from in Hin as (lb & _ & Hl & Hc & _).
  rewrite Nat.sub_0_r in Hl.
  exists lb, c. rewrite list_lookup_fmap, Hjc. auto.
Qed.

Lemma flags_ascending_and_parallel_witness :
  let ls := lines (Samples.spike_scorer seed64 10 params) in
  let fl := extract default_threshold one ls in
  anomaly_indices fl !! 0%nat = Some 6%nat /\
  exists lb c, ls !! 6%nat = Some lb /\ line_confidence one lb = Some c /\
               confidence_scores fl !! 0%nat = Some c.
Proof.
  intros ls fl.
  assert (anomaly_indices fl !! 0%nat = Some 6%nat) as H
    by (vm_compute; reflexivity).
  split; [exact H|].
  destruct (flags_ascending_and_parallel default_threshold one ls)
    as (_ & _ & _ & Hpar).
  exact (Hpar 0%nat 6%nat H).
Defined.

(** C9.  Extraction is a function of the score lines and the threshold
    alone: the statement rebinds both result lists before the loop, so
    its outcome does not depend on what they held, and running it again
    on its own outcome yields the same flags. *)
Theorem extract_deterministic
        (threshold norm : float) (ls : list line_bytes) (env env' : flags) :
  extract_stmt threshold norm ls env = extract_stmt threshold norm ls env' /\
  extract_stmt threshold norm ls (extract_stmt threshold norm ls env)
  = extract_stmt threshold norm ls env /\
  extract_stmt threshold norm ls env = extract threshold norm ls.
Proof. repeat split. Qed.

(** ** Decoding *)

Section Decoding.

Lemma short_or_numeric_dec (row : list string) :
  {short_or_numeric row} + {not_numeric row}.
Proof.
  unfold short_or_numeric, not_numeric.
  destruct (le_lt_dec (length row) 1) as [Hle|Hlt]; [left; left; exact Hle|].
  destruct (PyFloat.float_of_string (nth 1 row EmptyString)) as [v|] eqn:Hv.
  - left. right. exists v. reflexivity.
  - right. split; [exact Hlt|reflexivity].
Qed.

Lemma Forall_or_Exists_rows (rows : list (list string)) :
  Forall short_or_numeric rows \/ Exists not_numeric rows.
Proof.
  induction rows as [|row rows [IH|IH]].
  - left. constructor.
  - destruct (short_or_numeric_dec row) as [H|H].
    + left. constructor; assumption.
    + right. apply Exists_cons_hd. exact H.
  - right. apply Exists_cons_tl. exact IH.
Qed.

Lemma append_value_short_or_numeric (values : list float) (row : list string) :
  short_or_numeric row ->
  append_value values row = Ok (values ++ Spec.skipping_values [row]).
Proof.
  unfold append_value, short_or_numeric. simpl. intros [Hshort|[v Hv]].
  - assert ((1 <? length row)%nat = false) as -> by (apply Nat.ltb_ge; lia).
    rewrite app_nil_r. reflexivity.
  - destruct (1 <? length row)%nat; [|rewrite app_nil_r; reflexivity].
    rewrite Hv. reflexivity.
Qed.

Lemma append_value_not_numeric (values : list float) (row : list string) :
  not_numeric row -> append_value values row = Raise ValueError.
Proof.
  unfold append_value, not_numeric. intros [Hlen Hv].
  assert ((1 <? length row)%nat = true) as -> by (apply Nat.ltb_lt; lia).
  rewrite Hv. reflexivity.
Qed.

Lemma skipping_values_cons (row : list string) (rows : list (list string)) :
  Spec.skipping_values (row :: rows) =
  Spec.skipping_values [row] ++ Spec.skipping_values rows.
Proof.
  simpl.
  destruct (if (1 <? length row)%nat
            then PyFloat.float_of_string (nth 1 row EmptyString) else None);
    reflexivity.
Qed.

Lemma for_rows_all_numeric (rows : list (list string)) (values : list float) :
  Forall short_or_numeric rows ->
  for_rows rows values = Ok (values ++ Spec.skipping_values rows).
Proof.
  intros Hall. revert values.
  induction Hall as [|row rows Hrow _ IH]; intros values.
  - simpl. rewrite app_nil_r. reflexivity.
  - cbn [for_rows]. rewrite (append_value_short_or_numeric _ _ Hrow).
    cbn [mbind result_bind]. rewrite IH, <- app_assoc, <- skipping_values_cons.
    reflexivity.
Qed.

Lemma for_rows_not_numeric (rows : list (list string)) (values : list float) :
  Exists not_numeric rows -> for_rows rows values = Raise ValueError.
Proof.
  intros Hex. revert values.
  induction Hex as [row rows Hrow|row rows _ IH]; intros values.
  - cbn [for_rows]. rewrite (append_value_not_numeric _ _ Hrow). reflexivity.
  - cbn [for_rows]. destruct (short_or_numeric_dec row) as [H|H].
    + rewrite (append_value_short_or_numeric _ _ H). cbn [mbind result_bind].
      apply IH.
    + rewrite (append_value_not_numeric _ _ H). reflexivity.
Qed.

End Decoding.

(** C5, as the code has it.  Decoding passes over the rows that have
    fewer than two columns and continues; it does not pass over a row
    whose second column is not a number: when every data row is short or
    numeric, decoding is the skipping decode of the specification (and
    fails only below ten values), and as soon as one data row with two
    columns or more has a second column that is not a number, the whole
    decode is aborted by the [ValueError] of [float]. *)
Theorem decode_skips_short_rows_only (text : string) (rows : list (list string)) :
  Csv.read text = Ok rows ->
  (Forall short_or_numeric (tail rows) ->
   decode text = Spec.decode_skipping text) /\
  (Exists not_numeric (tail rows) -> decode text = Raise ValueError).
Proof.
  intros Hread. unfold decode, Spec.decode_skipping, numeric_values.
  rewrite Hread. cbn [mbind result_bind]. split.
  - intros Hall. rewrite (for_rows_all_numeric _ _ Hall). reflexivity.
  - intros Hex. rewrite (for_rows_not_numeric _ _ Hex). reflexivity.
Qed.

Lemma decode_skips_short_rows_only_witness :
  let bad := Samples.csv_text ["1,10.5"; "2"; "3,oops"] in
  let bad_rows :=
    [["timestamp"; "value"]; ["1"; "10.5"]; ["2"]; ["3"; "oops"]]%string in
  let good := Samples.csv_text ["1,10.5"; "2"; "3,11"] in
  let good_rows :=
    [["timestamp"; "value"]; ["1"; "10.5"]; ["2"]; ["3"; "11"]]%string in
  (Csv.read bad = Ok bad_rows /\ Exists not_numeric (tail bad_rows) /\
   decode bad = Raise ValueError) /\
  (Csv.read good = Ok good_rows /\ Forall short_or_numeric (tail good_rows) /\
   decode good = Spec.decode_skipping good /\
   numeric_values good
   = Ok [S754_finite false 5910974510923776 (-49);
         S754_finite false 6192449487634432 (-49)]).
Proof.
  intros bad bad_rows good good_rows.
  assert (Csv.read bad = Ok bad_rows) as Hbad by (vm_compute; reflexivity).
  assert (Csv.read good = Ok good_rows) as Hgood by (vm_compute; reflexivity).
  assert (Exists not_numeric (tail bad_rows)) as Hex.
  { apply Exists_cons_tl, Exists_cons_tl, Exists_cons_hd.
    split; [simpl; lia|vm_compute; reflexivity]. }
  assert (Forall short_or_numeric (tail good_rows)) as Hall.
  { apply Forall_cons_2; [right; eexists; vm_compute; reflexivity|].
    apply Forall_cons_2; [left; simpl; lia|].
    apply Forall_cons_2; [right; eexists; vm_compute; reflexivity|].
    apply Forall_nil_2. }
  split.
  - split; [exact Hbad|]. split; [exact Hex|].
    exact (proj2 (decode_skips_short_rows_only bad bad_rows Hbad) Hex).
  - split; [exact Hgood|]. split; [exact Hall|]. split.
    + exact (proj1 (decode_skips_short_rows_only good good_rows Hgood) Hall).
    + vm_compute. reflexivity.
Defined.

(** C5, as the specification states it, fails: a row whose second column
    is not a number aborts the decode of ten good rows, which the
    skipping decode would accept. *)
Lemma decode_aborts_on_non_numeric_row :
  decode Samples.ten_samples_and_a_word = Raise ValueError /\
  Spec.decode_skipping Samples.ten_samples_and_a_word = decode Samples.ten_samples /\
  (exists values, decode Samples.ten_samples = Ok values /\ length values = 10%nat) /\
  ~ (forall text, decode text = Spec.decode_skipping text).
Proof.
  assert (decode Samples.ten_samples_and_a_word = Raise ValueError) as Hd
    by (vm_compute; reflexivity).
  assert (Spec.decode_skipping Samples.ten_samples_and_a_word
          = decode Samples.ten_samples) as Hs by (vm_compute; reflexivity).
  split; [exact Hd|]. split; [exact Hs|]. split.
  - eexists. split; vm_compute; reflexivity.
  - intros Hall. specialize (Hall Samples.ten_samples_and_a_word).
    rewrite Hd, Hs in Hall. vm_compute in Hall. discriminate.
Qed.

(** ** Storage *)

Section Storage.

Lemma fresh_id_above (conn : results_table) (id : Z) (row : results_row) :
  conn !! id = Some row -> id < fresh_id conn.
Proof.
  unfold fresh_id. revert id row.
  apply (map_fold_weak_ind
           (fun r (m : results_table) =>
              forall id row, m !! id = Some row -> id < 1 + r)).
  - intros id row H. rewrite lookup_empty in H. discriminate.
  - intros i x m r _ IH id row H.
    apply lookup_insert_Some in H as [[-> _]|[_ H]].
    + lia.
    + specialize (IH id row H). lia.
Qed.

Lemma fresh_id_fresh (conn : results_table) : conn !! fresh_id conn = None.
Proof.
  destruct (conn !! fresh_id conn) as [row|] eqn:H; [|reflexivity].
  apply fresh_id_above in H. lia.
Qed.

(** What an owner gets depends on the owner's own records only. *)
Lemma get_owned_by (conn : results_table) (owner id : Z) :
  Store.get conn owner id =
  match Store.owned_by owner conn !! id with
  | Some row => Store.Found row
  | None => Store.NotFound
  end.
Proof.
  unfold Store.get, Store.owned_by.
  destruct (conn !! id) as [row|] eqn:Hrow.
  - destruct (decide (user_id row = owner)) as [Hown|Hown].
    + rewrite (map_lookup_filter_Some_2 _ _ _ _ Hrow Hown). reflexivity.
    + rewrite (proj2 (map_lookup_filter_None _ _ _)); [reflexivity|].
      right. intros row' Hrow'. simpl. congruence.
  - rewrite (proj2 (map_lookup_filter_None _ _ _)); [reflexivity|].
    left. exact Hrow.
Qed.

End Storage.

(** C10.  For two distinct owners A and B and a record of B, what A gets
    for the record's id is [NotFound], exactly what A gets when the
    record does not exist; more generally A's lookups are the same in any
    two tables that hold the same records of A. *)
Theorem get_hides_foreign_records
        (conn : results_table) (ownerA ownerB id : Z) (row : results_row) :
  ownerA <> ownerB ->
  conn !! id = Some row ->
  user_id row = ownerB ->
  Store.get conn ownerA id = Store.NotFound /\
  Store.get conn ownerA id = Store.get (delete id conn) ownerA id /\
  forall conn' id',
    Store.owned_by ownerA conn' = Store.owned_by ownerA conn ->
    Store.get conn' ownerA id' = Store.get conn ownerA id'.
Proof.
  intros Hne Hrow Hown.
  assert (Store.get conn ownerA id = Store.NotFound) as Hget.
  { unfold Store.get. rewrite Hrow.
    destruct (decide (user_id row = ownerA)); [congruence|reflexivity]. }
  split; [exact Hget|]. split.
  - rewrite Hget. unfold Store.get. rewrite lookup_delete_eq. reflexivity.
  - intros conn' id' Heq. rewrite !get_owned_by, Heq. reflexivity.
Qed.

Lemma get_hides_foreign_records_witness :
  7 <> 8 /\
  Samples.two_owners !! 2 =
    Some {| user_id := 8; filename := "b.csv"; row_anomaly_indices := [];
            row_confidence_scores := []; original_data := [] |} /\
  Store.get Samples.two_owners 7 2 = Store.NotFound /\
  Store.get Samples.two_owners 7 2 = Store.get (delete 2 Samples.two_owners) 7 2.
Proof.
  split; [lia|]. split; [vm_compute; reflexivity|].
  destruct (get_hides_foreign_records Samples.two_owners 7 8 2
              {| user_id := 8; filename := "b.csv"; row_anomaly_indices := [];
                 row_confidence_scores := []; original_data := [] |})
    as (H1 & H2 & _).
  - lia.
  - vm_compute; reflexivity.
  - reflexivity.
  - split; [exact H1|exact H2].
Defined.

(** ** The upload handler *)

Section UploadFacts.

Variable rnse_run : Z -> Z -> RNSEParams -> rnse_output.

Lemma upload_csv_raises (conn : results_table) (uid : Z) (fname text : string)
      (e : exn) :
  decode text = Raise e ->
  upload_csv rnse_run conn uid fname text = (Raise e, conn).
Proof. unfold upload_csv. intros ->. reflexivity. Qed.

Lemma upload_csv_ok (conn : results_table) (uid : Z) (fname text : string)
      (values : list float) :
  decode text = Ok values ->
  let fl := analyse rnse_run values in
  let row := {| user_id := uid; filename := fname;
                row_anomaly_indices := anomaly_indices fl;
                row_confidence_scores := confidence_scores fl;
                original_data := values |} in
  upload_csv rnse_run conn uid fname text =
  (Ok {| result_id := fresh_id conn; resp_filename := fname;
         anomaly_count := length (anomaly_indices fl);
         resp_anomaly_indices := anomaly_indices fl;
         resp_confidence_scores := confidence_scores fl |},
   <[fresh_id conn := row]> conn).
Proof. unfold upload_csv. intros ->. reflexivity. Qed.

Lemma decode_validate (text : string) (values : list float) :
  numeric_values text = Ok values -> decode text = validate values.
Proof. unfold decode. intros ->. reflexivity. Qed.

Lemma length_flagged_from_parsed (threshold norm : float) (i : nat)
      (ls : list line_bytes) :
  (length (flagged_from threshold norm i ls)
   <= length (Spec.parsed_lines norm ls))%nat.
Proof.
  unfold Spec.parsed_lines. revert i.
  induction ls as [|lb ls IH]; intros i; simpl; [lia|].
  specialize (IH (S i)). rewrite filter_cons.
  destruct (line_confidence norm lb) as [c|] eqn:Hc.
  - destruct (decide (is_Some (Some c))) as [_|Hn];
      [|exfalso; apply Hn; eauto].
    destruct (gtb c threshold); simpl; lia.
  - destruct (decide (is_Some (@None float))) as [[? ?]|_]; [discriminate|].
    exact IH.
Qed.

(** What the dashboard receives: two arrays of the same length, the
    length being the anomaly count, with ascending indices. *)
Lemma upload_response_arrays (conn conn' : results_table) (uid : Z)
      (fname text : string) (resp : upload_response) :
  upload_csv rnse_run conn uid fname text = (Ok resp, conn') ->
  anomaly_count resp = length (resp_anomaly_indices resp) /\
  length (resp_confidence_scores resp) = length (resp_anomaly_indices resp) /\
  StronglySorted lt (resp_anomaly_indices resp).
Proof.
  unfold upload_csv. destruct (decode text) as [values|e]; [|discriminate].
  cbn. intros H. injection H as <- _. cbn.
  unfold analyse. rewrite extract_flagged_from. cbn.
  rewrite !length_fmap. split; [reflexivity|]. split; [reflexivity|].
  apply flagged_from_sorted.
Qed.

End UploadFacts.

(** C6.  When the value loop yields fewer than ten samples, decoding
    fails with the 400 response "Need at least 10 data points" and the
    upload leaves the table as it was; when it yields ten samples or
    more, decoding succeeds with exactly these samples and the upload
    stores them. *)
Theorem decode_minimum_length
        (rnse_run : Z -> Z -> RNSEParams -> rnse_output)
        (conn : results_table) (uid : Z) (fname text : string)
        (values : list float) :
  numeric_values text = Ok values ->
  ((length values < 10)%nat ->
   decode text = Raise need_at_least_10 /\
   upload_csv rnse_run conn uid fname text = (Raise need_at_least_10, conn)) /\
  ((10 <= length values)%nat ->
   decode text = Ok values /\
   exists resp conn' row,
     upload_csv rnse_run conn uid fname text = (Ok resp, conn') /\
     conn' !! result_id resp = Some row /\ original_data row = values).
Proof.
  intros Hvalues. pose proof (decode_validate _ _ Hvalues) as Hdec.
  unfold validate in Hdec. split; intros Hlen.
  - assert ((length values <? 10)%nat = true) as Hlt by (apply Nat.ltb_lt; lia).
    rewrite Hlt in Hdec. split; [exact Hdec|].
    apply upload_csv_raises. exact Hdec.
  - assert ((length values <? 10)%nat = false) as Hge by (apply Nat.ltb_ge; lia).
    rewrite Hge in Hdec. split; [exact Hdec|].
    eexists _, _, _. split; [apply (upload_csv_ok rnse_run); exact Hdec|].
    simpl. rewrite lookup_insert_eq. split; reflexivity.
Qed.

Lemma decode_minimum_length_witness :
  (exists values,
      numeric_values Samples.nine_samples = Ok values /\ length values = 9%nat) /\
  decode Samples.nine_samples = Raise need_at_least_10 /\
  upload_csv Samples.spike_scorer Samples.two_owners 7 "nine.csv" Samples.nine_samples
  = (Raise need_at_least_10, Samples.two_owners).
Proof.
  destruct (numeric_values Samples.nine_samples) as [values|] eqn:Hvalues;
    [|vm_compute in Hvalues; discriminate].
  assert (length values = 9%nat) as Hlen
    by (vm_compute in Hvalues; injection Hvalues as <-; reflexivity).
  split; [exists values; split; [reflexivity|exact Hlen]|].
  apply (decode_minimum_length Samples.spike_scorer Samples.two_owners 7
           "nine.csv" Samples.nine_samples values Hvalues).
  lia.
Defined.

(** Ten samples are accepted. *)
Example ten_samples_accepted :
  exists values, decode Samples.ten_samples = Ok values /\ length values = 10%nat.
Proof. eexists. split; vm_compute; reflexivity. Qed.

(** C3.  Two uploads whose decoded series have the same length receive
    the same anomaly indices and the same confidence scores: the scorer
    is called with the fixed seed, the number of samples and the fixed
    parameters, and the extraction reads its lines only. *)
Theorem flags_depend_on_length_only
        (rnse_run : Z -> Z -> RNSEParams -> rnse_output)
        (conn1 conn2 : results_table) (uid1 uid2 : Z)
        (fname1 fname2 text1 text2 : string) (values1 values2 : list float) :
  decode text1 = Ok values1 ->
  decode text2 = Ok values2 ->
  length values1 = length values2 ->
  analyse rnse_run values1 = analyse rnse_run values2 /\
  exists resp1 resp2,
    (upload_csv rnse_run conn1 uid1 fname1 text1).1 = Ok resp1 /\
    (upload_csv rnse_run conn2 uid2 fname2 text2).1 = Ok resp2 /\
    resp_anomaly_indices resp1 = resp_anomaly_indices resp2 /\
    resp_confidence_scores resp1 = resp_confidence_scores resp2 /\
    anomaly_count resp1 = anomaly_count resp2.
Proof.
  intros H1 H2 Hlen.
  assert (analyse rnse_run values1 = analyse rnse_run values2) as Heq
    by (unfold analyse; rewrite Hlen; reflexivity).
  split; [exact Heq|].
  rewrite (upload_csv_ok rnse_run conn1 uid1 fname1 text1 values1 H1).
  rewrite (upload_csv_ok rnse_run conn2 uid2 fname2 text2 values2 H2).
  eexists _, _. split; [reflexivity|]. split; [reflexivity|].
  simpl. rewrite Heq. auto.
Qed.

Lemma flags_depend_on_length_only_witness :
  exists values1 values2,
    decode Samples.ten_samples = Ok values1 /\
    decode Samples.ten_other_samples = Ok values2 /\
    values1 <> values2 /\
    length values1 = length values2 /\
    analyse Samples.spike_scorer values1 = analyse Samples.spike_scorer values2.
Proof.
  destruct (decode Samples.ten_samples) as [values1|] eqn:H1;
    [|vm_compute in H1; discriminate].
  destruct (decode Samples.ten_other_samples) as [values2|] eqn:H2;
    [|vm_compute in H2; discriminate].
  assert (length values1 = length values2) as Hlen.
  { vm_compute in H1, H2. injection H1 as <-. injection H2 as <-. reflexivity. }
  exists values1, values2.
  split; [reflexivity|]. split; [reflexivity|]. split.
  - vm_compute in H1, H2. injection H1 as <-. injection H2 as <-. discriminate.
  - split; [exact Hlen|].
    apply (flags_depend_on_length_only Samples.spike_scorer ∅ ∅ 7 8
             "a.csv" "b.csv" Samples.ten_samples Samples.ten_other_samples
             values1 values2 H1 H2 Hlen).
Defined.

(** C1, as the code has it.  The handler does not compare the number of
    score lines with the number of samples: once the series is decoded
    the upload completes and stores a record whatever the scorer
    returned.  A line that does not parse is passed over and yields no
    flag; the flags are at most as many as the lines that parse, and
    every flagged index is the position of a line of the scorer's
    output. *)
Theorem upload_ignores_line_count
        (rnse_run : Z -> Z -> RNSEParams -> rnse_output)
        (conn : results_table) (uid : Z) (fname text : string)
        (values : list float) :
  decode text = Ok values ->
  let ls := lines (rnse_run seed64 (Z.of_nat (length values)) params) in
  let fl := extract default_threshold one ls in
  (exists resp conn' row,
      upload_csv rnse_run conn uid fname text = (Ok resp, conn') /\
      resp_anomaly_indices resp = anomaly_indices fl /\
      resp_confidence_scores resp = confidence_scores fl /\
      conn !! result_id resp = None /\
      conn' !! result_id resp = Some row /\
      original_data row = values /\
      row_anomaly_indices row = anomaly_indices fl /\
      row_confidence_scores row = confidence_scores fl) /\
  (forall i lb, ls !! i = Some lb -> line_confidence one lb = None ->
                i ∉ anomaly_indices fl) /\
  (length (anomaly_indices fl) <= length (Spec.parsed_lines one ls))%nat /\
  (length (Spec.parsed_lines one ls) <= length ls)%nat /\
  Forall (fun i => (i < length ls)%nat) (anomaly_indices fl).
Proof.
  intros Hdec ls fl. split.
  - eexists _, _, _. split; [apply (upload_csv_ok rnse_run); exact Hdec|].
    simpl. rewrite lookup_insert_eq, fresh_id_fresh. repeat split; reflexivity.
  - subst fl. rewrite extract_flagged_from. simpl. split; [|split; [|split]].
    + intros i lb Hl Hc Hin.
      apply list_elem_of_fmap in Hin as ([j c] & -> & Hin).
      apply elem_of_flagged_from in Hin as (lb' & _ & Hl' & Hc' & _).
      simpl in *. rewrite Nat.sub_0_r in Hl'. congruence.
    + rewrite length_fmap. apply length_flagged_from_parsed.
    + apply length_filter.
    + apply Forall_forall. intros i Hin.
      apply list_elem_of_fmap in Hin as ([j c] & -> & Hin).
      apply elem_of_flagged_from in Hin as (lb' & _ & Hl' & _).
      simpl in *. rewrite Nat.sub_0_r in Hl'.
      apply lookup_lt_Some in Hl'. exact Hl'.
Qed.

Lemma upload_ignores_line_count_witness :
  exists values resp conn',
    decode Samples.ten_samples = Ok values /\
    upload_csv Samples.faulty_scorer Samples.two_owners 7 "a.csv"
               Samples.ten_samples = (Ok resp, conn') /\
    Samples.two_owners !! result_id resp = None /\
    is_Some (conn' !! result_id resp).
Proof.
  destruct (decode Samples.ten_samples) as [values|] eqn:Hdec;
    [|vm_compute in Hdec; discriminate].
  destruct (upload_ignores_line_count Samples.faulty_scorer Samples.two_owners
              7 "a.csv" Samples.ten_samples values Hdec)
    as ((resp & conn' & row & Hup & _ & _ & Hnone & Hsome & _) & _).
  exists values, resp, conn'.
  split; [reflexivity|]. split; [exact Hup|]. split; [exact Hnone|].
  exists row. exact Hsome.
Defined.

(** C1, as the specification states it, fails: with a scorer whose output
    has a line that is not JSON and lacks the last tick, eight lines
    parse for ten samples, and the upload still answers with a result. *)
Lemma faulty_scorer_goes_unnoticed :
  (exists values,
      decode Samples.ten_samples = Ok values /\ length values = 10%nat) /\
  length (Spec.parsed_lines one (lines (Samples.faulty_scorer seed64 10 params)))
  = 8%nat /\
  (upload_csv Samples.faulty_scorer ∅ 7 "a.csv" Samples.ten_samples).1
  = Ok {| result_id := 1; resp_filename := "a.csv"; anomaly_count := 1;
          resp_anomaly_indices := [6%nat];
          resp_confidence_scores := [Samples.high] |} /\
  ~ Spec.count_invariant_enforced Samples.faulty_scorer.
Proof.
  assert (exists values,
             decode Samples.ten_samples = Ok values /\ length values = 10%nat)
    as Hdec by (eexists; split; vm_compute; reflexivity).
  assert ((upload_csv Samples.faulty_scorer ∅ 7 "a.csv" Samples.ten_samples).1
          = Ok {| result_id := 1; resp_filename := "a.csv"; anomaly_count := 1;
                  resp_anomaly_indices := [6%nat];
                  resp_confidence_scores := [Samples.high] |}) as Hup
    by (vm_compute; reflexivity).
  split; [exact Hdec|]. split; [vm_compute; reflexivity|]. split; [exact Hup|].
  intros Hinv. destruct Hdec as (values & Hdec & Hlen).
  destruct (Hinv ∅ 7 "a.csv"%string Samples.ten_samples values Hdec) as [e He].
  - rewrite Hlen. vm_compute. discriminate.
  - rewrite Hup in He. discriminate.
Qed.

(** ** Reading back a plain CSV text *)

Section ReadingPlainText.

Import Csv Download.

Lemma list_ascii_of_string_app (s1 s2 : string) :
  String.list_ascii_of_string (s1 ++ s2) =
  String.list_ascii_of_string s1 ++ String.list_ascii_of_string s2.
Proof. induction s1 as [|c s1 IH]; simpl; [reflexivity|]. rewrite IH. reflexivity. Qed.

Lemma plain_char_inv (c : ascii) :
  plain_char c = true ->
  Ascii.eqb c delimiter = false /\ Ascii.eqb c quotechar = false /\
  is_newline c = false /\ Ascii.eqb c LF = false.
Proof.
  unfold plain_char, is_newline. intros H.
  apply negb_true_iff in H.
  apply orb_false_iff in H as [H Hnl]. apply orb_false_iff in H as [Hd Hq].
  pose proof Hnl as Hnl'. apply orb_false_iff in Hnl' as [Hlf _].
  auto.
Qed.

Lemma parse_add_char_ok (st : parser_state) (f : list ascii) (fs : list string)
      (c : ascii) :
  Z.of_nat (length f) < field_limit ->
  parse_add_char (Reader st f fs) c = Ok (Reader st (f ++ [c]) fs).
Proof.
  intros H. unfold parse_add_char. cbn [field state fields].
  destruct (field_limit <=? Z.of_nat (length f)) eqn:E; [|reflexivity].
  apply Z.leb_le in E. lia.
Qed.

(** Plain characters inside a field are appended to it. *)
Lemma parse_line_plain_run (s : list ascii) (f : list ascii) (fs : list string)
      (rest : list ascii) :
  forallb plain_char s = true ->
  Z.of_nat (length f + length s) <= field_limit ->
  parse_line (Reader IN_FIELD f fs) (s ++ rest) =
  parse_line (Reader IN_FIELD (f ++ s) fs) rest.
Proof.
  revert f. induction s as [|c s IH]; intros f Hs Hlen.
  - rewrite app_nil_r. reflexivity.
  - cbn [forallb] in Hs. apply andb_true_iff in Hs as [Hc Hs].
    apply plain_char_inv in Hc as (Hd & _ & Hn & _).
    cbn [app parse_line]. unfold parse_process_char. cbn [state].
    rewrite Hn, Hd, parse_add_char_ok by (cbn [length] in Hlen; lia).
    cbn [mbind result_bind].
    rewrite IH; [|exact Hs|rewrite length_app; cbn [length] in *; lia].
    rewrite <- app_assoc. reflexivity.
Qed.

(** A plain field begun at the start of a record or of a field. *)
Lemma parse_line_field_start (st : parser_state) (c : ascii) (s : list ascii)
      (fs : list string) (rest : list ascii) :
  st = START_RECORD \/ st = START_FIELD ->
  forallb plain_char (c :: s) = true ->
  Z.of_nat (length (c :: s)) <= field_limit ->
  parse_line (Reader st [] fs) ((c :: s) ++ rest) =
  parse_line (Reader IN_FIELD (c :: s) fs) rest.
Proof.
  intros Hst Hs Hlen.
  cbn [forallb] in Hs. apply andb_true_iff in Hs as [Hc Hs].
  apply plain_char_inv in Hc as (Hd & Hq & Hn & _).
  cbn [app parse_line].
  assert (parse_process_char (Reader st [] fs) (Some c)
          = Ok (Reader IN_FIELD [c] fs)) as ->.
  { unfold parse_process_char, start_field. cbn [state].
    destruct Hst as [-> | ->]; rewrite Hn, Hq, Hd;
      rewrite parse_add_char_ok by (cbn; unfold field_limit; lia);
      reflexivity. }
  cbn [mbind result_bind].
  rewrite parse_line_plain_run; [reflexivity|exact Hs|].
  cbn [length] in *. lia.
Qed.

(** A plain field followed by the delimiter is saved. *)
Lemma parse_line_field_delimiter (st : parser_state) (s : string)
      (fs : list string) (rest : list ascii) :
  st = START_RECORD \/ st = START_FIELD ->
  plain_field s = true ->
  parse_line (Reader st [] fs)
             (String.list_ascii_of_string s ++ delimiter :: rest) =
  parse_line (Reader START_FIELD [] (fs ++ [s])) rest.
Proof.
  intros Hst Hs. unfold plain_field in Hs.
  apply andb_true_iff in Hs as [Hs Hlen]. apply Z.leb_le in Hlen.
  rewrite <- (string_of_list_ascii_of_string s) at 2.
  destruct (String.list_ascii_of_string s) as [|c l].
  - cbn [app parse_line].
    destruct Hst as [-> | ->]; reflexivity.
  - rewrite parse_line_field_start by assumption.
    cbn [parse_line]. unfold parse_process_char. cbn [state].
    replace (is_newline delimiter) with false by reflexivity.
    rewrite Ascii.eqb_refl. reflexivity.
Qed.

(** A plain field followed by the line terminator ends the record. *)
Lemma parse_line_last_field (s : string) (fs : list string) (eol : list ascii) :
  eol = [LF] \/ eol = [CR; LF] ->
  plain_field s = true ->
  parse_line (Reader START_FIELD [] fs) (String.list_ascii_of_string s ++ eol) =
  Ok (Reader START_RECORD [] (fs ++ [s])).
Proof.
  intros Heol Hs. unfold plain_field in Hs.
  apply andb_true_iff in Hs as [Hs Hlen]. apply Z.leb_le in Hlen.
  rewrite <- (string_of_list_ascii_of_string s) at 2.
  destruct (String.list_ascii_of_string s) as [|c l].
  - destruct Heol as [-> | ->]; reflexivity.
  - rewrite parse_line_field_start; [|right; reflexivity|assumption..].
    destruct Heol as [-> | ->]; reflexivity.
Qed.

(** A line of four plain cells is read as these four cells. *)
Lemma parse_line_four_cells (c0 c1 c2 c3 : string) (eol : list ascii) :
  eol = [LF] \/ eol = [CR; LF] ->
  plain_field c0 = true -> plain_field c1 = true ->
  plain_field c2 = true -> plain_field c3 = true ->
  parse_line parse_reset
    (String.list_ascii_of_string c0 ++ delimiter ::
     String.list_ascii_of_string c1 ++ delimiter ::
     String.list_ascii_of_string c2 ++ delimiter ::
     String.list_ascii_of_string c3 ++ eol) =
  Ok (Reader START_RECORD [] [c0; c1; c2; c3]).
Proof.
  intros Heol H0 H1 H2 H3. unfold parse_reset.
  rewrite parse_line_field_delimiter; [|left; reflexivity|exact H0].
  rewrite parse_line_field_delimiter; [|right; reflexivity|exact H1].
  rewrite parse_line_field_delimiter; [|right; reflexivity|exact H2].
  rewrite parse_line_last_field; [reflexivity|exact Heol|exact H3].
Qed.

(** A text that starts with a line is split after the line feed. *)
Lemma readlines_line (l rest : list ascii) :
  forallb (fun c => negb (Ascii.eqb c LF)) l = true ->
  readlines (l ++ LF :: rest) = (l ++ [LF]) :: readlines rest.
Proof.
  induction l as [|c l IH]; intros Hl.
  - cbn [app readlines]. rewrite Ascii.eqb_refl. reflexivity.
  - cbn [forallb] in Hl. apply andb_true_iff in Hl as [Hc Hl].
    apply negb_true_iff in Hc.
    cbn [app readlines]. rewrite Hc, (IH Hl). reflexivity.
Qed.

Lemma plain_field_no_LF (s : string) :
  plain_field s = true ->
  forallb (fun c => negb (Ascii.eqb c LF)) (String.list_ascii_of_string s) = true.
Proof.
  unfold plain_field. intros H. apply andb_true_iff in H as [H _].
  induction (String.list_ascii_of_string s) as [|c l IH]; [reflexivity|].
  cbn [forallb] in *. apply andb_true_iff in H as [Hc H].
  apply plain_char_inv in Hc as (_ & _ & _ & Hlf).
  rewrite Hlf, (IH H). reflexivity.
Qed.

End ReadingPlainText.

(** ** Decoding a download *)

Section DecodingADownload.

Import Csv Download.

Variable rnd : rendering.
Variable row : results_row.

Hypothesis unflagged : row_anomaly_indices row = [].

Let eol : list ascii := String.list_ascii_of_string (line_terminator rnd).

Hypothesis eol_ok : eol = [LF] \/ eol = [CR; LF].
Hypothesis plain_false : plain_field (show_bool rnd false) = true.
Hypothesis plain_zero : plain_field (show_float rnd zero) = true.

Lemma encode_row_chars (i : nat) (v : float) :
  String.list_ascii_of_string (encode_row rnd row i v) =
  String.list_ascii_of_string (show_nat i) ++ delimiter ::
  String.list_ascii_of_string (show_float rnd v) ++ delimiter ::
  String.list_ascii_of_string (show_bool rnd false) ++ delimiter ::
  String.list_ascii_of_string (show_float rnd zero) ++ eol.
Proof.
  unfold encode_row. rewrite unflagged. cbn [flag_confidence].
  rewrite !list_ascii_of_string_app. reflexivity.
Qed.

(** The first line of a text is read as one row when it is made of four
    plain cells. *)
Lemma rows_from_four_cells (c0 c1 c2 c3 : string) (rest : list ascii) :
  plain_field c0 = true -> plain_field c1 = true ->
  plain_field c2 = true -> plain_field c3 = true ->
  rows_from parse_reset
    (readlines
       ((String.list_ascii_of_string c0 ++ delimiter ::
         String.list_ascii_of_string c1 ++ delimiter ::
         String.list_ascii_of_string c2 ++ delimiter ::
         String.list_ascii_of_string c3 ++ eol) ++ rest)) =
  (rows ← rows_from parse_reset (readlines rest); Ok ([c0; c1; c2; c3] :: rows)).
Proof.
  intros H0 H1 H2 H3.
  pose proof (parse_line_four_cells c0 c1 c2 c3 eol eol_ok H0 H1 H2 H3) as Hline.
  assert (exists p,
             String.list_ascii_of_string c0 ++ delimiter ::
             String.list_ascii_of_string c1 ++ delimiter ::
             String.list_ascii_of_string c2 ++ delimiter ::
             String.list_ascii_of_string c3 ++ eol = p ++ [LF] /\
             forallb (fun c => negb (Ascii.eqb c LF)) p = true) as (p & Hp & Hno).
  { pose proof (plain_field_no_LF _ H0) as N0.
    pose proof (plain_field_no_LF _ H1) as N1.
    pose proof (plain_field_no_LF _ H2) as N2.
    pose proof (plain_field_no_LF _ H3) as N3.
    destruct eol_ok as [-> | ->].
    - exists (String.list_ascii_of_string c0 ++ delimiter ::
              String.list_ascii_of_string c1 ++ delimiter ::
              String.list_ascii_of_string c2 ++ delimiter ::
              String.list_ascii_of_string c3).
      split.
      + repeat (rewrite <- ?app_assoc; cbn [app]). reflexivity.
      + rewrite !forallb_app. cbn [forallb]. rewrite !forallb_app.
        cbn [forallb]. rewrite !forallb_app. cbn [forallb].
        rewrite N0, N1, N2, N3. reflexivity.
    - exists (String.list_ascii_of_string c0 ++ delimiter ::
              String.list_ascii_of_string c1 ++ delimiter ::
              String.list_ascii_of_string c2 ++ delimiter ::
              String.list_ascii_of_string c3 ++ [CR]).
      split.
      + repeat (rewrite <- ?app_assoc; cbn [app]). reflexivity.
      + rewrite !forallb_app. cbn [forallb]. rewrite !forallb_app.
        cbn [forallb]. rewrite !forallb_app. cbn [forallb].
        rewrite !forallb_app. cbn [forallb].
        rewrite N0, N1, N2, N3. reflexivity. }
  rewrite Hp in Hline |- *.
  rewrite <- app_assoc. cbn [app].
  rewrite (readlines_line p rest Hno).
  cbn [rows_from]. rewrite Hline. reflexivity.
Qed.

(** The data rows of the download are read back, and the value loop
    recovers the samples from them. *)
Lemma rows_from_encode_rows (i : nat) (values : list float) :
  plain_rows rnd i values = true ->
  exists rows,
    rows_from parse_reset
      (readlines (String.list_ascii_of_string (encode_rows rnd row i values)))
    = Ok rows /\
    forall acc, for_rows rows acc = Ok (acc ++ values).
Proof.
  revert i. induction values as [|v values IH]; intros i Hplain.
  - exists []. split; [reflexivity|]. intros acc. rewrite app_nil_r. reflexivity.
  - cbn [plain_rows] in Hplain.
    apply andb_true_iff in Hplain as [Hplain Hrest].
    apply andb_true_iff in Hplain as [Hplain Hback].
    apply andb_true_iff in Hplain as [Hi Hv].
    destruct (IH (S i) Hrest) as (rows & Hrows & Hfor).
    exists ([show_nat i; show_float rnd v; show_bool rnd false;
             show_float rnd zero] :: rows).
    split.
    + cbn [encode_rows]. rewrite list_ascii_of_string_app, encode_row_chars.
      rewrite rows_from_four_cells by assumption.
      rewrite Hrows. reflexivity.
    + intros acc. cbn [for_rows]. unfold append_value. cbn [length nth].
      unfold reads_back in Hback.
      destruct (PyFloat.float_of_string (show_float rnd v)) as [v'|];
        [|discriminate].
      apply bool_decide_eq_true in Hback. subst v'.
      replace (1 <? 4)%nat with true by reflexivity.
      cbn [mbind result_bind]. rewrite Hfor, <- app_assoc. reflexivity.
Qed.

Lemma numeric_values_encode :
  plain_rows rnd 0 (original_data row) = true ->
  numeric_values (encode rnd row) = Ok (original_data row).
Proof.
  intros Hplain.
  destruct (rows_from_encode_rows 0 (original_data row) Hplain)
    as (rows & Hrows & Hfor).
  unfold numeric_values, read, encode.
  rewrite !list_ascii_of_string_app.
  change (String.list_ascii_of_string header) with
    (String.list_ascii_of_string "index" ++ delimiter ::
     String.list_ascii_of_string "value" ++ delimiter ::
     String.list_ascii_of_string "is_anomaly" ++ delimiter ::
     String.list_ascii_of_string "confidence").
  fold eol.
  replace ((String.list_ascii_of_string "index" ++ delimiter ::
            String.list_ascii_of_string "value" ++ delimiter ::
            String.list_ascii_of_string "is_anomaly" ++ delimiter ::
            String.list_ascii_of_string "confidence") ++ eol ++
           String.list_ascii_of_string (encode_rows rnd row 0 (original_data row)))
    with ((String.list_ascii_of_string "index" ++ delimiter ::
           String.list_ascii_of_string "value" ++ delimiter ::
           String.list_ascii_of_string "is_anomaly" ++ delimiter ::
           String.list_ascii_of_string "confidence" ++ eol) ++
          String.list_ascii_of_string (encode_rows rnd row 0 (original_data row)))
    by (repeat (rewrite <- ?app_assoc; cbn [app]); reflexivity).
  rewrite rows_from_four_cells by reflexivity.
  rewrite Hrows. cbn [mbind result_bind tail]. apply (Hfor []).
Qed.

End DecodingADownload.

(** ** Numbers written exactly *)

Section ExactDivision.

Lemma div_eucl_div_mod (a b : Z) : Z.div_eucl a b = (a / b, a mod b).
Proof. unfold Z.div, Z.modulo. destruct (Z.div_eucl a b). reflexivity. Qed.

Lemma iter_pos_nat {A : Type} (f : A -> A) (p : positive) (x : A) :
  SpecFloat.iter_pos f p x = Nat.iter (Pos.to_nat p) f x.
Proof.
  revert x. induction p as [p IH|p IH|]; intros x; cbn [SpecFloat.iter_pos].
  - rewrite !IH, Pos2Nat.inj_xI.
    replace (S (2 * Pos.to_nat p))%nat with (Pos.to_nat p + (Pos.to_nat p + 1))%nat by lia.
    rewrite !Nat.iter_add. reflexivity.
  - rewrite !IH, Pos2Nat.inj_xO.
    replace (2 * Pos.to_nat p)%nat with (Pos.to_nat p + Pos.to_nat p)%nat by lia.
    rewrite Nat.iter_add. reflexivity.
  - reflexivity.
Qed.

(** The mantissa [m] followed by [n] zero bits. *)
Lemma iter_xO_value (n : nat) (m : positive) :
  Zpos (Nat.iter n xO m) = Zpos m * 2 ^ Z.of_nat n.
Proof.
  induction n as [|n IH]; [cbn; lia|].
  rewrite Nat2Z.inj_succ, Z.pow_succ_r by lia.
  change (Nat.iter (S n) xO m) with (xO (Nat.iter n xO m)).
  rewrite Pos2Z.inj_xO, IH. lia.
Qed.

Lemma iter_xO_digits (n : nat) (m : positive) :
  Zpos (digits2_pos (Nat.iter n xO m)) = Zpos (digits2_pos m) + Z.of_nat n.
Proof.
  induction n as [|n IH]; [cbn; lia|].
  change (Nat.iter (S n) xO m) with (xO (Nat.iter n xO m)).
  cbn [digits2_pos]. rewrite Pos2Z.inj_succ, IH. lia.
Qed.

Lemma iter_shr_1 (n : nat) (m : positive) :
  Nat.iter n shr_1 (Build_shr_record (Zpos (Nat.iter n xO m)) false false)
  = Build_shr_record (Zpos m) false false.
Proof.
  induction n as [|n IH]; [reflexivity|].
  rewrite Nat.iter_succ_r.
  change (Nat.iter (S n) xO m) with (xO (Nat.iter n xO m)).
  cbn [shr_1 orb]. exact IH.
Qed.

(** Rounding a canonical mantissa followed by zero bits gives the
    canonical float: the zero bits are shifted out and nothing is lost. *)
Lemma binary_round_aux_shifted (s : bool) (m : positive) (e : Z) (n : nat) :
  fexp prec emax (Zpos (digits2_pos m) + e) = e ->
  e <= emax - prec ->
  binary_round_aux prec emax s (Zpos (Nat.iter n xO m)) (e - Z.of_nat n) loc_Exact
  = S754_finite s m e.
Proof.
  intros Hc Hb. unfold binary_round_aux.
  assert (shr_fexp prec emax (Zpos (Nat.iter n xO m)) (e - Z.of_nat n) loc_Exact
          = (Build_shr_record (Zpos m) false false, e)) as ->.
  { unfold shr_fexp. cbn [Zdigits2 shr_record_of_loc].
    rewrite iter_xO_digits.
    replace (Z.pos (digits2_pos m) + Z.of_nat n + (e - Z.of_nat n))
      with (Zpos (digits2_pos m) + e) by lia.
    rewrite Hc. replace (e - (e - Z.of_nat n)) with (Z.of_nat n) by lia.
    destruct n as [|n];
      [cbn [Z.of_nat shr]; rewrite Z.sub_0_r; reflexivity|].
    unfold shr. change (Z.of_nat (S n)) with (Zpos (Pos.of_succ_nat n)).
    cbv iota. rewrite iter_pos_nat, SuccNat2Pos.id_succ, iter_shr_1.
    f_equal. lia. }
  cbn [shr_m loc_of_shr_record round_nearest_even].
  unfold shr_fexp. cbn [Zdigits2 shr_record_of_loc].
  rewrite Hc, Z.sub_diag. cbn [shr shr_m].
  apply Z.leb_le in Hb. rewrite Hb. reflexivity.
Qed.

Lemma digits2_pos_bounds (p : positive) :
  2 ^ (Zpos (digits2_pos p) - 1) <= Zpos p < 2 ^ Zpos (digits2_pos p).
Proof.
  induction p as [p IH|p IH|]; cbn [digits2_pos]; [| |cbn; lia];
    rewrite Pos2Z.inj_succ;
    replace (Z.succ (Z.pos (digits2_pos p)) - 1)
      with (Z.succ (Z.pos (digits2_pos p) - 1)) by lia;
    rewrite !Z.pow_succ_r by lia; lia.
Qed.

Lemma fexp_le (a b : Z) : a <= b -> fexp prec emax a <= fexp prec emax b.
Proof. unfold fexp. lia. Qed.

Lemma new_location_zero (b : positive) : new_location (Zpos b) 0 = loc_Exact.
Proof. unfold new_location. destruct (Z.even (Z.pos b)); reflexivity. Qed.

(** The quotient of two integers that is a binary64 number is that
    number: no rounding takes place.  The quotient is [m * 2^e], written
    [a * 2^k = m * 2^j * b] with [e = j - k]. *)
Lemma SFdiv_exact (s : bool) (m : positive) (e : Z) (a b : positive) :
  valid (S754_finite s m e) ->
  Zpos a * 2 ^ Z.max 0 (- e) = Zpos m * 2 ^ Z.max 0 e * Zpos b ->
  SFdiv prec emax (S754_finite s a 0) (S754_finite false b 0) = S754_finite s m e.
Proof.
  intros Hv Hq.
  unfold valid, valid_binary, bounded, canonical_mantissa in Hv.
  apply andb_true_iff in Hv as [Hc Hb].
  apply Z.eqb_eq in Hc. apply Z.leb_le in Hb.
  unfold SFdiv, SFdiv_core_binary. cbn [Zdigits2].
  rewrite !Z.add_0_r, Z.sub_diag.
  set (d1 := Zpos (digits2_pos a)). set (d2 := Zpos (digits2_pos b)).
  set (dm := Zpos (digits2_pos m)) in *.
  pose proof (digits2_pos_bounds a) as Ha. fold d1 in Ha.
  pose proof (digits2_pos_bounds b) as Hb2. fold d2 in Hb2.
  pose proof (digits2_pos_bounds m) as Hm. fold dm in Hm.
  (* the digits of the quotient *)
  assert (d1 - d2 <= dm + e) as Hd.
  { destruct (Z.le_gt_cases (d1 - d2) (dm + e)) as [|Hgt]; [assumption|exfalso].
    assert (0 < d1) by (unfold d1; lia). assert (0 < d2) by (unfold d2; lia).
    assert (0 < dm) by (unfold dm; lia).
    assert (Z.pos m * 2 ^ Z.max 0 e * Z.pos b
            < 2 ^ dm * 2 ^ Z.max 0 e * 2 ^ d2) as Hlt.
    { assert (0 < 2 ^ Z.max 0 e) as Hp by (apply Z.pow_pos_nonneg; lia).
      apply Z.mul_lt_mono_nonneg; [| |lia|lia].
      - apply Z.mul_nonneg_nonneg; lia.
      - apply Z.mul_lt_mono_pos_r; lia. }
    assert (2 ^ (d1 - 1) * 2 ^ Z.max 0 (- e) <= Z.pos a * 2 ^ Z.max 0 (- e)) as Hle.
    { apply Z.mul_le_mono_nonneg_r; [apply Z.pow_nonneg; lia|lia]. }
    rewrite <- !Z.pow_add_r in Hlt, Hle by lia.
    rewrite Hq in Hle.
    rewrite <- Z.pow_add_r in Hlt by lia.
    assert (2 ^ (d1 - 1 + Z.max 0 (- e)) < 2 ^ (dm + Z.max 0 e + d2)) as Hpow by lia.
    apply Z.pow_lt_mono_r_iff in Hpow; lia. }
  pose proof (fexp_le _ _ Hd) as Hf. rewrite Hc in Hf.
  set (e' := Z.min (fexp prec emax (d1 - d2)) 0).
  assert (e' <= e /\ e' <= 0) as [He' He0] by (unfold e'; lia).
  (* the shifted dividend is a multiple of the divisor *)
  assert (match 0 - e' with
          | 0 => Z.pos a
          | Z.pos _ => Z.shiftl (Z.pos a) (0 - e')
          | Z.neg _ => 0
          end = Zpos a * 2 ^ (- e')) as ->.
  { destruct (0 - e') eqn:E; try lia.
    - replace (- e') with 0 by lia. lia.
    - rewrite <- E, Z.shiftl_mul_pow2 by lia.
      replace (0 - e') with (- e') by lia. reflexivity. }
  assert (Zpos a * 2 ^ (- e') = Zpos m * 2 ^ (e - e') * Zpos b) as Hmul.
  { destruct (Z.le_gt_cases 0 e) as [Hpos|Hneg].
    - rewrite Z.max_l in Hq by lia. rewrite Z.max_r in Hq by lia.
      rewrite Z.pow_0_r, Z.mul_1_r in Hq. rewrite Hq.
      replace (e - e') with (e + - e') by lia.
      rewrite Z.pow_add_r by lia. ring.
    - rewrite Z.max_r in Hq by lia. rewrite Z.max_l in Hq by lia.
      rewrite Z.pow_0_r, Z.mul_1_r in Hq.
      replace (- e') with (- e + (e - e')) by lia.
      rewrite Z.pow_add_r by lia. rewrite Z.mul_assoc, Hq. ring. }
  rewrite Hmul, div_eucl_div_mod, Z.div_mul, Z.mod_mul by lia.
  rewrite new_location_zero, xorb_false_r.
  rewrite <- (Z2Nat.id (e - e')) by lia.
  rewrite <- iter_xO_value.
  replace e' with (e - Z.of_nat (Z.to_nat (e - e'))) at 2 by lia.
  apply binary_round_aux_shifted; assumption.
Qed.

End ExactDivision.

Section ExactText.

Import PyFloat Download.

(** *** The digits of a number *)

Lemma uint_digits (d : Decimal.uint) :
  forallb is_digit (String.list_ascii_of_string (NilEmpty.string_of_uint d)) = true.
Proof.
  induction d; cbn [NilEmpty.string_of_uint String.list_ascii_of_string forallb];
    try rewrite IHd; reflexivity.
Qed.

Lemma uint_length (d : Decimal.uint) :
  length (String.list_ascii_of_string (NilEmpty.string_of_uint d))
  = Decimal.nb_digits d.
Proof.
  induction d; cbn [NilEmpty.string_of_uint String.list_ascii_of_string length
                    Decimal.nb_digits]; congruence.
Qed.

Lemma uint_value_acc (d : Decimal.uint) (acc : positive) :
  fold_left (fun acc c => 10 * acc + digit_value c)
            (String.list_ascii_of_string (NilEmpty.string_of_uint d)) (Zpos acc)
  = Zpos (Pos.of_uint_acc d acc).
Proof.
  revert acc.
  induction d; intros acc;
    cbn [NilEmpty.string_of_uint String.list_ascii_of_string fold_left
         Pos.of_uint_acc]; try reflexivity;
    rewrite <- IHd; f_equal;
    match goal with
    | |- context [digit_value ?c] =>
        let v := eval vm_compute in (digit_value c) in
        change (digit_value c) with v
    end; lia.
Qed.

Lemma uint_value (d : Decimal.uint) :
  digits_value (String.list_ascii_of_string (NilEmpty.string_of_uint d))
  = Z.of_N (Pos.of_uint d).
Proof.
  unfold digits_value.
  induction d;
    cbn [NilEmpty.string_of_uint String.list_ascii_of_string fold_left
         Pos.of_uint]; try reflexivity; try exact IHd;
    cbn [Z.of_N]; rewrite <- uint_value_acc; f_equal.
Qed.

Lemma uint_value_nat (d : Decimal.uint) (acc : nat) :
  fold_left (fun acc c => 10 * acc + digit_value c)
            (String.list_ascii_of_string (NilEmpty.string_of_uint d)) (Z.of_nat acc)
  = Z.of_nat (Nat.of_uint_acc d acc).
Proof.
  revert acc.
  induction d; intros acc;
    cbn [NilEmpty.string_of_uint String.list_ascii_of_string fold_left
         Nat.of_uint_acc]; try reflexivity;
    rewrite <- IHd; f_equal; rewrite ?Nat2Z.inj_succ, Nat.tail_mul_spec;
    match goal with
    | |- context [digit_value ?c] =>
        let v := eval vm_compute in (digit_value c) in
        change (digit_value c) with v
    end; lia.
Qed.

(** Both conversions of the library write a number alike. *)
Lemma show_nat_show_Z (n : nat) : show_nat n = show_Z (Z.of_nat n).
Proof.
  unfold show_nat, show_Z. f_equal.
  set (d := Nat.to_uint n).
  assert (Decimal.unorm d = d) as Hnorm.
  { unfold d. rewrite <- (DecimalNat.Unsigned.to_of (Nat.to_uint n)).
    rewrite DecimalNat.Unsigned.of_to. reflexivity. }
  rewrite <- Hnorm at 1. rewrite <- DecimalN.Unsigned.to_of. f_equal.
  apply N2Z.inj. unfold N.of_uint. rewrite <- uint_value.
  rewrite Z2N.id by lia.
  transitivity (Z.of_nat (Nat.of_uint d));
    [|unfold d; rewrite DecimalNat.Unsigned.of_to; reflexivity].
  unfold Nat.of_uint. rewrite <- uint_value_nat. reflexivity.
Qed.

Lemma show_Z_value (n : Z) :
  0 <= n -> digits_value (String.list_ascii_of_string (show_Z n)) = n.
Proof.
  intros Hn. unfold show_Z. rewrite uint_value.
  change (Pos.of_uint ?d) with (N.of_uint d).
  rewrite DecimalN.Unsigned.of_to. apply Z2N.id, Hn.
Qed.

Lemma show_Z_digits (n : Z) :
  forallb is_digit (String.list_ascii_of_string (show_Z n)) = true.
Proof. apply uint_digits. Qed.

(** A number below [2^b] has no more than [b] digits. *)
Lemma double_length (d : Decimal.uint) :
  Nat.le (Decimal.nb_digits (Decimal.Little.double d)) (S (Decimal.nb_digits d)) /\
  Nat.le (Decimal.nb_digits (Decimal.Little.succ_double d))
         (S (Decimal.nb_digits d)).
Proof.
  induction d as [|d [IH1 IH2]|d [IH1 IH2]|d [IH1 IH2]|d [IH1 IH2]|d [IH1 IH2]
                  |d [IH1 IH2]|d [IH1 IH2]|d [IH1 IH2]|d [IH1 IH2]|d [IH1 IH2]];
    cbn [Decimal.Little.double Decimal.Little.succ_double Decimal.nb_digits]; lia.
Qed.

Lemma to_little_uint_length (p : positive) :
  (Decimal.nb_digits (Pos.to_little_uint p) <= Pos.to_nat (digits2_pos p))%nat.
Proof.
  induction p as [p IH|p IH|]; cbn [Pos.to_little_uint digits2_pos];
    [| |cbn; lia]; rewrite Pos2Nat.inj_succ.
  - pose proof (proj2 (double_length (Pos.to_little_uint p))). lia.
  - pose proof (proj1 (double_length (Pos.to_little_uint p))). lia.
Qed.

Lemma show_Z_length (n : Z) (b : Z) :
  0 <= n < 2 ^ b -> 1 <= b ->
  Z.of_nat (length (String.list_ascii_of_string (show_Z n))) <= b.
Proof.
  intros Hn Hb. unfold show_Z. rewrite uint_length.
  destruct n as [|p|p]; [cbn; lia| |lia].
  cbn [Z.to_N N.to_uint]. unfold Pos.to_uint. rewrite nb_digits_rev.
  pose proof (to_little_uint_length p) as Hlen.
  pose proof (digits2_pos_bounds p) as Hd.
  assert (Zpos (digits2_pos p) <= b).
  { destruct (Z.le_gt_cases (Zpos (digits2_pos p)) b) as [|Hgt]; [assumption|].
    assert (2 ^ b <= 2 ^ (Zpos (digits2_pos p) - 1))
      by (apply Z.pow_le_mono_r; lia).
    lia. }
  lia.
Qed.


(** *** The decimals *)

Lemma digit_ok (q : Z) :
  0 <= q <= 9 -> is_digit (digit q) = true /\ digit_value (digit q) = q.
Proof.
  intros Hq.
  assert (q = 0 \/ q = 1 \/ q = 2 \/ q = 3 \/ q = 4 \/ q = 5 \/ q = 6 \/ q = 7
          \/ q = 8 \/ q = 9) as H by lia.
  repeat (destruct H as [->|H]; [split; reflexivity|]).
  subst q. split; reflexivity.
Qed.

Lemma decimals_quotient (r d : Z) : 0 <= r < d -> 0 <= 10 * r / d <= 9.
Proof.
  intros Hr. split; [apply Z.div_pos; lia|].
  enough (10 * r / d < 10) by lia.
  apply Z.div_lt_upper_bound; lia.
Qed.

Lemma decimals_digits (n : nat) (r d : Z) :
  0 <= r < d ->
  forallb is_digit (String.list_ascii_of_string (decimals n r d)) = true.
Proof.
  revert r. induction n as [|n IH]; intros r Hr; [reflexivity|].
  cbn [decimals String.list_ascii_of_string forallb].
  rewrite (proj1 (digit_ok _ (decimals_quotient r d Hr))).
  apply IH. apply Z.mod_pos_bound. lia.
Qed.

Lemma decimals_length (n : nat) (r d : Z) :
  length (String.list_ascii_of_string (decimals n r d)) = n.
Proof.
  revert r. induction n as [|n IH]; intros r; [reflexivity|].
  cbn [decimals String.list_ascii_of_string length]. rewrite IH. reflexivity.
Qed.

(** Read after the digits of [acc], the [n] decimals of [r / d] give
    [acc * 10^n] plus the integer part of [r * 10^n / d]. *)
Lemma decimals_value (n : nat) (r d acc : Z) :
  0 <= r < d ->
  fold_left (fun acc c => 10 * acc + digit_value c)
            (String.list_ascii_of_string (decimals n r d)) acc
  = acc * 10 ^ Z.of_nat n + r * 10 ^ Z.of_nat n / d.
Proof.
  revert r acc. induction n as [|n IH]; intros r acc Hr.
  - cbn [decimals String.list_ascii_of_string fold_left Z.of_nat].
    rewrite Z.pow_0_r, !Z.mul_1_r, Z.div_small by lia. lia.
  - cbn [decimals String.list_ascii_of_string fold_left].
    rewrite (proj2 (digit_ok _ (decimals_quotient r d Hr))).
    rewrite IH by (apply Z.mod_pos_bound; lia).
    rewrite Nat2Z.inj_succ, Z.pow_succ_r by lia.
    set (p := 10 ^ Z.of_nat n).
    replace (r * (10 * p)) with (10 * r * p) by ring.
    pose proof (Z.div_mod (10 * r) d ltac:(lia)) as E.
    set (q := 10 * r / d) in *. set (m := (10 * r) mod d) in *.
    replace (10 * r * p) with (q * p * d + m * p) by (rewrite E; ring).
    rewrite Z.div_add_l by lia. ring.
Qed.

(** *** Reading a number back *)

Lemma number_char_plain (c : ascii) :
  is_digit c || Ascii.eqb c "." || Ascii.eqb c "-" = true ->
  plain_char c = true /\ is_space c = false /\ Ascii.eqb c "_" = false.
Proof.
  destruct c as [[] [] [] [] [] [] [] []]; intros H; try discriminate H;
    repeat split; reflexivity.
Qed.

Lemma take_sign_digit (c : ascii) (l : list ascii) :
  is_digit c || Ascii.eqb c "." = true -> take_sign (c :: l) = (false, c :: l).
Proof.
  destruct c as [[] [] [] [] [] [] [] []]; intros H; try discriminate H;
    reflexivity.
Qed.

Lemma strip_underscores_plain (l : list ascii) (p : option ascii) :
  forallb (fun c => negb (Ascii.eqb c "_")) l = true ->
  match p with Some a => Ascii.eqb a "_" = false | None => True end ->
  strip_underscores p l = Some l.
Proof.
  revert p. induction l as [|c l IH]; intros p Hl Hp.
  - destruct p as [a|]; [|reflexivity].
    destruct a as [[] [] [] [] [] [] [] []]; try reflexivity. discriminate Hp.
  - cbn [forallb] in Hl. apply andb_true_iff in Hl as [Hc Hl].
    apply negb_true_iff in Hc. cbn [strip_underscores]. rewrite Hc.
    assert (option_map (cons c) (strip_underscores (Some c) l) = Some (c :: l))
      as E by (rewrite (IH (Some c) Hl Hc); reflexivity).
    destruct p as [a|]; [|exact E].
    destruct a as [[] [] [] [] [] [] [] []]; try exact E. discriminate Hp.
Qed.

Lemma drop_spaces_plain (l : list ascii) :
  forallb (fun c => negb (is_space c)) l = true -> drop_spaces l = l.
Proof.
  destruct l as [|c l]; [reflexivity|]. cbn [forallb drop_spaces].
  intros H. apply andb_true_iff in H as [Hc _].
  apply negb_true_iff in Hc. rewrite Hc. reflexivity.
Qed.

Lemma strip_plain (l : list ascii) :
  forallb (fun c => negb (is_space c)) l = true -> strip l = l.
Proof.
  intros H. unfold strip. rewrite (drop_spaces_plain l H).
  rewrite drop_spaces_plain; [apply rev_involutive|].
  apply forallb_forall. intros c Hc. apply in_rev in Hc.
  rewrite forallb_forall in H. apply H, Hc.
Qed.

Lemma take_digits_app (ds r : list ascii) :
  forallb is_digit ds = true ->
  match r with c :: _ => is_digit c = false | [] => True end ->
  take_digits (ds ++ r) = (ds, r).
Proof.
  intros Hds Hr. induction ds as [|c ds IH]; cbn [app].
  - destruct r as [|c r]; [reflexivity|]. cbn [take_digits]. rewrite Hr.
    reflexivity.
  - cbn [forallb] in Hds. apply andb_true_iff in Hds as [Hc Hds].
    cbn [take_digits]. rewrite Hc, (IH Hds). reflexivity.
Qed.

(** A text made of digits, a point and digits is read as the decimal
    number it writes. *)
Lemma parse_decimal_point (s : bool) (ip fp : list ascii) :
  forallb is_digit ip = true -> forallb is_digit fp = true -> fp <> [] ->
  parse_decimal s (ip ++ "."%char :: fp)
  = Some (of_decimal s (digits_value (ip ++ fp)) (0 - Z.of_nat (length fp))).
Proof.
  intros Hip Hfp Hne. unfold parse_decimal.
  rewrite (take_digits_app ip ("."%char :: fp) Hip eq_refl).
  rewrite <- (app_nil_r fp) at 1.
  rewrite (take_digits_app fp [] Hfp I).
  destruct (ip ++ fp) as [|c l] eqn:E.
  - apply app_eq_nil in E as [_ ->]. contradiction.
  - reflexivity.
Qed.

Lemma float_of_number_text (s : bool) (ip fp : string) :
  forallb is_digit (String.list_ascii_of_string ip) = true ->
  forallb is_digit (String.list_ascii_of_string fp) = true ->
  String.list_ascii_of_string fp <> [] ->
  float_of_string ((if s then "-" else "") ++ ip ++ "." ++ fp)
  = Some (of_decimal s
            (digits_value (String.list_ascii_of_string ip ++
                           String.list_ascii_of_string fp))
            (0 - Z.of_nat (length (String.list_ascii_of_string fp)))).
Proof.
  intros Hip Hfp Hne. unfold float_of_string.
  rewrite !list_ascii_of_string_app.
  change (String.list_ascii_of_string ".") with ["."%char]. cbn [app].
  set (body := String.list_ascii_of_string ip ++
               "."%char :: String.list_ascii_of_string fp).
  assert (forallb (fun c => is_digit c || Ascii.eqb c "." || Ascii.eqb c "-")
                  (String.list_ascii_of_string (if s then "-" else "") ++ body)
          = true) as Hchars.
  { unfold body. rewrite !forallb_app. cbn [forallb].
    rewrite !forallb_app || idtac.
    assert (forall l, forallb is_digit l = true ->
                      forallb (fun c => is_digit c || Ascii.eqb c "."
                                        || Ascii.eqb c "-") l = true) as Hd.
    { intros l Hl. apply forallb_forall. intros c Hc.
      rewrite forallb_forall in Hl. rewrite (Hl c Hc). reflexivity. }
    rewrite (Hd _ Hip), (Hd _ Hfp). destruct s; reflexivity. }
  rewrite strip_underscores_plain; [| |exact I].
  2:{ apply forallb_forall. intros c Hc. rewrite forallb_forall in Hchars.
      rewrite (proj2 (proj2 (number_char_plain c (Hchars c Hc)))). reflexivity. }
  rewrite strip_plain.
  2:{ apply forallb_forall. intros c Hc. rewrite forallb_forall in Hchars.
      rewrite (proj1 (proj2 (number_char_plain c (Hchars c Hc)))). reflexivity. }
  assert (take_sign (String.list_ascii_of_string (if s then "-" else "") ++ body)
          = (s, body)) as ->.
  { destruct s; [reflexivity|]. cbn [String.list_ascii_of_string app].
    unfold body. destruct (String.list_ascii_of_string ip) as [|c l] eqn:E.
    - reflexivity.
    - cbn [forallb] in Hip. apply andb_true_iff in Hip as [Hc _].
      cbn [app]. apply take_sign_digit. rewrite Hc. reflexivity. }
  unfold body. rewrite (parse_decimal_point s _ _ Hip Hfp Hne). reflexivity.
Qed.

(** *** The exact rendering *)

Lemma valid_finite_bounds (s : bool) (m : positive) (e : Z) :
  valid (S754_finite s m e) ->
  Zpos m < 2 ^ 53 /\ -1074 <= e <= 971.
Proof.
  unfold valid, valid_binary, bounded, canonical_mantissa, fexp, emin, prec, emax.
  intros H. apply andb_true_iff in H as [Hc Hb].
  apply Z.eqb_eq in Hc. apply Z.leb_le in Hb.
  pose proof (digits2_pos_bounds m) as Hm.
  split; [|lia].
  apply Z.lt_le_trans with (1 := proj2 Hm).
  apply Z.pow_le_mono_r; lia.
Qed.

(** [float] reads the exact text of a float back as that float. *)
Lemma float_of_show_exact (x : float) :
  valid x -> float_of_string (show_exact x) = Some x.
Proof.
  destruct x as [s|s| |s m e]; intros Hv.
  - destruct s; reflexivity.
  - destruct s; reflexivity.
  - reflexivity.
  - cbn [show_exact]. destruct e as [|e|k].
    + (* an integer *)
      change ".0"%string with ("." ++ "0")%string.
      rewrite float_of_number_text;
        [|apply show_Z_digits|reflexivity|discriminate].
      f_equal. unfold digits_value. rewrite fold_left_app.
      fold (digits_value (String.list_ascii_of_string (show_Z (Z.pos m * 2 ^ 0)))).
      rewrite show_Z_value by lia.
      cbn [String.list_ascii_of_string fold_left length].
      change (digit_value "0") with 0.
      change (0 - Z.of_nat 1) with (Zneg 1).
      replace (10 * (Z.pos m * 2 ^ 0) + 0) with (Zpos (10 * m)) by lia.
      cbn [of_decimal]. apply SFdiv_exact; [exact Hv|].
      change (Z.pos (10 ^ 1)) with 10.
      change (Z.max 0 (- 0)) with 0. change (Z.max 0 0) with 0.
      rewrite Z.pow_0_r. lia.
    + change ".0"%string with ("." ++ "0")%string.
      rewrite float_of_number_text;
        [|apply show_Z_digits|reflexivity|discriminate].
      f_equal. unfold digits_value. rewrite fold_left_app.
      fold (digits_value
              (String.list_ascii_of_string (show_Z (Z.pos m * 2 ^ Z.pos e)))).
      assert (0 < 2 ^ Z.pos e) as Hp by (apply Z.pow_pos_nonneg; lia).
      rewrite show_Z_value by lia.
      cbn [String.list_ascii_of_string fold_left length].
      change (digit_value "0") with 0.
      change (0 - Z.of_nat 1) with (Zneg 1).
      rewrite <- Pos2Z.inj_pow.
      replace (10 * (Z.pos m * Z.pos (2 ^ e)) + 0)
        with (Zpos (10 * (m * 2 ^ e))) by lia.
      cbn [of_decimal]. apply SFdiv_exact; [exact Hv|].
      change (Z.pos (10 ^ 1)) with 10.
      rewrite Z.max_l, Z.max_r by lia.
      rewrite Z.pow_0_r, <- Pos2Z.inj_pow. lia.
    + (* a number with [k] decimals *)
      set (d := 2 ^ Z.pos k).
      assert (0 < d) as Hd by (apply Z.pow_pos_nonneg; lia).
      pose proof (Z.mod_pos_bound (Z.pos m) d Hd) as Hr.
      rewrite float_of_number_text;
        [|apply show_Z_digits|apply decimals_digits; exact Hr|].
      2:{ intros E. apply (f_equal (@length ascii)) in E.
          rewrite decimals_length in E. cbn in E. lia. }
      f_equal. unfold digits_value. rewrite fold_left_app.
      fold (digits_value (String.list_ascii_of_string (show_Z (Z.pos m / d)))).
      rewrite show_Z_value by (apply Z.div_pos; lia).
      rewrite decimals_value by exact Hr.
      rewrite decimals_length, positive_nat_Z.
      replace (0 - Z.pos k) with (Zneg k) by lia.
      assert (10 ^ Z.pos k = 5 ^ Z.pos k * d) as E10
        by (unfold d; rewrite <- Z.pow_mul_l; reflexivity).
      rewrite E10.
      replace ((Z.pos m) mod d * (5 ^ Z.pos k * d))
        with ((Z.pos m) mod d * 5 ^ Z.pos k * d) by ring.
      rewrite Z.div_mul by lia.
      replace (Z.pos m / d * (5 ^ Z.pos k * d) + (Z.pos m) mod d * 5 ^ Z.pos k)
        with ((d * (Z.pos m / d) + (Z.pos m) mod d) * 5 ^ Z.pos k) by ring.
      rewrite <- Z.div_mod by lia.
      rewrite <- Pos2Z.inj_pow, <- Pos2Z.inj_mul.
      cbn [of_decimal]. apply SFdiv_exact; [exact Hv|].
      rewrite Z.max_r, Z.max_l by lia. rewrite Z.pow_0_r.
      change (- Z.neg k) with (Z.pos k).
      rewrite !Pos2Z.inj_mul, !Pos2Z.inj_pow. fold d.
      change (Z.pos 10) with 10. rewrite E10.
      change (Z.pos 5) with 5. ring.
Qed.

Lemma reads_back_exact (x : float) :
  valid x -> reads_back exact_rendering x = true.
Proof.
  intros Hv. unfold reads_back. cbn [show_float exact_rendering].
  rewrite (float_of_show_exact x Hv). apply bool_decide_eq_true_2. reflexivity.
Qed.

Lemma digits_plain (l : list ascii) :
  forallb is_digit l = true -> forallb plain_char l = true.
Proof.
  intros H. apply forallb_forall. intros c Hc. rewrite forallb_forall in H.
  apply (number_char_plain c). rewrite (H c Hc). reflexivity.
Qed.

Lemma plain_field_show_Z (n b : Z) :
  0 <= n < 2 ^ b -> 1 <= b <= Csv.field_limit ->
  plain_field (show_Z n) = true.
Proof.
  intros Hn Hb. unfold plain_field.
  rewrite (digits_plain _ (show_Z_digits n)).
  pose proof (show_Z_length n b Hn ltac:(lia)).
  apply Z.leb_le. lia.
Qed.

(** The exact text of a float is a plain cell: digits, a point and a
    sign, far fewer than the reader's limit. *)
Lemma plain_field_show_exact (x : float) :
  valid x -> plain_field (show_exact x) = true.
Proof.
  destruct x as [s|s| |s m e]; intros Hv;
    [destruct s; reflexivity|destruct s; reflexivity|reflexivity|].
  destruct (valid_finite_bounds s m e Hv) as [Hm He].
  unfold plain_field. cbn [show_exact].
  assert (forall l, forallb plain_char
            (String.list_ascii_of_string (if s then "-" else "") ++ l)
          = forallb plain_char l) as Hsign by (intros l; destruct s; reflexivity).
  assert (forall l, Z.of_nat (length
            (String.list_ascii_of_string (if s then "-" else "") ++ l))
          <= 1 + Z.of_nat (length l)) as Hsignlen
      by (intros l; destruct s; cbn [String.list_ascii_of_string app length]; lia).
  destruct e as [|e|k].
  - rewrite !list_ascii_of_string_app, Hsign, forallb_app.
    rewrite (digits_plain _ (show_Z_digits _)). cbn [andb].
    apply andb_true_iff. split; [reflexivity|]. apply Z.leb_le.
    etransitivity; [apply Hsignlen|]. rewrite length_app.
    pose proof (show_Z_length (Z.pos m * 2 ^ 0) 53 ltac:(lia) ltac:(lia)).
    cbn [String.list_ascii_of_string length]. unfold Csv.field_limit. lia.
  - rewrite !list_ascii_of_string_app, Hsign, forallb_app.
    rewrite (digits_plain _ (show_Z_digits _)). cbn [andb].
    apply andb_true_iff. split; [reflexivity|]. apply Z.leb_le.
    etransitivity; [apply Hsignlen|]. rewrite length_app.
    assert (0 <= Z.pos m * 2 ^ Z.pos e < 2 ^ (53 + Z.pos e)) as Hn.
    { assert (0 < 2 ^ Z.pos e) by (apply Z.pow_pos_nonneg; lia).
      rewrite Z.pow_add_r by lia. nia. }
    pose proof (show_Z_length _ _ Hn ltac:(lia)).
    cbn [String.list_ascii_of_string length]. unfold Csv.field_limit. lia.
  - set (d := 2 ^ Z.pos k).
    assert (0 < d) as Hd by (apply Z.pow_pos_nonneg; lia).
    pose proof (Z.mod_pos_bound (Z.pos m) d Hd) as Hr.
    rewrite !list_ascii_of_string_app, Hsign, !forallb_app.
    rewrite (digits_plain _ (show_Z_digits _)).
    rewrite (digits_plain _ (decimals_digits _ _ _ Hr)).
    apply andb_true_iff. split; [reflexivity|]. apply Z.leb_le.
    etransitivity; [apply Hsignlen|]. rewrite !length_app, decimals_length.
    assert (0 <= Z.pos m / d < 2 ^ 53) as Hn.
    { split; [apply Z.div_pos; lia|].
      apply Z.le_lt_trans with (2 := Hm).
      apply Z.div_le_upper_bound; [lia|]. nia. }
    pose proof (show_Z_length _ _ Hn ltac:(lia)).
    cbn [String.list_ascii_of_string length]. unfold Csv.field_limit. lia.
Qed.

Lemma plain_rows_exact (values : list float) (i : nat) :
  Forall valid values ->
  Z.of_nat i + Z.of_nat (length values) <= 2 ^ 63 ->
  plain_rows exact_rendering i values = true.
Proof.
  intros Hv. revert i. induction Hv as [|v values Hv _ IH]; intros i Hi;
    [reflexivity|].
  cbn [plain_rows length] in *. rewrite Nat2Z.inj_succ in Hi.
  rewrite show_nat_show_Z.
  rewrite (plain_field_show_Z (Z.of_nat i) 63)
    by (unfold Csv.field_limit; lia).
  cbn [show_float exact_rendering].
  rewrite (plain_field_show_exact v Hv), (reads_back_exact v Hv).
  apply IH. lia.
Qed.

(** The exact rendering is plain on every series of binary64 values
    that a list can hold. *)
Lemma plain_rendering_exact (values : list float) :
  Forall valid values ->
  Z.of_nat (length values) <= 2 ^ 63 ->
  plain_rendering exact_rendering values = true.
Proof.
  intros Hv Hlen. unfold plain_rendering.
  rewrite (plain_rows_exact values 0 Hv) by lia. reflexivity.
Qed.

End ExactText.

(** Decoding the download of a record gives back its series, as long as
    the cells are written plainly and each value is written so that
    [float] reads it back. *)
Lemma decode_encode_plain (rnd : Download.rendering) (row : results_row) :
  row_anomaly_indices row = [] ->
  (10 <= length (original_data row))%nat ->
  Download.plain_rendering rnd (original_data row) = true ->
  decode (Download.encode rnd row) = Ok (original_data row).
Proof.
  intros Hflags Hlen Hplain. unfold Download.plain_rendering in Hplain.
  apply andb_true_iff in Hplain as [Hplain Hrows].
  apply andb_true_iff in Hplain as [Hplain Hzero].
  apply andb_true_iff in Hplain as [Heol Hfalse].
  assert (String.list_ascii_of_string (Download.line_terminator rnd) = [Csv.LF] \/
          String.list_ascii_of_string (Download.line_terminator rnd)
          = [Csv.CR; Csv.LF]) as Heol'.
  { apply orb_true_iff in Heol as [H|H]; apply String.eqb_eq in H; rewrite H;
      [left|right]; reflexivity. }
  unfold decode.
  rewrite (numeric_values_encode rnd row Hflags Heol' Hfalse Hzero Hrows).
  cbn [mbind result_bind]. unfold validate.
  assert ((length (original_data row) <? 10)%nat = false) as ->
    by (apply Nat.ltb_ge; lia).
  reflexivity.
Qed.

(** C7.  For a stored record without anomaly flags, decoding the CSV
    text of its download gives back the stored series, sample for
    sample, in order and in magnitude.  The record holds the ten samples
    or more of a decoded series, binary64 values, and no more of them
    than a list can hold.  The download writes each number exactly;
    the same holds of any other rendering that writes plain cells and
    values that [float] reads back. *)
Theorem decode_encode_roundtrip (row : results_row) :
  row_anomaly_indices row = [] ->
  (10 <= length (original_data row))%nat ->
  Z.of_nat (length (original_data row)) <= 2 ^ 63 ->
  Forall valid (original_data row) ->
  decode (Download.encode Download.exact_rendering row) = Ok (original_data row) /\
  forall rnd,
    Download.plain_rendering rnd (original_data row) = true ->
    decode (Download.encode rnd row) = Ok (original_data row).
Proof.
  intros Hflags Hlen Hmax Hvalid. split.
  - apply decode_encode_plain; [assumption|assumption|].
    apply plain_rendering_exact; assumption.
  - intros rnd Hplain. apply decode_encode_plain; assumption.
Qed.

Lemma decode_encode_roundtrip_witness :
  row_anomaly_indices Samples.unflagged_record = [] /\
  (10 <= length (original_data Samples.unflagged_record))%nat /\
  Z.of_nat (length (original_data Samples.unflagged_record)) <= 2 ^ 63 /\
  Forall valid (original_data Samples.unflagged_record) /\
  decode (Download.encode Download.exact_rendering Samples.unflagged_record)
  = Ok (original_data Samples.unflagged_record).
Proof.
  assert (Forall valid (original_data Samples.unflagged_record)) as Hvalid.
  { cbn [original_data Samples.unflagged_record].
    repeat (constructor; [vm_compute; reflexivity|]). constructor. }
  split; [reflexivity|]. split; [vm_compute; lia|].
  split; [vm_compute; discriminate|]. split; [exact Hvalid|].
  refine (proj1 (decode_encode_roundtrip Samples.unflagged_record _ _ _ Hvalid)).
  - reflexivity.
  - vm_compute; lia.
  - vm_compute; discriminate.
Defined.

(** * Further properties of the excerpts *)

(** ** What decoding returns *)

Section DecodedSeries.

Lemma for_rows_inv (rows : list (list string)) (acc values : list float) :
  for_rows rows acc = Ok values ->
  exists new,
    values = acc ++ new /\
    Forall2 (fun row v => PyFloat.float_of_string (nth 1 row EmptyString) = Some v)
            (filter (fun row => (1 < length row)%nat) rows) new.
Proof.
  revert acc. induction rows as [|row rows IH]; intros acc H.
  - cbn in H. injection H as <-. exists []. rewrite app_nil_r.
    split; [reflexivity|constructor].
  - cbn [for_rows] in H. unfold append_value in H. rewrite filter_cons.
    destruct (1 <? length row)%nat eqn:Hlen.
    + apply Nat.ltb_lt in Hlen.
      destruct (decide (1 < length row)%nat) as [_|Hn]; [|lia].
      destruct (PyFloat.float_of_string (nth 1 row EmptyString)) as [v|] eqn:Hv;
        [|discriminate].
      cbn [mbind result_bind] in H.
      destruct (IH _ H) as (new & -> & Hnew).
      exists (v :: new). rewrite <- app_assoc. split; [reflexivity|].
      constructor; assumption.
    + apply Nat.ltb_ge in Hlen.
      destruct (decide (1 < length row)%nat) as [Hn|_]; [lia|].
      cbn [mbind result_bind] in H. apply IH. exact H.
Qed.

Lemma for_rows_same_column (rows1 rows2 : list (list string)) (acc : list float) :
  Forall2 (fun r1 r2 => ((1 <? length r1)%nat = (1 <? length r2)%nat) /\
                        nth 1 r1 EmptyString = nth 1 r2 EmptyString)
          rows1 rows2 ->
  for_rows rows1 acc = for_rows rows2 acc.
Proof.
  intros H. revert acc.
  induction H as [|r1 r2 rows1 rows2 [Hlen Hcol] _ IH]; intros acc;
    [reflexivity|].
  cbn [for_rows]. unfold append_value. rewrite Hlen, Hcol.
  destruct (1 <? length r2)%nat; [|apply IH].
  destruct (PyFloat.float_of_string (nth 1 r2 EmptyString)); [apply IH|reflexivity].
Qed.

Lemma validate_inv (values values' : list float) :
  validate values = Ok values' -> values' = values /\ (10 <= length values)%nat.
Proof.
  unfold validate. destruct (length values <? 10)%nat eqn:H; [discriminate|].
  apply Nat.ltb_ge in H. intros [= <-]. auto.
Qed.

Lemma decode_inv (text : string) (values : list float) :
  decode text = Ok values ->
  exists rows, Csv.read text = Ok rows /\ for_rows (tail rows) [] = Ok values /\
               (10 <= length values)%nat.
Proof.
  unfold decode, numeric_values. intros H.
  destruct (Csv.read text) as [rows|e]; [|discriminate].
  cbn [mbind result_bind] in H.
  destruct (for_rows (tail rows) []) as [vs|e] eqn:Hvs; [|discriminate].
  cbn [mbind result_bind] in H. apply validate_inv in H as [-> Hlen].
  exists rows. auto.
Qed.

End DecodedSeries.

(** X1.  A decoded series has at least ten samples, one for each line of
    the file after the first that has two columns or more, in the order
    of the lines, each being the float of the line's second column. *)
Theorem decode_returns_second_column (text : string) (values : list float) :
  decode text = Ok values ->
  (10 <= length values)%nat /\
  exists rows,
    Csv.read text = Ok rows /\
    Forall2 (fun row v => PyFloat.float_of_string (nth 1 row EmptyString) = Some v)
            (filter (fun row => (1 < length row)%nat) (tail rows)) values.
Proof.
  intros H. apply decode_inv in H as (rows & Hread & Hfor & Hlen).
  split; [exact Hlen|]. exists rows. split; [exact Hread|].
  apply for_rows_inv in Hfor as (new & -> & Hnew). exact Hnew.
Qed.

Lemma decode_returns_second_column_witness :
  exists values rows,
    decode Samples.ten_samples = Ok values /\
    (10 <= length values)%nat /\
    Csv.read Samples.ten_samples = Ok rows /\
    Forall2 (fun row v => PyFloat.float_of_string (nth 1 row EmptyString) = Some v)
            (filter (fun row => (1 < length row)%nat) (tail rows)) values.
Proof.
  destruct (decode Samples.ten_samples) as [values|] eqn:Hdec;
    [|vm_compute in Hdec; discriminate].
  destruct (decode_returns_second_column Samples.ten_samples values Hdec)
    as (Hlen & rows & Hread & Hcol).
  exists values, rows. auto.
Defined.

(** X2.  Decoding reads nothing but the second column of the lines after
    the first: two files whose data lines agree on having a second
    column and on its text decode alike, whatever their header lines and
    their other columns hold. *)
Theorem decode_reads_second_column_only
        (text1 text2 : string) (rows1 rows2 : list (list string)) :
  Csv.read text1 = Ok rows1 ->
  Csv.read text2 = Ok rows2 ->
  Forall2 (fun r1 r2 => ((1 <? length r1)%nat = (1 <? length r2)%nat) /\
                        nth 1 r1 EmptyString = nth 1 r2 EmptyString)
          (tail rows1) (tail rows2) ->
  decode text1 = decode text2.
Proof.
  intros H1 H2 Hcols. unfold decode, numeric_values. rewrite H1, H2.
  cbn [mbind result_bind]. rewrite (for_rows_same_column _ _ _ Hcols).
  reflexivity.
Qed.

Lemma decode_reads_second_column_only_witness :
  let text1 := Samples.csv_text ["1,10.5,x"; "2,11"] in
  let text2 := Samples.csv_text ["2024-01-01,10.5"; "later,11,y,z"] in
  let rows1 := [["timestamp"; "value"]; ["1"; "10.5"; "x"]; ["2"; "11"]]%string in
  let rows2 := [["timestamp"; "value"]; ["2024-01-01"; "10.5"];
                ["later"; "11"; "y"; "z"]]%string in
  Csv.read text1 = Ok rows1 /\ Csv.read text2 = Ok rows2 /\
  decode text1 = decode text2.
Proof.
  intros text1 text2 rows1 rows2.
  assert (Csv.read text1 = Ok rows1) as H1 by (vm_compute; reflexivity).
  assert (Csv.read text2 = Ok rows2) as H2 by (vm_compute; reflexivity).
  split; [exact H1|]. split; [exact H2|].
  apply (decode_reads_second_column_only text1 text2 rows1 rows2 H1 H2).
  repeat constructor.
Defined.

(** X3.  The first line is always taken for a header: a file of ten
    lines or fewer is never decoded, even when each of its lines holds a
    number; it is refused with the 400 response, or with the
    [ValueError] of a line that is not numeric. *)
Theorem decode_refuses_ten_lines (text : string) (rows : list (list string)) :
  Csv.read text = Ok rows ->
  (length rows <= 10)%nat ->
  decode text = Raise need_at_least_10 \/ decode text = Raise ValueError.
Proof.
  intros Hread Hlen. unfold decode, numeric_values. rewrite Hread.
  cbn [mbind result_bind].
  destruct (Forall_or_Exists_rows (tail rows)) as [Hall|Hex].
  - left. rewrite (for_rows_all_numeric _ _ Hall). cbn [mbind result_bind app].
    unfold validate.
    assert (length (Spec.skipping_values (tail rows)) <= length (tail rows))%nat
      as Hle.
    { clear. induction (tail rows) as [|row l IH]; [reflexivity|].
      cbn [Spec.skipping_values].
      destruct (if (1 <? length row)%nat
                then PyFloat.float_of_string (nth 1 row EmptyString) else None);
        cbn [length]; lia. }
    assert (length (tail rows) <= 9)%nat as Htail
      by (destruct rows; cbn [tail length] in *; lia).
    assert ((length (Spec.skipping_values (tail rows)) <? 10)%nat = true) as ->
      by (apply Nat.ltb_lt; lia).
    reflexivity.
  - right. rewrite (for_rows_not_numeric _ _ Hex). reflexivity.
Qed.

Lemma decode_refuses_ten_lines_witness :
  let text := String.concat ""
                (map (fun r => (r ++ Samples.nl)%string)
                     ["1,10.5"; "2,11.3"; "3,10.8"; "4,10.1"; "5,9.9";
                      "6,10.0"; "7,15.5"; "8,10.2"; "9,10.4"; "10,10.3"]) in
  (exists rows, Csv.read text = Ok rows /\ length rows = 10%nat) /\
  decode text = Raise need_at_least_10.
Proof.
  intros text.
  destruct (Csv.read text) as [rows|] eqn:Hread;
    [|vm_compute in Hread; discriminate].
  assert (length rows = 10%nat) as Hlen
    by (vm_compute in Hread; injection Hread as <-; reflexivity).
  split; [exists rows; auto|].
  destruct (decode_refuses_ten_lines text rows Hread) as [H|H].
  - lia.
  - exact H.
  - vm_compute in H. discriminate.
Defined.

(** ** More on the extraction loop *)

Section ExtractionLaws.

Variables threshold norm : float.

Lemma flagged_from_app (i : nat) (ls1 ls2 : list line_bytes) :
  flagged_from threshold norm i (ls1 ++ ls2) =
  flagged_from threshold norm i ls1 ++
  flagged_from threshold norm (i + length ls1) ls2.
Proof.
  revert i. induction ls1 as [|lb ls1 IH]; intros i; cbn [app flagged_from length].
  - rewrite Nat.add_0_r. reflexivity.
  - rewrite IH. replace (S i + length ls1)%nat with (i + S (length ls1))%nat by lia.
    destruct (line_confidence norm lb) as [c|]; [|reflexivity].
    destruct (gtb c threshold); reflexivity.
Qed.

Lemma flagged_from_shift (k i : nat) (ls : list line_bytes) :
  flagged_from threshold norm (k + i) ls =
  prod_map (Nat.add k) id <$> flagged_from threshold norm i ls.
Proof.
  revert i. induction ls as [|lb ls IH]; intros i; cbn [flagged_from]; [reflexivity|].
  replace (S (k + i)) with (k + S i)%nat by lia. rewrite IH.
  destruct (line_confidence norm lb) as [c|]; [|reflexivity].
  destruct (gtb c threshold); reflexivity.
Qed.

Lemma line_confidence_bounds (lb : line_bytes) (c : float) :
  line_confidence norm lb = Some c -> leb zero c = true /\ leb c one = true.
Proof.
  unfold line_confidence. intros H.
  destruct lb as [line|]; [|discriminate]. cbn in H.
  destruct (get_D line) as [d|]; [|discriminate]. cbn in H.
  destruct (truediv d norm) as [qt|]; [|discriminate]. cbn in H.
  injection H as <-. apply normalize_bounds.
Qed.

End ExtractionLaws.

(** X4.  Extraction over a log made of two parts is the extraction of the
    first part followed by the extraction of the second, whose indices
    are shifted by the length of the first. *)
Theorem extract_app (threshold norm : float) (ls1 ls2 : list line_bytes) :
  extract threshold norm (ls1 ++ ls2) =
  Flags (anomaly_indices (extract threshold norm ls1) ++
         (Nat.add (length ls1) <$> anomaly_indices (extract threshold norm ls2)))
        (confidence_scores (extract threshold norm ls1) ++
         confidence_scores (extract threshold norm ls2)).
Proof.
  rewrite !extract_flagged_from. cbn [anomaly_indices confidence_scores].
  rewrite flagged_from_app. cbn [Nat.add].
  replace (length ls1) with (length ls1 + 0)%nat at 1 2 by lia.
  rewrite flagged_from_shift, !fmap_app, <- !list_fmap_compose.
  replace (length ls1 + 0)%nat with (length ls1) by lia.
  f_equal; f_equal; apply list_fmap_ext; intros _ [j c] _; reflexivity.
Qed.

(** X5.  Every confidence score reported by an extraction run is strictly
    greater than the threshold and lies between 0 and 1. *)
Theorem reported_scores_in_range (threshold norm : float) (ls : list line_bytes) :
  Forall (fun c => gtb c threshold = true /\ leb zero c = true /\ leb c one = true)
         (confidence_scores (extract threshold norm ls)).
Proof.
  rewrite extract_flagged_from. cbn [confidence_scores].
  apply Forall_forall. intros c Hin.
  apply list_elem_of_fmap in Hin as ([j c'] & -> & Hin).
  apply elem_of_flagged_from in Hin as (lb & _ & _ & Hc & Hg).
  cbn. split; [exact Hg|]. apply (line_confidence_bounds norm lb). exact Hc.
Qed.

Section Unflagged.

Lemma dict_get_absent (members : list (string * json)) (key : string) (default : json) :
  Forall (fun kv => kv.1 <> key) members ->
  dict_get members key default = default.
Proof.
  induction 1 as [|[k v] members Hk _ IH]; [reflexivity|].
  cbn [dict_get]. cbn in Hk.
  destruct (String.eqb k key) eqn:E; [|exact IH].
  apply String.eqb_eq in E. contradiction.
Qed.

(** Without a divergence the confidence is [0.0], when there is one. *)
Lemma line_confidence_default (norm : float) (members : list (string * json))
      (c : float) :
  Forall (fun kv => kv.1 <> "D"%string) members ->
  line_confidence norm (Some (JObject members)) = Some c ->
  c = zero.
Proof.
  intros Habs. unfold line_confidence. cbn.
  rewrite (dict_get_absent _ _ _ Habs). unfold truediv.
  destruct (is_zero norm); [discriminate|]. cbn.
  intros [= <-].
  destruct norm as [s|s| |s m e]; try reflexivity; destruct s; reflexivity.
Qed.

Lemma not_flagged_when_not_above (threshold norm : float) (ls : list line_bytes)
      (i : nat) (lb : line_bytes) :
  ls !! i = Some lb ->
  (forall c, line_confidence norm lb = Some c -> gtb c threshold = false) ->
  i ∉ anomaly_indices (extract threshold norm ls).
Proof.
  intros Hl Hno Hin. rewrite extract_flagged_from in Hin. cbn in Hin.
  apply list_elem_of_fmap in Hin as ([j c] & -> & Hin).
  apply elem_of_flagged_from in Hin as (lb' & _ & Hl' & Hc & Hg).
  cbn in *. rewrite Nat.sub_0_r in Hl'.
  assert (lb' = lb) as -> by congruence.
  rewrite (Hno c Hc) in Hg. discriminate.
Qed.

End Unflagged.

(** X6.  A line that cannot be used is never flagged: a line that is not
    JSON, a JSON value that is not an object, an object whose ["D"] is
    null, a string, an array or an object, whatever the threshold; and an
    object without a ["D"] key, whose confidence is the default 0.0, as
    soon as the threshold is not negative. *)
Theorem unusable_line_not_flagged
        (threshold norm : float) (ls : list line_bytes) (i : nat) (lb : line_bytes) :
  ls !! i = Some lb ->
  lb = None \/
  (exists line, lb = Some line /\ forall members, line <> JObject members) \/
  (exists members d,
      lb = Some (JObject members) /\ dict_get members "D" (JFloat zero) = d /\
      forall x n b, d <> JFloat x /\ d <> JInt n /\ d <> JBool b) \/
  (exists members,
      lb = Some (JObject members) /\
      Forall (fun kv => kv.1 <> "D"%string) members /\
      leb zero threshold = true) ->
  i ∉ anomaly_indices (extract threshold norm ls).
Proof.
  intros Hl Hcase. apply (not_flagged_when_not_above _ _ _ _ _ Hl).
  intros c Hc.
  destruct Hcase as [->|[(line & -> & Hno)|[(members & d & -> & Hd & Hty)|
                                            (members & -> & Habs & Hthr)]]].
  - discriminate.
  - unfold line_confidence in Hc. cbn in Hc.
    destruct line; try discriminate. exfalso. eapply Hno. reflexivity.
  - unfold line_confidence in Hc. cbn in Hc. rewrite Hd in Hc.
    unfold truediv in Hc. destruct (is_zero norm); [discriminate|].
    destruct d as [| b | n | x | | |]; try discriminate.
    + destruct (Hty zero 0 b) as (_ & _ & H). congruence.
    + destruct (Hty zero n true) as (_ & H & _). congruence.
    + destruct (Hty x 0 true) as (H & _ & _). congruence.
  - rewrite (line_confidence_default _ _ _ Habs Hc).
    unfold gtb, leb, SFltb, SFleb in *.
    destruct (SFcompare zero threshold) as [[]|] eqn:E; try discriminate.
    + rewrite (SFcompare_antisym zero threshold), E. reflexivity.
    + rewrite (SFcompare_antisym zero threshold), E. reflexivity.
Qed.

Lemma unusable_line_not_flagged_witness :
  let ls := [Some (JObject [("t"%string, JInt 0)]); None;
             Some (JObject [("D"%string, JString "high")]); Some (JArray [])] in
  ls !! 0%nat = Some (Some (JObject [("t"%string, JInt 0)])) /\
  0%nat ∉ anomaly_indices (extract default_threshold one ls).
Proof.
  intros ls. split; [reflexivity|].
  apply (unusable_line_not_flagged default_threshold one ls 0%nat
           (Some (JObject [("t"%string, JInt 0)]))).
  - reflexivity.
  - right. right. right. exists [("t"%string, JInt 0)].
    split; [reflexivity|]. split; [|vm_compute; reflexivity].
    apply Forall_cons_2; [discriminate|apply Forall_nil_2].
Defined.

(** ** Lowering the threshold *)

Section Thresholds.

(** [x <= y] and [y < z] give [x < z]. *)
Lemma leb_ltb_trans (x y z : float) :
  leb x y = true -> ltb y z = true -> ltb x z = true.
Proof.
  unfold leb, ltb, SFleb, SFltb.
  destruct x as [sx|sx| |sx mx ex], y as [sy|sy| |sy my ey],
           z as [sz|sz| |sz mz ez];
    cbn [SFcompare]; try discriminate; try reflexivity;
    try (destruct sx; discriminate || reflexivity);
    try (destruct sy; discriminate || reflexivity);
    try (destruct sz; discriminate || reflexivity);
    try (destruct sx, sy; discriminate || reflexivity);
    try (destruct sx, sz; discriminate || reflexivity);
    try (destruct sy, sz; discriminate || reflexivity);
    try (destruct sx, sy, sz; discriminate || reflexivity).
  all: destruct sx, sy, sz; try discriminate; try reflexivity.
  all: change (Pos.compare_cont Eq ?a ?b) with (Pos.compare a b).
  all: destruct (Z.compare_spec ex ey), (Z.compare_spec ey ez),
                (Z.compare_spec ex ez); try discriminate; try lia; try reflexivity.
  all: subst.
  all: destruct (Pos.compare_spec mx my), (Pos.compare_spec my mz),
                (Pos.compare_spec mx mz);
    cbn; try discriminate; try lia; try reflexivity.
Qed.

Lemma flagged_from_sublist (t1 t2 norm : float) (i : nat) (ls : list line_bytes) :
  leb t1 t2 = true ->
  flagged_from t2 norm i ls `sublist_of` flagged_from t1 norm i ls.
Proof.
  intros Hle. revert i. induction ls as [|lb ls IH]; intros i; cbn [flagged_from].
  - constructor.
  - destruct (line_confidence norm lb) as [c|]; [|apply IH].
    destruct (gtb c t2) eqn:H2.
    + assert (gtb c t1 = true) as -> by (exact (leb_ltb_trans _ _ _ Hle H2)).
      apply sublist_skip, IH.
    + destruct (gtb c t1); [apply sublist_cons|]; apply IH.
Qed.

End Thresholds.

(** X7.  Lowering the threshold only adds flags: when [t1 <= t2], the
    indices and the scores flagged at [t2] are flagged at [t1] too, in
    the same order. *)
Theorem lower_threshold_flags_more (t1 t2 norm : float) (ls : list line_bytes) :
  leb t1 t2 = true ->
  anomaly_indices (extract t2 norm ls) `sublist_of`
    anomaly_indices (extract t1 norm ls) /\
  confidence_scores (extract t2 norm ls) `sublist_of`
    confidence_scores (extract t1 norm ls).
Proof.
  intros Hle. rewrite !extract_flagged_from. cbn.
  split; apply fmap_sublist, flagged_from_sublist; exact Hle.
Qed.

Lemma lower_threshold_flags_more_witness :
  let ls := [Samples.tick 0 Samples.low; Samples.tick 1 Samples.high;
             Samples.tick 2 Samples.just_above_threshold] in
  leb Samples.low default_threshold = true /\
  anomaly_indices (extract default_threshold one ls) = [1%nat; 2%nat] /\
  anomaly_indices (extract Samples.low one ls) = [1%nat; 2%nat] /\
  anomaly_indices (extract default_threshold one ls) `sublist_of`
    anomaly_indices (extract Samples.low one ls).
Proof.
  intros ls.
  split; [vm_compute; reflexivity|]. split; [vm_compute; reflexivity|].
  split; [vm_compute; reflexivity|].
  apply (lower_threshold_flags_more Samples.low default_threshold one ls).
  vm_compute; reflexivity.
Defined.

(** X8.  The tier dictionary knows the tiers free, pro and enterprise and
    raises a [KeyError] for any other; whatever the tier it knows, its
    threshold is at most the fixed 0.3, so every anomaly flagged at 0.3
    is flagged for the tier. *)
Theorem tier_threshold_flags_more
        (user_tier : string) (norm : float) (ls : list line_bytes) :
  match Customization.threshold_of_tier user_tier with
  | Some threshold =>
      (user_tier = "free" \/ user_tier = "pro" \/ user_tier = "enterprise")%string /\
      leb threshold default_threshold = true /\
      anomaly_indices (extract default_threshold norm ls) `sublist_of`
        anomaly_indices (extract threshold norm ls)
  | None =>
      (user_tier <> "free" /\ user_tier <> "pro" /\ user_tier <> "enterprise")%string
  end.
Proof.
  unfold Customization.threshold_of_tier, Customization.tier_thresholds.
  assert (forall threshold,
             leb threshold default_threshold = true ->
             anomaly_indices (extract default_threshold norm ls) `sublist_of`
               anomaly_indices (extract threshold norm ls)) as Hsub.
  { intros threshold Hle. rewrite !extract_flagged_from. cbn.
    apply fmap_sublist, flagged_from_sublist. exact Hle. }
  destruct (decide (user_tier = "free"%string)) as [->|Hf].
  { rewrite lookup_insert_eq. split; [auto|]. split; [reflexivity|].
    apply Hsub. reflexivity. }
  rewrite lookup_insert_ne by congruence.
  destruct (decide (user_tier = "pro"%string)) as [->|Hp].
  { rewrite lookup_insert_eq. split; [auto|]. split; [reflexivity|].
    apply Hsub. reflexivity. }
  rewrite lookup_insert_ne by congruence.
  destruct (decide (user_tier = "enterprise"%string)) as [->|He].
  { rewrite lookup_singleton_eq. split; [auto|]. split; [reflexivity|].
    apply Hsub. reflexivity. }
  rewrite lookup_singleton_ne by congruence. auto.
Qed.

(** ** The default normalization constant *)

Section DivisionByOne.

(** Rounding a canonical mantissa leaves it as it is. *)
Lemma binary_round_aux_canonical (s : bool) (m : positive) (e : Z) :
  fexp prec emax (Zpos (digits2_pos m) + e) = e ->
  e <= emax - prec ->
  binary_round_aux prec emax s (Zpos m) e loc_Exact = S754_finite s m e.
Proof.
  intros Hc Hb. unfold binary_round_aux, shr_fexp.
  cbn [Zdigits2 shr_record_of_loc]. rewrite Hc, Z.sub_diag.
  cbn [shr shr_m loc_of_shr_record round_nearest_even Zdigits2 shr_record_of_loc].
  rewrite Hc, Z.sub_diag. cbn [shr shr_m].
  apply Z.leb_le in Hb. rewrite Hb. reflexivity.
Qed.

(** So does rounding its double one binade below. *)
Lemma binary_round_aux_doubled (s : bool) (m : positive) (e : Z) :
  fexp prec emax (Zpos (digits2_pos m) + e) = e ->
  e <= emax - prec ->
  binary_round_aux prec emax s (Zpos m~0) (e - 1) loc_Exact = S754_finite s m e.
Proof.
  intros Hc Hb. unfold binary_round_aux, shr_fexp.
  cbn [Zdigits2 digits2_pos shr_record_of_loc].
  rewrite Pos2Z.inj_succ.
  replace (Z.succ (Z.pos (digits2_pos m)) + (e - 1))
    with (Zpos (digits2_pos m) + e) by lia.
  replace (fexp prec emax (Z.pos (digits2_pos m) + e) - (e - 1)) with 1
    by (rewrite Hc; lia).
  cbn [shr SpecFloat.iter_pos shr_1 shr_m shr_r shr_s orb loc_of_shr_record
       round_nearest_even Zdigits2 shr_record_of_loc].
  replace (e - 1 + 1) with e by lia.
  rewrite Hc, Z.sub_diag. cbn [shr shr_m].
  apply Z.leb_le in Hb. rewrite Hb. reflexivity.
Qed.

Lemma SFdiv_core_binary_one (m : positive) (e : Z) :
  fexp prec emax (Zpos (digits2_pos m) + e) = e ->
  SFdiv_core_binary prec emax (Zpos m) e 4503599627370496 (-52) =
  if e =? emin prec emax then (Zpos m, e, loc_Exact)
  else (Zpos m~0, e - 1, loc_Exact).
Proof.
  intros Hc. unfold SFdiv_core_binary.
  change (Zdigits2 4503599627370496) with 53.
  cbn [Zdigits2].
  set (d := Zpos (digits2_pos m)) in *.
  assert (Z.min (fexp prec emax (d + e - (53 + -52))) (e - -52) =
          if e =? emin prec emax then e else e - 1) as ->.
  { unfold fexp, emin, prec, emax in *.
    destruct (e =? 3 - 1024 - 53) eqn:E;
      [apply Z.eqb_eq in E|apply Z.eqb_neq in E]; lia. }
  destruct (e =? emin prec emax).
  - replace (e - -52 - e) with 52 by lia.
    rewrite div_eucl_div_mod, Z.shiftl_mul_pow2 by lia.
    change (2 ^ 52) with 4503599627370496.
    rewrite Z.div_mul, Z.mod_mul by lia. reflexivity.
  - replace (e - -52 - (e - 1)) with 53 by lia.
    rewrite div_eucl_div_mod, Z.shiftl_mul_pow2 by lia.
    change (2 ^ 53) with (2 * 4503599627370496).
    rewrite Z.mul_assoc, Z.div_mul, Z.mod_mul by lia.
    replace (Z.pos m * 2) with (Z.pos m~0) by lia. reflexivity.
Qed.

(** [x / 1.0] is [x], for every binary64 value [x]. *)
Lemma div_one (x : float) : valid x -> div x one = x.
Proof.
  destruct x as [s|s| |s m e]; intros Hv.
  - cbn. rewrite xorb_false_r. reflexivity.
  - cbn. rewrite xorb_false_r. reflexivity.
  - reflexivity.
  - unfold valid, valid_binary, bounded, canonical_mantissa in Hv.
    apply andb_true_iff in Hv as [Hc Hb].
    apply Z.eqb_eq in Hc. apply Z.leb_le in Hb.
    unfold div, one, SFdiv. rewrite (SFdiv_core_binary_one m e Hc).
    rewrite xorb_false_r.
    destruct (e =? emin prec emax).
    + apply binary_round_aux_canonical; assumption.
    + apply binary_round_aux_doubled; assumption.
Qed.

End DivisionByOne.

Section OrderOfFloats.

Lemma not_ltb_leb (x y : float) :
  x <> S754_nan -> y <> S754_nan -> ltb x y = false -> leb y x = true.
Proof.
  unfold ltb, leb, SFltb, SFleb. intros Hx Hy.
  rewrite (SFcompare_antisym x y).
  assert (SFcompare x y <> None) as Hc by (destruct x, y; cbn; congruence).
  destruct (SFcompare x y) as [[]|]; cbn; congruence.
Qed.

Lemma ltb_not_nan (x y : float) :
  ltb x y = true -> x <> S754_nan /\ y <> S754_nan.
Proof.
  unfold ltb, SFltb. destruct x, y; cbn; split; congruence.
Qed.

Lemma leb_not_nan (x y : float) :
  leb x y = true -> x <> S754_nan /\ y <> S754_nan.
Proof.
  unfold leb, SFleb. destruct x, y; cbn; split; congruence.
Qed.

Lemma ltb_not_leb (x y : float) : ltb x y = true -> leb y x = false.
Proof.
  unfold ltb, leb, SFltb, SFleb. rewrite (SFcompare_antisym x y).
  destruct (SFcompare x y) as [[]|]; cbn; congruence.
Qed.

(** [x < y] and [y <= z] give [x < z]. *)
Lemma ltb_leb_trans (x y z : float) :
  ltb x y = true -> leb y z = true -> ltb x z = true.
Proof.
  intros Hxy Hyz.
  destruct (ltb x z) eqn:Hxz; [reflexivity|exfalso].
  apply ltb_not_nan in Hxy as Hn. apply leb_not_nan in Hyz as Hn'.
  assert (leb z x = true) as Hzx by (apply not_ltb_leb; tauto).
  pose proof (leb_ltb_trans _ _ _ Hzx Hxy) as Hzy.
  apply ltb_not_leb in Hzy. congruence.
Qed.

End OrderOfFloats.

Lemma line_confidence_one (members : list (string * json)) (x : float) :
  dict_get members "D" (JFloat zero) = JFloat x ->
  valid x ->
  line_confidence one (Some (JObject members)) =
  Some (if gtb x zero then if ltb x one then x else one else zero).
Proof.
  intros HD Hv. unfold line_confidence. cbn. rewrite HD. cbn.
  rewrite (div_one x Hv). unfold normalize, py_min, py_max.
  destruct (gtb x zero); reflexivity.
Qed.

(** X10.  With the normalization constant 1.0 the confidence of a line is
    its divergence itself when the divergence is a float strictly between
    0 and 1; it is 1.0 for a divergence of 1 or more, and 0.0 for a
    divergence that is zero, negative or not a number. *)
Theorem confidence_is_divergence (members : list (string * json)) (x : float) :
  dict_get members "D" (JFloat zero) = JFloat x ->
  valid x ->
  line_confidence one (Some (JObject members)) =
    Some (if gtb x zero then if ltb x one then x else one else zero) /\
  (gtb x zero = true -> ltb x one = true ->
   line_confidence one (Some (JObject members)) = Some x) /\
  (leb one x = true ->
   line_confidence one (Some (JObject members)) = Some one) /\
  (gtb x zero = false ->
   line_confidence one (Some (JObject members)) = Some zero).
Proof.
  intros HD Hv. rewrite (line_confidence_one members x HD Hv).
  split; [reflexivity|]. split; [|split].
  - intros -> ->. reflexivity.
  - intros H1.
    assert (gtb x zero = true) as ->
      by (apply (ltb_leb_trans zero one x); [reflexivity|exact H1]).
    assert (ltb x one = false) as ->.
    { destruct (ltb x one) eqn:E; [|reflexivity].
      apply ltb_not_leb in E. congruence. }
    reflexivity.
  - intros ->. reflexivity.
Qed.

Lemma confidence_is_divergence_witness :
  dict_get [("t"%string, JInt 6); ("D"%string, JFloat Samples.high)] "D"
           (JFloat zero) = JFloat Samples.high /\
  valid Samples.high /\
  gtb Samples.high zero = true /\ ltb Samples.high one = true /\
  line_confidence one (Samples.tick 6 Samples.high) = Some Samples.high.
Proof.
  split; [reflexivity|]. split; [reflexivity|].
  split; [reflexivity|]. split; [reflexivity|].
  apply (confidence_is_divergence
           [("t"%string, JInt 6); ("D"%string, JFloat Samples.high)]
           Samples.high); reflexivity.
Defined.

(** X11.  With the normalization constant 1.0 and a threshold from 0
    up to, but not including, 1, a line whose divergence is a float is
    flagged exactly when the divergence itself is strictly greater than
    the threshold. *)
Theorem flagged_iff_divergence_exceeds_threshold
        (threshold : float) (ls : list line_bytes) (i : nat)
        (members : list (string * json)) (x : float) :
  leb zero threshold = true ->
  ltb threshold one = true ->
  ls !! i = Some (Some (JObject members)) ->
  dict_get members "D" (JFloat zero) = JFloat x ->
  valid x ->
  i ∈ anomaly_indices (extract threshold one ls) <-> gtb x threshold = true.
Proof.
  intros H0 H1 Hl HD Hv.
  pose proof (line_confidence_one members x HD Hv) as Hc.
  assert (i ∈ anomaly_indices (extract threshold one ls) <->
          exists c, line_confidence one (Some (JObject members)) = Some c /\
                    gtb c threshold = true) as ->.
  { rewrite extract_flagged_from. cbn [anomaly_indices].
    rewrite list_elem_of_fmap. split.
    - intros ([j c] & Hi & Hin). cbn in Hi. subst j.
      apply elem_of_flagged_from in Hin as (lb & _ & Hl' & Hc' & Hg).
      rewrite Nat.sub_0_r in Hl'.
      pose proof (eq_trans (eq_sym Hl') Hl) as Heq. injection Heq as ->.
      eauto.
    - intros (c & Hc' & Hg). exists (i, c). split; [reflexivity|].
      apply elem_of_flagged_from. exists (Some (JObject members)).
      rewrite Nat.sub_0_r. split; [lia|]. auto. }
  rewrite Hc. split.
  - intros (c & [= <-] & Hg).
    destruct (gtb x zero) eqn:Hpos.
    + destruct (ltb x one) eqn:Hlt; [exact Hg|].
      apply ltb_not_nan in Hpos as [_ Hx].
      assert (leb one x = true) as Hge
        by (apply not_ltb_leb; [exact Hx|discriminate|exact Hlt]).
      exact (ltb_leb_trans _ _ _ H1 Hge).
    + unfold gtb in Hg. apply ltb_not_leb in Hg. congruence.
  - intros Hg. eexists. split; [reflexivity|].
    assert (gtb x zero = true) as -> by (exact (leb_ltb_trans _ _ _ H0 Hg)).
    destruct (ltb x one); [exact Hg|exact H1].
Qed.

Lemma flagged_iff_divergence_exceeds_threshold_witness :
  let ls := [Samples.tick 0 Samples.low; Samples.tick 1 Samples.high] in
  leb zero default_threshold = true /\
  ltb default_threshold one = true /\
  valid Samples.high /\
  (1%nat ∈ anomaly_indices (extract default_threshold one ls) <->
   gtb Samples.high default_threshold = true).
Proof.
  intros ls.
  split; [reflexivity|]. split; [reflexivity|]. split; [reflexivity|].
  apply (flagged_iff_divergence_exceeds_threshold default_threshold ls 1%nat
           [("t"%string, JInt 1); ("D"%string, JFloat Samples.high)]
           Samples.high); reflexivity.
Defined.

(** ** Session tokens *)

Section Tokens.

Lemma string_of_uint_no_colon (d : Decimal.uint) :
  Forall (fun c => c <> ":"%char)
         (String.list_ascii_of_string (NilEmpty.string_of_uint d)).
Proof.
  induction d; cbn; constructor; try assumption; discriminate.
Qed.

Lemma str_int_no_colon (n : Z) :
  Forall (fun c => c <> ":"%char) (String.list_ascii_of_string (Auth.str_int n)).
Proof.
  unfold Auth.str_int, NilEmpty.string_of_int.
  destruct (Z.to_int n) as [d|d]; cbn.
  - apply string_of_uint_no_colon.
  - constructor; [discriminate|apply string_of_uint_no_colon].
Qed.

Lemma str_int_inj (n1 n2 : Z) : Auth.str_int n1 = Auth.str_int n2 -> n1 = n2.
Proof.
  unfold Auth.str_int. intros H.
  apply (f_equal NilEmpty.int_of_string) in H.
  rewrite !NilEmpty.isi in H. injection H as H.
  apply (f_equal Z.of_int) in H. rewrite !DecimalZ.of_to in H. exact H.
Qed.

(** Two texts cut at their first colon have the same parts. *)
Lemma first_colon_split (l1 l2 r1 r2 : list ascii) :
  Forall (fun c => c <> ":"%char) l1 ->
  Forall (fun c => c <> ":"%char) l2 ->
  l1 ++ ":"%char :: r1 = l2 ++ ":"%char :: r2 ->
  l1 = l2 /\ r1 = r2.
Proof.
  intros H1. revert l2. induction H1 as [|c l1 Hc _ IH]; intros l2 H2 Heq.
  - destruct H2 as [|c' l2 Hc' _]; cbn in Heq.
    + injection Heq as ->. auto.
    + injection Heq as <- _. contradiction.
  - destruct H2 as [|c' l2 Hc' H2]; cbn in Heq.
    + injection Heq as -> _. contradiction.
    + injection Heq as -> Heq. destruct (IH l2 H2 Heq) as [-> ->]. auto.
Qed.

End Tokens.

(** X12.  A session token determines the user it was issued to and its
    random part: two tokens are equal only when they carry the same user
    id and the same random part, so the tokens of two users never
    coincide. *)
Theorem session_token_inj (user_id1 user_id2 : Z) (random_hex1 random_hex2 : string) :
  Auth.session_token user_id1 random_hex1 = Auth.session_token user_id2 random_hex2 ->
  user_id1 = user_id2 /\ random_hex1 = random_hex2.
Proof.
  unfold Auth.session_token. intros H.
  apply (f_equal String.list_ascii_of_string) in H.
  rewrite !list_ascii_of_string_app in H. cbn [String.list_ascii_of_string app] in H.
  apply first_colon_split in H as [Hu Hr]; try apply str_int_no_colon.
  split.
  - apply str_int_inj.
    rewrite <- (string_of_list_ascii_of_string (Auth.str_int user_id1)), Hu.
    apply string_of_list_ascii_of_string.
  - rewrite <- (string_of_list_ascii_of_string random_hex1), Hr.
    apply string_of_list_ascii_of_string.
Qed.

Lemma session_token_inj_witness :
  Auth.session_token 1 "abc123" = "1:abc123"%string /\
  1 = 1 /\ "abc123"%string = "abc123"%string.
Proof.
  split; [reflexivity|].
  apply (session_token_inj 1 1 "abc123" "abc123"). reflexivity.
Defined.

(** ** The React client *)

Section ClientFacts.

Import Client.

Lemma or_else_truthy (a : js_value) (fallback : string) :
  fallback <> EmptyString -> truthy (or_else a (Str fallback)) = true.
Proof.
  intros Hf. unfold or_else. destruct (truthy a) eqn:Ha; [exact Ha|].
  cbn. apply negb_true_iff, String.eqb_neq. exact Hf.
Qed.

(** The message of a caught error that is an object (or any value other
    than [undefined] and [null]): the [detail] of its response, or the
    fallback. *)
Lemma error_message_detail (err : js_value) (fallback : string) :
  err <> Undefined -> err <> Null ->
  error_message err fallback
  = Some (or_else (get_opt (get_opt (get_opt err "response") "data") "detail")
                  (Str fallback)).
Proof.
  intros Hu Hn. unfold error_message, get_opt at 3.
  destruct err; try contradiction; reflexivity.
Qed.

(** What the error line shows for [detail || fallback]. *)
Lemma render_error_or_else (detail : js_value) (fallback : string) :
  fallback <> EmptyString ->
  render_error (or_else detail (Str fallback))
  = if truthy detail
    then match child_text detail with
         | Some text => Line text
         | None => RenderThrows
         end
    else Line [Str fallback].
Proof.
  intros Hf. unfold or_else, render_error.
  destruct (truthy detail) eqn:Ht.
  - rewrite Ht. destruct (child_text detail); reflexivity.
  - cbn [child_text truthy].
    assert (String.eqb fallback "" = false) as -> by (apply String.eqb_neq, Hf).
    reflexivity.
Qed.

End ClientFacts.

(** X13.  When a file is selected, [handleUpload] always ends with the
    loading flag cleared.  When the request is rejected, with a reason
    that is neither [undefined] nor [null], the error becomes the
    [detail] of the response when that is truthy and the text "Upload
    failed" otherwise; the results, the selected file and the history
    stay as they were, and the history is not fetched again.  The error
    line then shows "Upload failed", or what React makes of the detail:
    its text when it is a string or a number, and an error thrown while
    rendering when it is an object or an array that holds one. *)
Theorem rejected_upload_shows_error (st : Client.dashboard) :
  Client.truthy (Client.file st) = true ->
  (forall response,
      Client.loading (Client.dashboard_after (Client.handleUpload st response))
      = false) /\
  (forall err,
      err <> Client.Undefined -> err <> Client.Null ->
      let detail :=
        Client.get_opt (Client.get_opt (Client.get_opt err "response") "data")
                       "detail" in
      let out := Client.handleUpload st (Client.Rejected err) in
      Client.error (Client.dashboard_after out)
      = Client.or_else detail (Client.Str "Upload failed") /\
      Client.render_error (Client.error (Client.dashboard_after out))
      = (if Client.truthy detail
         then match Client.child_text detail with
              | Some text => Client.Line text
              | None => Client.RenderThrows
              end
         else Client.Line [Client.Str "Upload failed"]) /\
      Client.results (Client.dashboard_after out) = Client.results st /\
      Client.file (Client.dashboard_after out) = Client.file st /\
      Client.history (Client.dashboard_after out) = Client.history st /\
      Client.posted out = true /\ Client.refetched out = false /\
      Client.upload_escaped out = false).
Proof.
  intros Hfile. split.
  - intros response. unfold Client.handleUpload. rewrite Hfile. cbn [negb].
    destruct response as [res|err].
    + destruct (Client.get res "data"); [reflexivity|].
      destruct (Client.error_message Client.type_error "Upload failed");
        reflexivity.
    + destruct (Client.error_message err "Upload failed"); reflexivity.
  - intros err Hu Hn. cbn zeta. unfold Client.handleUpload. rewrite Hfile.
    cbn [negb]. rewrite (error_message_detail err "Upload failed" Hu Hn).
    cbn [Client.dashboard_after Client.error Client.results Client.file
         Client.history Client.posted Client.refetched Client.upload_escaped].
    rewrite render_error_or_else by discriminate. repeat split.
Qed.

Lemma rejected_upload_shows_error_witness :
  let st := Client.DashboardState (Client.Object []) false Client.Null
                                  (Client.Array []) (Client.Str "") in
  let err := Client.Object
               [("response"%string,
                 Client.Object
                   [("data"%string,
                     Client.Object
                       [("detail"%string,
                         Client.Str "Need at least 10 data points")])])] in
  Client.truthy (Client.file st) = true /\
  err <> Client.Undefined /\ err <> Client.Null /\
  Client.render_error
    (Client.error
       (Client.dashboard_after (Client.handleUpload st (Client.Rejected err))))
  = Client.Line [Client.Str "Need at least 10 data points"].
Proof.
  intros st err.
  split; [reflexivity|]. split; [discriminate|]. split; [discriminate|].
  refine (proj1 (proj2 (proj2 (rejected_upload_shows_error st eq_refl) err _ _)));
    discriminate.
Defined.

(** X14.  A rejected login or signup request, submitted from the modal,
    never logs the user in: the provider's state and the stored session
    are what they were, [onSuccess] is not called and the modal stops
    loading.  Its error becomes the [detail] of the response when that
    is truthy and "Authentication failed" otherwise, a truthy value in
    both cases; the error line then shows "Authentication failed", or
    what React makes of the detail: its text when it is a string or a
    number, and an error thrown while rendering when it is an object or
    an array that holds one. *)
Theorem rejected_authentication_keeps_session
        (JSON_stringify : Client.js_value -> option string)
        (mode : Client.js_value) (st : Client.provider) (err : Client.js_value) :
  err <> Client.Undefined -> err <> Client.Null ->
  let detail :=
    Client.get_opt (Client.get_opt (Client.get_opt err "response") "data")
                   "detail" in
  let out := Client.handleSubmit JSON_stringify mode st (Client.Rejected err) in
  Client.provider_after out = st /\
  Client.succeeded out = false /\
  Client.submit_escaped out = false /\
  Client.modal_loading (Client.modal_after out) = false /\
  Client.modal_error (Client.modal_after out)
  = Client.or_else detail (Client.Str "Authentication failed") /\
  Client.truthy (Client.modal_error (Client.modal_after out)) = true /\
  Client.render_error (Client.modal_error (Client.modal_after out))
  = (if Client.truthy detail
     then match Client.child_text detail with
          | Some text => Client.Line text
          | None => Client.RenderThrows
          end
     else Client.Line [Client.Str "Authentication failed"]).
Proof.
  intros Hu Hn. cbn zeta.
  pose proof (error_message_detail err "Authentication failed" Hu Hn) as Hmsg.
  set (detail := Client.get_opt
                   (Client.get_opt (Client.get_opt err "response") "data")
                   "detail") in *.
  assert (Client.handleSubmit JSON_stringify mode st (Client.Rejected err)
          = Client.Submitted st
              (Client.Modal
                 (Client.or_else detail (Client.Str "Authentication failed"))
                 false)
              false false) as ->.
  { unfold Client.handleSubmit.
    assert ((match mode with
             | Client.Str "signup" => Client.signup JSON_stringify st (Client.Rejected err)
             | _ => Client.login JSON_stringify st (Client.Rejected err)
             end) = (st, Client.Rejected err)) as ->.
    { repeat match goal with
             | |- context [match ?x with _ => _ end] => destruct x
             end; reflexivity. }
    rewrite Hmsg. reflexivity. }
  cbn [Client.provider_after Client.succeeded Client.submit_escaped
       Client.modal_after Client.modal_loading Client.modal_error].
  rewrite render_error_or_else by discriminate.
  repeat split. apply or_else_truthy. discriminate.
Qed.

Lemma rejected_authentication_keeps_session_witness :
  let st := Client.Provider Client.Null ∅ in
  let err := Client.Object [("message"%string, Client.Str "Network Error")] in
  let out := Client.handleSubmit (fun _ => Some "{}"%string)
                                 (Client.Str "login") st (Client.Rejected err) in
  err <> Client.Undefined /\ err <> Client.Null /\
  Client.provider_after out = st /\
  Client.render_error (Client.modal_error (Client.modal_after out))
  = Client.Line [Client.Str "Authentication failed"].
Proof.
  intros st err out.
  split; [discriminate|]. split; [discriminate|].
  pose proof (rejected_authentication_keeps_session
                (fun _ => Some "{}"%string) (Client.Str "login") st err
                ltac:(discriminate) ltac:(discriminate)) as H.
  cbn zeta in H. split; [apply H|]. apply H.
Defined.

(** X15.  Logging out is durable: after [logout] the provider holds no
    session and the storage no ["auth"] entry, its other entries being
    untouched; a page loaded on that storage starts without a session,
    and the application shows the landing page. *)
Theorem logout_is_durable
        (JSON_parse : string -> option Client.js_value) (st : Client.provider) :
  let st' := Client.logout st in
  Client.auth st' = Client.Null /\
  Client.localStorage st' !! "auth"%string = None /\
  (forall key, key <> "auth"%string ->
               Client.localStorage st' !! key = Client.localStorage st !! key) /\
  Client.load JSON_parse (Client.localStorage st')
  = Some (Client.Provider Client.Null (Client.localStorage st')) /\
  forall authMode, exists with_modal,
      Client.App (Client.auth st') authMode = Client.LandingPage with_modal.
Proof.
  cbn zeta. unfold Client.logout, Client.load, Client.mount_effect. cbn.
  rewrite lookup_delete_eq.
  split; [reflexivity|]. split; [reflexivity|]. split.
  - intros key Hkey. apply lookup_delete_ne. congruence.
  - split; [reflexivity|]. intros authMode. eexists. reflexivity.
Qed.

(** X16.  Logging in is durable when the session data goes through JSON
    unchanged: after a resolved login the provider holds the response's
    data and the storage its text under ["auth"]; if that text is not
    empty and parses back to the data, a page loaded on that storage
    starts with the same session. *)
Theorem login_is_durable
        (JSON_stringify : Client.js_value -> option string)
        (JSON_parse : string -> option Client.js_value)
        (st : Client.provider) (res authData : Client.js_value) (text : string) :
  Client.get res "data" = Some authData ->
  JSON_stringify authData = Some text ->
  text <> EmptyString ->
  JSON_parse text = Some authData ->
  let '(st', promise) := Client.login JSON_stringify st (Client.Resolved res) in
  promise = Client.Resolved authData /\
  Client.auth st' = authData /\
  Client.localStorage st' !! "auth"%string = Some text /\
  (forall key, key <> "auth"%string ->
               Client.localStorage st' !! key = Client.localStorage st !! key) /\
  Client.load JSON_parse (Client.localStorage st') = Some st'.
Proof.
  intros Hdata Hstr Htext Hparse. unfold Client.login. rewrite Hdata, Hstr.
  unfold Client.set_item. cbn [default Client.auth Client.localStorage].
  unfold id.
  split; [reflexivity|]. split; [reflexivity|].
  split; [apply lookup_insert_eq|]. split.
  - intros key Hkey. apply lookup_insert_ne. congruence.
  - unfold Client.load, Client.mount_effect. cbn [Client.localStorage].
    rewrite lookup_insert_eq. unfold id.
    assert (Client.truthy (Client.Str text) = true) as ->.
    { cbn. apply negb_true_iff, String.eqb_neq. exact Htext. }
    rewrite Hparse. reflexivity.
Qed.

Lemma login_is_durable_witness :
  let stringify := fun _ : Client.js_value => Some "{}"%string in
  let parse := fun _ : string => Some (Client.Object []) in
  let res := Client.Object [("data"%string, Client.Object [])] in
  let st := Client.Provider Client.Null ∅ in
  Client.get res "data" = Some (Client.Object []) /\
  Client.load parse (Client.localStorage (Client.login stringify st (Client.Resolved res)).1)
  = Some (Client.Provider (Client.Object []) {["auth"%string := "{}"%string]}).
Proof.
  intros stringify parse res st.
  split; [reflexivity|].
  pose proof (login_is_durable stringify parse st res (Client.Object []) "{}"
                eq_refl eq_refl ltac:(discriminate) eq_refl) as H.
  cbn in H. destruct H as (_ & _ & _ & _ & H). exact H.
Defined.

(** ** The plot of the anomalies *)

Section Plot.

Import Client.

(** [x / x] is [1.0], for every finite binary64 value [x] that is not
    zero. *)
Lemma div_self (s : bool) (m : positive) (e : Z) :
  div (S754_finite s m e) (S754_finite s m e) = one.
Proof.
  unfold div, SFdiv, SFdiv_core_binary. cbn [Zdigits2].
  set (d := Zpos (digits2_pos m)).
  replace (d + e - (d + e)) with 0 by lia.
  replace (e - e) with 0 by lia.
  change (Z.min (fexp prec emax 0) 0) with (-53).
  change (0 - -53) with 53.
  rewrite div_eucl_div_mod, Z.shiftl_mul_pow2 by lia.
  rewrite (Z.mul_comm (Z.pos m)), Z.div_mul, Z.mod_mul by lia.
  assert (new_location (Z.pos m) 0 = loc_Exact) as ->.
  { unfold new_location. destruct (Z.even (Z.pos m)); reflexivity. }
  rewrite xorb_nilpotent. reflexivity.
Qed.

End Plot.

(** X17.  The plot draws one circle for each anomaly index.  When the
    divisor of the abscissa, the last index or 1, is a positive number,
    an index equal to it is drawn at x = 375, the right end of the
    horizontal axis, and the index 0 at x = 25, its left end; a
    confidence of 1.0 is drawn at y = 50, the top of the vertical axis,
    and a missing score gives no ordinate (NaN). *)
Theorem plot_spans_the_axes
        (indices scores : list float) (i : nat) (m : positive) (e : Z) :
  Client.last_or_one indices = S754_finite false m e ->
  length (Client.circles indices scores) = length indices /\
  (indices !! i = Some (S754_finite false m e) ->
   fst <$> Client.circles indices scores !! i = Some Client.n375) /\
  (indices !! i = Some zero ->
   fst <$> Client.circles indices scores !! i = Some Client.n25) /\
  (is_Some (indices !! i) -> scores !! i = Some one ->
   snd <$> Client.circles indices scores !! i = Some Client.n50) /\
  (is_Some (indices !! i) -> scores !! i = None ->
   snd <$> Client.circles indices scores !! i = Some S754_nan).
Proof.
  intros Hlast. unfold Client.circles.
  split; [apply length_imap|].
  rewrite list_lookup_imap. unfold Client.circle. rewrite Hlast.
  split; [|split; [|split]].
  - intros ->. cbn -[div Client.add Client.mul Client.sub].
    rewrite div_self. reflexivity.
  - intros ->. reflexivity.
  - intros [idx ->] ->. reflexivity.
  - intros [idx ->] ->. reflexivity.
Qed.

Lemma plot_spans_the_axes_witness :
  let indices := [zero; S754_finite false 6755399441055744 (-50)] in
  let scores := [Samples.high; one] in
  Client.last_or_one indices = S754_finite false 6755399441055744 (-50) /\
  Client.circles indices scores !! 0%nat
  = Some (Client.n25, S754_finite false 5981343255101440 (-46)) /\
  fst <$> Client.circles indices scores !! 1%nat = Some Client.n375 /\
  snd <$> Client.circles indices scores !! 1%nat = Some Client.n50.
Proof.
  intros indices scores.
  split; [reflexivity|]. split; [vm_compute; reflexivity|].
  destruct (plot_spans_the_axes indices scores 1%nat 6755399441055744 (-50) eq_refl)
    as (_ & Hx & _ & Hy & _).
  split; [apply Hx; reflexivity|apply Hy; [eexists|]; reflexivity].
Defined.

(** ** Reading a plain CSV file *)

Section PlainFiles.

Import Csv Download PlainCsv.

Lemma plain_field_chars (s : string) :
  plain_field s = true ->
  forallb plain_char (String.list_ascii_of_string s) = true /\
  Z.of_nat (length (String.list_ascii_of_string s)) <= field_limit.
Proof.
  unfold plain_field. intros H. apply andb_true_iff in H as [H1 H2].
  apply Z.leb_le in H2. auto.
Qed.

(** A plain cell that is not empty, followed by the line terminator,
    is a record of its own. *)
Lemma parse_line_only_field (s : string) (fs : list string) (eol : list ascii) :
  eol = [Csv.LF] \/ eol = [Csv.CR; Csv.LF] ->
  plain_field s = true ->
  s <> EmptyString ->
  parse_line (Reader START_RECORD [] fs) (String.list_ascii_of_string s ++ eol) =
  Ok (Reader START_RECORD [] (fs ++ [s])).
Proof.
  intros Heol Hs Hne. apply plain_field_chars in Hs as [Hs Hlen].
  rewrite <- (string_of_list_ascii_of_string s) at 2.
  destruct s as [|c s]; [contradiction|]. cbn [String.list_ascii_of_string] in *.
  rewrite parse_line_field_start; [|left; reflexivity|assumption..].
  destruct Heol as [-> | ->]; reflexivity.
Qed.

Lemma parse_line_cells (cells : list string) (st : parser_state)
      (fs : list string) (eol : list ascii) :
  eol = [Csv.LF] \/ eol = [Csv.CR; Csv.LF] ->
  forallb plain_field cells = true ->
  cells <> [] ->
  st = START_FIELD \/ (st = START_RECORD /\ cells <> [EmptyString]) ->
  parse_line (Reader st [] fs)
             (String.list_ascii_of_string (write_cells cells) ++ eol) =
  Ok (Reader START_RECORD [] (fs ++ cells)).
Proof.
  intros Heol. revert st fs.
  induction cells as [|c cells IH]; intros st fs Hplain Hne Hst; [contradiction|].
  cbn [forallb] in Hplain. apply andb_true_iff in Hplain as [Hc Hplain].
  destruct cells as [|c' cells].
  - cbn [write_cells]. destruct Hst as [-> | [-> Hc']].
    + apply parse_line_last_field; assumption.
    + apply parse_line_only_field; try assumption. congruence.
  - change (write_cells (c :: c' :: cells))
      with (c ++ "," ++ write_cells (c' :: cells))%string.
    rewrite !list_ascii_of_string_app.
    cbn [String.list_ascii_of_string app]. rewrite <- app_assoc. cbn [app].
    rewrite parse_line_field_delimiter;
      [|destruct Hst as [-> | [-> _]]; auto|exact Hc].
    rewrite IH; [|exact Hplain|discriminate|left; reflexivity].
    rewrite <- app_assoc. reflexivity.
Qed.

Lemma write_cells_no_LF (cells : list string) :
  forallb plain_field cells = true ->
  forallb (fun c => negb (Ascii.eqb c Csv.LF))
          (String.list_ascii_of_string (write_cells cells)) = true.
Proof.
  induction cells as [|c cells IH]; intros H; [reflexivity|].
  cbn [forallb] in H. apply andb_true_iff in H as [Hc H].
  destruct cells as [|c' cells].
  - cbn [write_cells]. apply plain_field_no_LF. exact Hc.
  - change (write_cells (c :: c' :: cells))
      with (c ++ "," ++ write_cells (c' :: cells))%string.
    rewrite !list_ascii_of_string_app, !forallb_app.
    rewrite (plain_field_no_LF _ Hc), (IH H). reflexivity.
Qed.

Lemma rows_from_write_rows (eol : string) (rows : list (list string)) :
  eol = LF \/ eol = CRLF ->
  forallb readable rows = true ->
  rows_from parse_reset
            (readlines (String.list_ascii_of_string (write_rows eol rows)))
  = Ok rows.
Proof.
  intros Heol. induction rows as [|row rows IH]; intros H; [reflexivity|].
  cbn [forallb] in H. apply andb_true_iff in H as [Hrow H].
  unfold readable in Hrow. apply andb_true_iff in Hrow as [Hplain Hshape].
  assert (row <> [] /\ row <> [EmptyString]) as [Hne Hblank].
  { destruct row as [|c [|c' row]]; try discriminate; split; try discriminate.
    intros [= ->]. discriminate. }
  assert (String.list_ascii_of_string eol = [Csv.LF] \/
          String.list_ascii_of_string eol = [Csv.CR; Csv.LF]) as Heol'
    by (destruct Heol as [-> | ->]; auto).
  pose proof (parse_line_cells row START_RECORD [] _ Heol' Hplain Hne
                (or_intror (conj eq_refl Hblank))) as Hline.
  cbn [write_rows]. rewrite !list_ascii_of_string_app.
  assert (exists p,
             String.list_ascii_of_string (write_cells row) ++
             String.list_ascii_of_string eol = p ++ [Csv.LF] /\
             forallb (fun c => negb (Ascii.eqb c Csv.LF)) p = true)
    as (p & Hp & Hno).
  { pose proof (write_cells_no_LF row Hplain) as Hno.
    destruct Heol as [-> | ->].
    - exists (String.list_ascii_of_string (write_cells row)). auto.
    - exists (String.list_ascii_of_string (write_cells row) ++ [Csv.CR]).
      split; [rewrite <- app_assoc; reflexivity|].
      rewrite forallb_app, Hno. reflexivity. }
  rewrite Hp in Hline. rewrite app_assoc, Hp, <- app_assoc. cbn [app].
  rewrite (readlines_line p _ Hno). cbn [rows_from].
  unfold parse_reset in *. rewrite Hline. cbn. rewrite (IH H). reflexivity.
Qed.

Lemma for_rows_numeric (rows : list (list string)) (values acc : list float) :
  Forall2 (fun row v => (1 < length row)%nat /\
                        PyFloat.float_of_string (nth 1 row EmptyString) = Some v)
          rows values ->
  for_rows rows acc = Ok (acc ++ values).
Proof.
  intros H. revert acc. induction H as [|row v rows values [Hlen Hv] _ IH];
    intros acc.
  - rewrite app_nil_r. reflexivity.
  - cbn [for_rows]. unfold append_value.
    assert ((1 <? length row)%nat = true) as -> by (apply Nat.ltb_lt; exact Hlen).
    rewrite Hv. cbn [mbind result_bind]. rewrite IH, <- app_assoc. reflexivity.
Qed.

End PlainFiles.

(** X18.  A file in the documented format is read as it is written and
    decoded to its values: when every line holds plain cells, the lines
    after the first have a number in their second cell, and there are
    ten or more of them, decoding returns exactly these numbers in the
    order of the lines, whether the lines end with a line feed or with
    a carriage return and a line feed. *)
Theorem decode_plain_file
        (eol : string) (header : list string) (rows : list (list string))
        (values : list float) :
  eol = PlainCsv.LF \/ eol = PlainCsv.CRLF ->
  forallb PlainCsv.readable (header :: rows) = true ->
  Forall2 (fun row v => (1 < length row)%nat /\
                        PyFloat.float_of_string (nth 1 row EmptyString) = Some v)
          rows values ->
  (10 <= length values)%nat ->
  Csv.read (PlainCsv.write_rows eol (header :: rows)) = Ok (header :: rows) /\
  decode (PlainCsv.write_rows eol (header :: rows)) = Ok values.
Proof.
  intros Heol Hread Hnum Hlen.
  assert (Csv.read (PlainCsv.write_rows eol (header :: rows)) = Ok (header :: rows))
    as Hrows by (apply rows_from_write_rows; assumption).
  split; [exact Hrows|].
  unfold decode, numeric_values. rewrite Hrows. cbn [mbind result_bind tail].
  rewrite (for_rows_numeric _ _ _ Hnum). cbn [app mbind result_bind].
  unfold validate.
  assert ((length values <? 10)%nat = false) as -> by (apply Nat.ltb_ge; lia).
  reflexivity.
Qed.

Lemma decode_plain_file_witness :
  let header := ["timestamp"; "value"]%string in
  let rows := map (fun k => [Download.show_nat k; "10.5"%string]) (seq 1 10) in
  let values := replicate 10 (S754_finite false 5910974510923776 (-49)) in
  forallb PlainCsv.readable (header :: rows) = true /\
  (10 <= length values)%nat /\
  decode (PlainCsv.write_rows PlainCsv.CRLF (header :: rows)) = Ok values /\
  decode (PlainCsv.write_rows PlainCsv.LF (header :: rows)) = Ok values.
Proof.
  intros header rows values.
  assert (Forall2 (fun row v => (1 < length row)%nat /\
                     PyFloat.float_of_string (nth 1 row EmptyString) = Some v)
                  rows values) as Hnum.
  { unfold rows, values. cbn [map seq replicate].
    repeat (constructor; [split; [cbn; lia|vm_compute; reflexivity]|]).
    constructor. }
  assert (forallb PlainCsv.readable (header :: rows) = true) as Hread
    by (vm_compute; reflexivity).
  assert (10 <= length values)%nat as Hlen by (cbn; lia).
  split; [exact Hread|]. split; [exact Hlen|]. split.
  - apply (decode_plain_file PlainCsv.CRLF header rows values); auto.
  - apply (decode_plain_file PlainCsv.LF header rows values); auto.
Defined.

(** ** From the upload to the plot *)

Section ResponsePlot.

Variable rnse_run : Z -> Z -> RNSEParams -> rnse_output.

Lemma upload_response_flagged (conn conn' : results_table) (uid : Z)
      (fname text : string) (resp : upload_response) :
  upload_csv rnse_run conn uid fname text = (Ok resp, conn') ->
  exists ls,
    resp_anomaly_indices resp = (flagged_from default_threshold one 0 ls).*1 /\
    resp_confidence_scores resp = (flagged_from default_threshold one 0 ls).*2 /\
    anomaly_count resp = length (flagged_from default_threshold one 0 ls).
Proof.
  unfold upload_csv. destruct (decode text) as [values|e]; [|discriminate].
  cbn. intros H. injection H as <- _. cbn. unfold analyse.
  rewrite extract_flagged_from. cbn. eexists. rewrite length_fmap. eauto.
Qed.

End ResponsePlot.

(** X19.  The plot of an upload's response draws as many circles as the
    response counts anomalies, and none of them lacks its score: the
    ordinate of the [i]-th circle is 150 minus 100 times the [i]-th
    confidence score, a score that is greater than 0.3 and at most 1. *)
Theorem plot_of_upload_response
        (rnse_run : Z -> Z -> RNSEParams -> rnse_output)
        (conn conn' : results_table) (uid : Z) (fname text : string)
        (resp : upload_response) :
  upload_csv rnse_run conn uid fname text = (Ok resp, conn') ->
  let indices := Client.number_of_nat <$> resp_anomaly_indices resp in
  let scores := resp_confidence_scores resp in
  length (Client.circles indices scores) = anomaly_count resp /\
  forall i, (i < anomaly_count resp)%nat ->
    exists c,
      scores !! i = Some c /\
      gtb c default_threshold = true /\ leb c one = true /\
      snd <$> Client.circles indices scores !! i
      = Some (Client.sub Client.n150 (Client.mul c Client.n100)).
Proof.
  intros Hup. apply upload_response_flagged in Hup as (ls & Hi & Hs & Hn).
  cbn zeta. rewrite Hi, Hs, Hn. unfold Client.circles.
  split; [rewrite length_imap, !length_fmap; reflexivity|].
  intros i Hlt.
  destruct (lookup_lt_is_Some_2 _ _ Hlt) as [[j c] Hjc].
  exists c. rewrite list_lookup_imap. unfold Client.circle.
  rewrite !list_lookup_fmap, Hjc.
  cbn -[Client.sub Client.mul Client.add div].
  pose proof (list_elem_of_lookup_2 _ _ _ Hjc) as Hin.
  apply elem_of_flagged_from in Hin as (lb & _ & _ & Hc & Hg).
  split; [reflexivity|]. split; [exact Hg|].
  split; [apply (line_confidence_bounds one lb c Hc)|reflexivity].
Qed.

Lemma plot_of_upload_response_witness :
  exists resp conn',
    upload_csv Samples.spike_scorer ∅ 7 "a.csv" Samples.ten_samples = (Ok resp, conn') /\
    anomaly_count resp = 1%nat /\
    length (Client.circles (Client.number_of_nat <$> resp_anomaly_indices resp)
                           (resp_confidence_scores resp)) = 1%nat.
Proof.
  destruct (upload_csv Samples.spike_scorer ∅ 7 "a.csv" Samples.ten_samples)
    as [[resp|e] conn'] eqn:Hup; [|vm_compute in Hup; discriminate].
  assert (anomaly_count resp = 1%nat) as Hn
    by (vm_compute in Hup; injection Hup as <- _; reflexivity).
  exists resp, conn'. split; [reflexivity|]. split; [exact Hn|].
  rewrite <- Hn.
  apply (plot_of_upload_response Samples.spike_scorer ∅ conn' 7 "a.csv"
           Samples.ten_samples resp Hup).
Defined.

(** ** Blanks around a value *)

Section Blanks.

Import PyFloat.

Lemma is_space_not_special (c : ascii) :
  is_space c = true -> Ascii.eqb c "_" = false /\ is_digit c = false.
Proof.
  unfold is_space, is_digit, code. intros H.
  destruct (Ascii.eqb c "_") eqn:E.
  - apply Ascii.eqb_eq in E. subst c. discriminate.
  - split; [reflexivity|].
    destruct ((48 <=? Z.of_N (N_of_ascii c)) && (Z.of_N (N_of_ascii c) <=? 57)) eqn:D;
      [|reflexivity].
    apply andb_true_iff in D as [D1 D2]. apply Z.leb_le in D1, D2.
    repeat (apply orb_true_iff in H as [H|H]);
      try (apply andb_true_iff in H as [H1 H2]; apply Z.leb_le in H1, H2);
      try apply Z.eqb_eq in H; lia.
Qed.

(** What [strip_underscores] does depends on the previous character only
    through its being an underscore or a digit. *)
Lemma strip_underscores_prev (p : option ascii) (l : list ascii) :
  match p with
  | Some c => Ascii.eqb c "_" = false /\ is_digit c = false
  | None => True
  end ->
  strip_underscores p l = strip_underscores None l.
Proof.
  intros Hp. destruct l as [|c l]; cbn [strip_underscores].
  - destruct p as [c|]; [|reflexivity]. destruct Hp as [Hu _].
    destruct (ascii_dec c "_") as [->|Hne]; [discriminate|].
    destruct c as [[] [] [] [] [] [] [] []]; try reflexivity. contradiction.
  - destruct p as [p|]; [|reflexivity]. destruct Hp as [Hu Hd].
    rewrite Hd.
    destruct (Ascii.eqb c "_"); [reflexivity|].
    destruct p as [[] [] [] [] [] [] [] []]; try reflexivity. discriminate.
Qed.


Lemma strip_underscores_blanks_l (l s : list ascii) :
  Forall (fun c => is_space c = true) l ->
  strip_underscores None (l ++ s) = app l <$> strip_underscores None s.
Proof.
  induction 1 as [|c l Hc Hl IH]; cbn [app].
  - destruct (strip_underscores None s); reflexivity.
  - destruct (is_space_not_special c Hc) as [Hu Hd].
    cbn [strip_underscores]. rewrite Hu.
    rewrite (strip_underscores_prev (Some c)) by (split; assumption).
    rewrite IH. destruct (strip_underscores None s); reflexivity.
Qed.

Lemma strip_underscores_blanks_r (r : list ascii) :
  Forall (fun c => is_space c = true) r ->
  forall (p : option ascii) (s : list ascii),
  strip_underscores p (s ++ r) = (fun s' => s' ++ r) <$> strip_underscores p s.
Proof.
  intros Hr p s. revert p. induction s as [|c s IH]; intros p; cbn [app].
  - destruct r as [|c r].
    + cbn. destruct p as [[[] [] [] [] [] [] [] []]|]; reflexivity.
    + inversion Hr as [|? ? Hc Hr']; subst.
      destruct (is_space_not_special c Hc) as [Hu Hd].
      cbn [strip_underscores]. rewrite Hu.
      rewrite (strip_underscores_prev (Some c)) by (split; assumption).
      pose proof (strip_underscores_blanks_l r [] Hr') as E.
      rewrite app_nil_r in E. rewrite E. cbn.
      destruct p as [[[] [] [] [] [] [] [] []]|]; cbn; try reflexivity;
        rewrite ?Hd, ?app_nil_r; reflexivity.
  - cbn [strip_underscores].
    destruct (Ascii.eqb c "_").
    + destruct p as [p|]; [|reflexivity].
      destruct (is_digit p); [apply IH|reflexivity].
    + assert (E : option_map (cons c) (strip_underscores (Some c) (s ++ r)) =
                  (fun s' => s' ++ r) <$>
                    option_map (cons c) (strip_underscores (Some c) s)).
      { rewrite IH. destruct (strip_underscores (Some c) s); reflexivity. }
      destruct p as [[[] [] [] [] [] [] [] []]|]; try exact E.
      destruct (is_digit c); [exact E|reflexivity].
Qed.

Lemma drop_spaces_blanks (l s : list ascii) :
  Forall (fun c => is_space c = true) l -> drop_spaces (l ++ s) = drop_spaces s.
Proof.
  induction 1 as [|c l Hc Hl IH]; [reflexivity|].
  cbn [app drop_spaces]. rewrite Hc. exact IH.
Qed.

Lemma drop_spaces_all (l : list ascii) :
  Forall (fun c => is_space c = true) l -> drop_spaces l = [].
Proof.
  intros H. rewrite <- (app_nil_r l). rewrite drop_spaces_blanks by assumption.
  reflexivity.
Qed.

Lemma drop_spaces_app (s r : list ascii) :
  drop_spaces s <> [] -> drop_spaces (s ++ r) = drop_spaces s ++ r.
Proof.
  induction s as [|c s IH]; [intros []; reflexivity|].
  cbn [app drop_spaces]. destruct (is_space c); [exact IH|reflexivity].
Qed.

Lemma strip_blanks (l s r : list ascii) :
  Forall (fun c => is_space c = true) l ->
  Forall (fun c => is_space c = true) r ->
  strip (l ++ s ++ r) = strip s.
Proof.
  intros Hl Hr. unfold strip. rewrite drop_spaces_blanks by assumption.
  destruct (drop_spaces s) as [|c t] eqn:E.
  - assert (Hs : drop_spaces (s ++ r) = []).
    { clear Hl. induction s as [|c s IH]; cbn [app].
      - apply drop_spaces_all, Hr.
      - cbn [drop_spaces] in E |- *. destruct (is_space c); [auto|discriminate]. }
    rewrite Hs. reflexivity.
  - rewrite drop_spaces_app by (rewrite E; discriminate). rewrite E.
    rewrite rev_app_distr.
    rewrite drop_spaces_blanks; [reflexivity|].
    apply List.Forall_rev, Hr.
Qed.

Lemma float_of_string_blanks (l r s : string) :
  Forall (fun c => is_space c = true) (String.list_ascii_of_string l) ->
  Forall (fun c => is_space c = true) (String.list_ascii_of_string r) ->
  float_of_string (l ++ s ++ r) = float_of_string s.
Proof.
  intros Hl Hr. unfold float_of_string.
  rewrite !list_ascii_of_string_app.
  rewrite strip_underscores_blanks_l by assumption.
  rewrite strip_underscores_blanks_r by assumption.
  destruct (strip_underscores None (String.list_ascii_of_string s)) as [s'|];
    [|reflexivity].
  cbn [fmap option_fmap option_map]. rewrite strip_blanks by assumption.
  reflexivity.
Qed.

End Blanks.

Lemma for_rows_same_value (rows1 rows2 : list (list string)) (acc : list float) :
  Forall2 (fun r1 r2 =>
             ((1 <? length r1)%nat = (1 <? length r2)%nat) /\
             PyFloat.float_of_string (nth 1 r1 EmptyString) =
             PyFloat.float_of_string (nth 1 r2 EmptyString))
          rows1 rows2 ->
  for_rows rows1 acc = for_rows rows2 acc.
Proof.
  intros H. revert acc.
  induction H as [|r1 r2 rows1 rows2 [Hlen Hcol] _ IH]; intros acc;
    [reflexivity|].
  cbn [for_rows]. unfold append_value. rewrite Hlen, Hcol.
  destruct (1 <? length r2)%nat; [|apply IH].
  destruct (PyFloat.float_of_string (nth 1 r2 EmptyString)); [apply IH|reflexivity].
Qed.

(** X20.  Blanks around a value do not count: when the data lines of two
    files differ in their second cells only by blanks (spaces, tabs and
    the like) put before and after the text of the cell, the two files
    decode alike: to the same values, or to the same error. *)
Theorem decode_ignores_blanks_around_values
        (text1 text2 : string) (rows1 rows2 : list (list string)) :
  Csv.read text1 = Ok rows1 ->
  Csv.read text2 = Ok rows2 ->
  Forall2 (fun r1 r2 =>
             ((1 <? length r1)%nat = (1 <? length r2)%nat) /\
             exists l r : string,
               PlainCsv.blank l = true /\ PlainCsv.blank r = true /\
               nth 1 r2 EmptyString = (l ++ nth 1 r1 EmptyString ++ r)%string)
          (tail rows1) (tail rows2) ->
  decode text1 = decode text2.
Proof.
  intros H1 H2 Hcols. unfold decode, numeric_values. rewrite H1, H2.
  cbn [mbind result_bind]. f_equal.
  apply for_rows_same_value.
  eapply Forall2_impl; [exact Hcols|].
  intros r1 r2 (Hlen & l & r & Hl & Hr & Hcell). split; [exact Hlen|].
  rewrite Hcell. symmetry. apply float_of_string_blanks.
  - apply Forall_forall. intros c Hc. unfold PlainCsv.blank in Hl.
    rewrite forallb_forall in Hl. apply Hl. apply list_elem_of_In, Hc.
  - apply Forall_forall. intros c Hc. unfold PlainCsv.blank in Hr.
    rewrite forallb_forall in Hr. apply Hr. apply list_elem_of_In, Hc.
Qed.

Lemma decode_ignores_blanks_around_values_witness :
  let text1 := Samples.csv_text ["1,10.5"; "2,11"; "3"] in
  let text2 := Samples.csv_text ["1, 10.5"; "2,  11 "; "4"] in
  let rows1 := [["timestamp"; "value"]; ["1"; "10.5"]; ["2"; "11"]; ["3"]]%string in
  let rows2 := [["timestamp"; "value"]; ["1"; " 10.5"]; ["2"; "  11 "]; ["4"]]%string in
  Csv.read text1 = Ok rows1 /\ Csv.read text2 = Ok rows2 /\
  decode text1 = decode text2.
Proof.
  intros text1 text2 rows1 rows2.
  assert (Csv.read text1 = Ok rows1) as H1 by (vm_compute; reflexivity).
  assert (Csv.read text2 = Ok rows2) as H2 by (vm_compute; reflexivity).
  split; [exact H1|]. split; [exact H2|].
  apply (decode_ignores_blanks_around_values text1 text2 rows1 rows2 H1 H2).
  cbn [tail rows1 rows2].
  constructor; [split; [reflexivity|]; exists " "%string, ""%string;
                repeat split; reflexivity|].
  constructor; [split; [reflexivity|]; exists "  "%string, " "%string;
                repeat split; reflexivity|].
  constructor; [split; [reflexivity|]; exists ""%string, ""%string;
                repeat split; reflexivity|].
  constructor.
Defined.
